(** * Extended XYZ reader: a shallow embedding of [xyz_tools/extended_reader.py]

    The development follows the source file top-down: the Python built-ins the
    reader calls ([int], [float], [bool], [str.split], [str.strip], slicing,
    [dict]), the regular expression [KV_REGEX] with [re.findall], the enum
    [ColumnDataType], the comment parser [__parse_extended_comment] and the
    frame reader [__read_frame] / [__next__].  [xyz_tools/reader.py] repeats
    the same code with [DataType] in place of [ColumnDataType].

    The file is opened with [encoding="ascii"], so every character the reader
    sees has a code below 128; the character classes below are the ones
    CPython uses on that range. *)

From Stdlib Require Import List String Ascii ZArith NArith Lia Bool Arith.
Import ListNotations.
Open Scope string_scope.

(** ** Exceptions and the two monads of the embedding *)

(** The built-in exceptions the reader can raise.  [AssertionError] carries
    the three numbers its message is formatted from (line 138). *)
Inductive exn : Type :=
| StopIteration
| ValueError
| KeyError (key : string)
| IndexError
| AttributeError
| AssertionError (expected got line : Z).

Inductive result (A : Type) : Type :=
| Ok (a : A)
| Raise (e : exn).
Arguments Ok {A} a.
Arguments Raise {A} e.

Definition bind {A B : Type} (c : result A) (k : A -> result B) : result B :=
  match c with
  | Ok a => k a
  | Raise e => Raise e
  end.

Notation "x <- c1 ;; c2" := (bind c1 (fun x => c2))
  (at level 61, c1 at next level, right associativity).

(** [of_option e o]: the value of [o], raising [e] when there is none. *)
Definition of_option {A : Type} (e : exn) (o : option A) : result A :=
  match o with
  | Some a => Ok a
  | None => Raise e
  end.

(** A computation over the line source [self.file]: the lines not yet read
    are threaded through, and are returned also when an exception escapes. *)
Definition Reader (A : Type) : Type := list string -> result A * list string.

Definition rret {A : Type} (a : A) : Reader A := fun ls => (Ok a, ls).

Definition rbind {A B : Type} (c : Reader A) (k : A -> Reader B) : Reader B :=
  fun ls =>
    match c ls with
    | (Ok a, ls') => k a ls'
    | (Raise e, ls') => (Raise e, ls')
    end.

Definition lift {A : Type} (c : result A) : Reader A := fun ls => (c, ls).

Notation "x <~ c1 ;; c2" := (rbind c1 (fun x => c2))
  (at level 61, c1 at next level, right associativity).

(** [next(self.file)]: the next line, or [StopIteration] at end of input. *)
Definition next_line : Reader string :=
  fun ls =>
    match ls with
    | [] => (Raise StopIteration, [])
    | l :: ls' => (Ok l, ls')
    end.

(** ** Python built-ins *)
Module Py.

Definition ord (c : ascii) : nat := nat_of_ascii c.

Definition between (lo hi : nat) (c : ascii) : bool :=
  (lo <=? ord c)%nat && (ord c <=? hi)%nat.

(** [Py_ISSPACE]: the white space [int] and [float] strip from an ASCII
    string (tab, line feed, vertical tab, form feed, carriage return, space). *)
Definition Py_ISSPACE (c : ascii) : bool :=
  between 9 13 c || (ord c =? 32)%nat.

(** [str.isspace] on one character, which is what [str.split()] and the
    regular expression classes [\s] and [\S] use: [Py_ISSPACE] and the four
    separators 0x1c to 0x1f. *)
Definition isspace (c : ascii) : bool :=
  Py_ISSPACE c || between 28 31 c.

Definition isdigit (c : ascii) : bool := between 48 57 c.

(** The regular expression class [\w]. *)
Definition isword (c : ascii) : bool :=
  isdigit c || between 65 90 c || between 97 122 c || (ord c =? 95)%nat.

Definition is_char (d : ascii) (c : ascii) : bool := Ascii.eqb c d.

Definition newline : ascii := "010"%char.
Definition dquote : ascii := "034"%char.

(** [s.split()]: the maximal runs of characters that are not white space. *)
Fixpoint split (s : string) : list string :=
  match s with
  | EmptyString => []
  | String c s' =>
      if isspace c then split s'
      else
        match s' with
        | EmptyString => [String c EmptyString]
        | String c' _ =>
            if isspace c' then String c EmptyString :: split s'
            else
              match split s' with
              | t :: ts => String c t :: ts
              | [] => [String c EmptyString]
              end
        end
  end.

(** [s.split(sep)] for a one-character separator: always at least one part. *)
Fixpoint split_on (sep : ascii) (s : string) : list string :=
  match s with
  | EmptyString => [EmptyString]
  | String c s' =>
      if Ascii.eqb c sep then EmptyString :: split_on sep s'
      else
        match split_on sep s' with
        | t :: ts => String c t :: ts
        | [] => [String c EmptyString]
        end
  end.

Fixpoint lstrip (p : ascii -> bool) (s : string) : string :=
  match s with
  | EmptyString => EmptyString
  | String c s' => if p c then lstrip p s' else s
  end.

Fixpoint rstrip (p : ascii -> bool) (s : string) : string :=
  match s with
  | EmptyString => EmptyString
  | String c s' =>
      match rstrip p s' with
      | EmptyString => if p c then EmptyString else String c EmptyString
      | r => String c r
      end
  end.

(** [s.strip(chars)], the characters to strip given as a predicate. *)
Definition strip (p : ascii -> bool) (s : string) : string :=
  rstrip p (lstrip p s).

(** The longest prefix of [s] whose characters satisfy [p], and the rest. *)
Fixpoint span (p : ascii -> bool) (s : string) : string * string :=
  match s with
  | EmptyString => (EmptyString, EmptyString)
  | String c s' =>
      if p c then let (a, b) := span p s' in (String c a, b)
      else (EmptyString, s)
  end.

Fixpoint forallb_string (p : ascii -> bool) (s : string) : bool :=
  match s with
  | EmptyString => true
  | String c s' => p c && forallb_string p s'
  end.

Definition nonempty (s : string) : bool :=
  match s with
  | EmptyString => false
  | String _ _ => true
  end.

(** Underscores in numeric text: each one must stand between two digits.
    The text without its underscores, or [None] when one is misplaced. *)
Fixpoint remove_underscores (prev : ascii) (s : string) : option string :=
  match s with
  | EmptyString => if is_char "_" prev then None else Some EmptyString
  | String c s' =>
      if is_char "_" c then
        if isdigit prev then remove_underscores c s' else None
      else if is_char "_" prev && negb (isdigit c) then None
      else option_map (String c) (remove_underscores c s')
  end.

Definition digit_value (c : ascii) : Z := Z.of_nat (ord c - 48).

Fixpoint digits_value (acc : Z) (s : string) : Z :=
  match s with
  | EmptyString => acc
  | String c s' => digits_value (10 * acc + digit_value c) s'
  end.

(** [sys.get_int_max_str_digits()], at its default. *)
Definition int_max_str_digits : nat := 4300.

(** An optional sign in front of [s]: whether it is a minus, and the rest. *)
Definition take_sign (s : string) : bool * string :=
  match s with
  | String c r =>
      if is_char "+" c then (false, r)
      else if is_char "-" c then (true, r)
      else (false, s)
  | EmptyString => (false, s)
  end.

Definition signed (neg : bool) (z : Z) : Z := if neg then (- z)%Z else z.

(** [int(s)] for a string [s], base 10: [None] stands for [ValueError]. *)
Definition int (s : string) : option Z :=
  let (neg, r) := take_sign (strip Py_ISSPACE s) in
  match remove_underscores "000"%char r with
  | None => None
  | Some d =>
      if nonempty d && forallb_string isdigit d
         && (length d <=? int_max_str_digits)%nat
      then Some (signed neg (digits_value 0 d))
      else None
  end.

(** A Python float, as far as the reader is concerned: the decimal numeral
    it was read from, [(-1)^neg * coef * 10^exp], an infinity or a NaN.  The
    rounding of the numeral to binary64 is not modelled; no operation of the
    reader computes with, or compares, floats. *)
Inductive pyfloat : Type :=
| FNan
| FInf (neg : bool)
| FDec (neg : bool) (coef : N) (exp : Z).

Definition lower (c : ascii) : ascii :=
  if between 65 90 c then ascii_of_nat (ord c + 32) else c.

Fixpoint lower_string (s : string) : string :=
  match s with
  | EmptyString => EmptyString
  | String c s' => String (lower c) (lower_string s')
  end.

Definition parse_inf_or_nan (neg : bool) (s : string) : option pyfloat :=
  let l := lower_string s in
  if String.eqb l "inf" || String.eqb l "infinity" then Some (FInf neg)
  else if String.eqb l "nan" then Some FNan
  else None.

(** The exponent part, after the mantissa: empty, or [e] or [E], an optional
    sign and at least one digit. *)
Definition parse_exponent (s : string) : option Z :=
  match s with
  | EmptyString => Some 0%Z
  | String c r =>
      if is_char "e" c || is_char "E" c then
        let (eneg, d) := take_sign r in
        if nonempty d && forallb_string isdigit d
        then Some (signed eneg (digits_value 0 d))
        else None
      else None
  end.

(** Digits, an optional point and more digits, with a digit somewhere, then
    the exponent part. *)
Definition parse_decimal (neg : bool) (s : string) : option pyfloat :=
  let (ip, r1) := span isdigit s in
  let (fp, r2) :=
    match r1 with
    | String c r => if is_char "." c then span isdigit r else (EmptyString, r1)
    | EmptyString => (EmptyString, r1)
    end in
  if nonempty ip || nonempty fp then
    match parse_exponent r2 with
    | Some e =>
        Some (FDec neg (Z.to_N (digits_value 0 (ip ++ fp)))
                (e - Z.of_nat (length fp))%Z)
    | None => None
    end
  else None.

(** [float(s)] for a string [s]: [None] stands for [ValueError]. *)
Definition float (s : string) : option pyfloat :=
  match remove_underscores "000"%char (strip Py_ISSPACE s) with
  | None => None
  | Some t =>
      let (neg, u) := take_sign t in
      match parse_decimal neg u with
      | Some f => Some f
      | None => parse_inf_or_nan neg u
      end
  end.

(** [bool(s)] for a string [s]: true unless [s] is empty. *)
Definition bool_of_str (s : string) : bool := nonempty s.

(** An index of a slice, brought into [0 .. len]. *)
Definition clamp (len i : Z) : Z :=
  let j := if (i <? 0)%Z then (i + len)%Z else i in
  if (j <? 0)%Z then 0%Z else if (len <? j)%Z then len else j.

(** [l[lo:hi]]. *)
Definition slice {A : Type} (l : list A) (lo hi : Z) : list A :=
  let n := Z.of_nat (List.length l) in
  let a := clamp n lo in
  let b := clamp n hi in
  firstn (Z.to_nat (b - a)) (skipn (Z.to_nat a) l).

(** A [dict] with string keys: the items in insertion order, every key once. *)
Definition dict (V : Type) : Type := list (string * V).

Fixpoint getitem {V : Type} (k : string) (d : dict V) : option V :=
  match d with
  | [] => None
  | (k', v) :: d' => if String.eqb k' k then Some v else getitem k d'
  end.

(** [d[k] = v]: a key already there keeps its place. *)
Fixpoint setitem {V : Type} (k : string) (v : V) (d : dict V) : dict V :=
  match d with
  | [] => [(k, v)]
  | (k', v') :: d' =>
      if String.eqb k' k then (k', v) :: d' else (k', v') :: setitem k v d'
  end.

(** [k in d]. *)
Definition contains {V : Type} (k : string) (d : dict V) : bool :=
  match getitem k d with
  | Some _ => true
  | None => false
  end.

Definition keys {V : Type} (d : dict V) : list string := map fst d.

Definition len {A : Type} (l : list A) : Z := Z.of_nat (List.length l).

Definition sum (l : list Z) : Z := fold_left Z.add l 0%Z.

End Py.

(** ** [KV_REGEX] and [re.findall] *)
Module Re.
Import Py.

(** The pattern is [(\w+)=(".*?"|\S+)].  A match that starts at a given
    position takes the whole run of word characters there as the key: the
    next pattern item is the character [=], which is not a word character, so
    no shorter key can be followed by it.  Nothing follows the value group, so
    the first alternative that matches is the one the engine keeps. *)

(** The rest of [".*?"] after the opening quote: the shortest run of
    characters other than a line feed that ends at a quote.  The text matched
    (closing quote included) and what follows it. *)
Fixpoint lazy_dot_quote (s : string) : option (string * string) :=
  match s with
  | EmptyString => None
  | String c s' =>
      if is_char dquote c then Some (String c EmptyString, s')
      else if is_char newline c then None
      else
        match lazy_dot_quote s' with
        | Some (t, r) => Some (String c t, r)
        | None => None
        end
  end.

(** First alternative of the value group, [".*?"]. *)
Definition match_quoted (s : string) : option (string * string) :=
  match s with
  | String c s' =>
      if is_char dquote c then
        match lazy_dot_quote s' with
        | Some (t, r) => Some (String c t, r)
        | None => None
        end
      else None
  | EmptyString => None
  end.

(** Second alternative of the value group, [\S+]. *)
Definition match_nonspace (s : string) : option (string * string) :=
  let (v, r) := span (fun c => negb (isspace c)) s in
  if nonempty v then Some (v, r) else None.

Definition match_value (s : string) : option (string * string) :=
  match match_quoted s with
  | Some m => Some m
  | None => match_nonspace s
  end.

(** A match of the whole pattern at the start of [s]: the two groups and the
    text after the match. *)
Definition match_here (s : string) : option (string * string * string) :=
  let (k, r) := span isword s in
  if nonempty k then
    match r with
    | String c r1 =>
        if is_char "=" c then
          match match_value r1 with
          | Some (v, r2) => Some (k, v, r2)
          | None => None
          end
        else None
    | EmptyString => None
    end
  else None.

(** The scan of [re.findall]: a match is recorded and the scan resumes after
    it; where there is none the scan moves one character on.  Every step
    consumes a character, so [fuel] above the length of [s] is never used up
    (lemma [findall_from_fuel]). *)
Fixpoint findall_from (fuel : nat) (s : string) : list (string * string) :=
  match fuel with
  | O => []
  | S fuel' =>
      match match_here s with
      | Some (k, v, r) => (k, v) :: findall_from fuel' r
      | None =>
          match s with
          | EmptyString => []
          | String _ s' => findall_from fuel' s'
          end
      end
  end.

(** [re.findall(KV_REGEX, s)]. *)
Definition findall (s : string) : list (string * string) :=
  findall_from (S (length s)) s.

End Re.

(** ** [extended_reader.py] *)
Module ExtXYZ.
Import Py.

Inductive ColumnDataType : Type := STRING | REAL | INT | BOOL.

(** What a column parser, or the typing of a comment value, produces. *)
Inductive scalar : Type :=
| VStr (s : string)
| VReal (f : pyfloat)
| VInt (z : Z)
| VBool (b : bool).

(** [ColumnDataType.get_parser] (lines 17-27): [str], [float], [int] or
    [bool], each applied to a token.  The final [else] of the source is not
    reachable, the enumeration having four members. *)
Definition get_parser (self : ColumnDataType) : string -> result scalar :=
  match self with
  | STRING => fun tok => Ok (VStr tok)
  | REAL => fun tok => f <- of_option ValueError (float tok) ;; Ok (VReal f)
  | INT => fun tok => z <- of_option ValueError (int tok) ;; Ok (VInt z)
  | BOOL => fun tok => Ok (VBool (bool_of_str tok))
  end.

(** [ColumnDataType.from_string] (lines 29-40). *)
Definition from_string (data_type : string) : result ColumnDataType :=
  if String.eqb data_type "S" then Ok STRING
  else if String.eqb data_type "R" then Ok REAL
  else if String.eqb data_type "I" then Ok INT
  else if String.eqb data_type "B" then Ok BOOL
  else Raise ValueError.

Record FrameProperties : Type := mkFrameProperties {
  label : string;
  datatype : ColumnDataType;
  column_count : Z
}.

Definition vector : Type := (pyfloat * pyfloat * pyfloat)%type.

(** The values [kv_dict] holds in the course of [__parse_extended_comment]:
    strings at first, then the decoded lattice and schema and the typed
    scalars. *)
Inductive kvalue : Type :=
| KScalar (v : scalar)
| KLattice (vs : list vector)
| KProperties (ps : list FrameProperties).

(** One per-atom entry of a column: a scalar, or the list of a property
    spanning several tokens. *)
Inductive entry : Type :=
| One (v : scalar)
| Many (vs : list scalar).

Record ExtXYZFrame : Type := mkExtXYZFrame {
  num_atoms : Z;
  LatticeVectors : list vector;
  FrameProperties_ : list FrameProperties;
  ExtraKV : dict kvalue;
  data : dict (list entry)
}.

(** Line 82: the dictionary comprehension over [kv_pairs], each value with
    the double quotes at its two ends stripped. *)
Definition build_kv_dict (kv_pairs : list (string * string)) : dict kvalue :=
  fold_left
    (fun d kv => setitem (fst kv) (KScalar (VStr (strip (is_char dquote) (snd kv)))) d)
    kv_pairs [].

(** [kv_dict[key]] where the source goes on to call a string method on it. *)
Definition getitem_str (key : string) (kv_dict : dict kvalue) : result string :=
  v <- of_option (KeyError key) (getitem key kv_dict) ;;
  match v with
  | KScalar (VStr s) => Ok s
  | _ => Raise AttributeError
  end.

(** Lines 84-86: [zip] over three references to the one iterator
    [map(float, tokens)], made into a list.  The iterator is advanced three times for each vector; each advance
    converts one token; the first advance that finds no token ends the
    list, and tokens converted for an unfinished vector are dropped. *)
Fixpoint lattice_vectors (tokens : list string) : result (list vector) :=
  match tokens with
  | [] => Ok []
  | t1 :: r1 =>
      x <- of_option ValueError (float t1) ;;
      match r1 with
      | [] => Ok []
      | t2 :: r2 =>
          y <- of_option ValueError (float t2) ;;
          match r2 with
          | [] => Ok []
          | t3 :: r3 =>
              z <- of_option ValueError (float t3) ;;
              vs <- lattice_vectors r3 ;;
              Ok ((x, y, z) :: vs)
          end
      end
  end.

(** Lines 90-94: the loop over [range(0, len(properties), 3)].  The element
    at [i] exists; those at [i + 1] and [i + 2] may not. *)
Fixpoint properties_list (properties : list string) : result (list FrameProperties) :=
  match properties with
  | [] => Ok []
  | label :: r1 =>
      match r1 with
      | [] => Raise IndexError
      | code :: r2 =>
          datatype <- from_string code ;;
          match r2 with
          | [] => Raise IndexError
          | count :: r3 =>
              column_count <- of_option ValueError (int count) ;;
              ps <- properties_list r3 ;;
              Ok (mkFrameProperties label datatype column_count :: ps)
          end
      end
  end.

(** Lines 103-120: integer, else real, else the literals [T] and [F], else
    the string as it is. *)
Definition infer_scalar (s : string) : scalar :=
  match int s with
  | Some z => VInt z
  | None =>
      match float s with
      | Some f => VReal f
      | None =>
          if String.eqb s "T" then VBool true
          else if String.eqb s "F" then VBool false
          else VStr s
      end
  end.

(** One round of the loop of lines 97-120. *)
Definition retype (item : string * kvalue) : string * kvalue :=
  let (key, v) := item in
  if String.eqb key "Lattice" then item
  else if String.eqb key "Properties" then item
  else
    match v with
    | KScalar (VStr s) => (key, KScalar (infer_scalar s))
    | _ => item
    end.

(** [ExtXYZReader.__parse_extended_comment] (lines 80-122). *)
Definition parse_extended_comment (comment : string) : result (dict kvalue) :=
  let kv_pairs := Re.findall comment in
  let kv_dict := build_kv_dict kv_pairs in
  lattice <- getitem_str "Lattice" kv_dict ;;
  vectors <- lattice_vectors (split lattice) ;;
  let kv_dict := setitem "Lattice" (KLattice vectors) kv_dict in
  properties <- getitem_str "Properties" kv_dict ;;
  props <- properties_list (split_on ":" properties) ;;
  let kv_dict := setitem "Properties" (KProperties props) kv_dict in
  Ok (map retype kv_dict).

(** [structured_comment["Properties"]], used as a list of [FrameProperties]. *)
Definition get_properties (structured_comment : dict kvalue) : result (list FrameProperties) :=
  v <- of_option (KeyError "Properties") (getitem "Properties" structured_comment) ;;
  match v with
  | KProperties ps => Ok ps
  | _ => Raise AttributeError
  end.

(** [structured_comment["Lattice"]], as stored in the frame. *)
Definition get_lattice (structured_comment : dict kvalue) : result (list vector) :=
  v <- of_option (KeyError "Lattice") (getitem "Lattice" structured_comment) ;;
  match v with
  | KLattice vs => Ok vs
  | _ => Raise AttributeError
  end.

(** [[parser(val) for val in raw_data]]. *)
Fixpoint parse_all (parser : string -> result scalar) (raw_data : list string) : result (list scalar) :=
  match raw_data with
  | [] => Ok []
  | val :: rest =>
      v <- parser val ;;
      vs <- parse_all parser rest ;;
      Ok (v :: vs)
  end.

(** [data[label].append(e)]. *)
Definition append_entry (label : string) (e : entry) (data : dict (list entry)) : result (dict (list entry)) :=
  col <- of_option (KeyError label) (getitem label data) ;;
  Ok (setitem label (col ++ [e])%list data).

(** Lines 141-152: the loop over the schema for one row. *)
Fixpoint props_loop (props : list FrameProperties) (split : list string) (offset : Z)
    (data : dict (list entry)) : result (dict (list entry)) :=
  match props with
  | [] => Ok data
  | prop :: props' =>
      let raw_data := slice split offset (offset + column_count prop) in
      let parser := get_parser (datatype prop) in
      let data := if contains (label prop) data then data
                  else setitem (label prop) [] data in
      e <- (if (column_count prop =? 1)%Z then
              tok <- of_option IndexError (nth_error raw_data 0) ;;
              v <- parser tok ;;
              Ok (One v)
            else
              vs <- parse_all parser raw_data ;;
              Ok (Many vs)) ;;
      data <- append_entry (label prop) e data ;;
      props_loop props' split (offset + column_count prop)%Z data
  end.

(** Lines 133-152: the loop over [range(num_atoms)], [n] rounds still to
    run, the next one with index [atom_idx]. *)
Fixpoint rows_loop (structured_comment : dict kvalue) (total_num_columns : Z)
    (n : nat) (atom_idx : Z) (data : dict (list entry)) : Reader (dict (list entry)) :=
  match n with
  | O => rret data
  | S n' =>
      line <~ next_line ;;
      let split := Py.split line in
      _ <~ lift (if (len split =? total_num_columns)%Z then Ok tt
                 else Raise (AssertionError total_num_columns (len split) (atom_idx + 3))) ;;
      props <~ lift (get_properties structured_comment) ;;
      data <~ lift (props_loop props split 0 data) ;;
      rows_loop structured_comment total_num_columns n' (atom_idx + 1)%Z data
  end.

(** Lines 158-162: the items whose key is neither [Lattice] nor
    [Properties]. *)
Definition extra_kv (structured_comment : dict kvalue) : dict kvalue :=
  filter (fun item => negb (String.eqb (fst item) "Lattice" || String.eqb (fst item) "Properties"))
    structured_comment.

(** [ExtXYZReader.__read_frame] (lines 124-164). *)
Definition read_frame : Reader ExtXYZFrame :=
  first <~ next_line ;;
  num_atoms <~ lift (of_option ValueError (int first)) ;;
  comment <~ next_line ;;
  structured_comment <~ lift (parse_extended_comment comment) ;;
  props <~ lift (get_properties structured_comment) ;;
  let total_num_columns := sum (map column_count props) in
  data <~ rows_loop structured_comment total_num_columns (Z.to_nat num_atoms) 0 [] ;;
  lattice <~ lift (get_lattice structured_comment) ;;
  props <~ lift (get_properties structured_comment) ;;
  rret (mkExtXYZFrame num_atoms lattice props (extra_kv structured_comment) data).

(** [ExtXYZReader.__next__] (lines 172-173).  The iterator protocol reads a
    [StopIteration] that leaves [__next__] as the end of the sequence. *)
Definition __next__ : Reader ExtXYZFrame := read_frame.

End ExtXYZ.

(** ** Vocabulary of the specification *)
Module Spec.
Import Py ExtXYZ.

(** The specification names its errors by kind; the source raises Python's
    built-in exceptions.  A header error is one of the three exceptions
    [__parse_extended_comment] lets through, a row error is the failed
    assertion of line 136, and the end of the sequence is [StopIteration]
    leaving [__next__]. *)
Definition MalformedHeader (e : exn) : Prop :=
  (exists key, e = KeyError key) \/ e = ValueError \/ e = IndexError.

Definition MalformedRow (e : exn) : Prop :=
  exists expected got line, e = AssertionError expected got line.

Definition end_of_sequence {A : Type} (r : result A) : Prop :=
  r = Raise StopIteration.

(** Consecutive groups of three; what is left of an unfinished group is
    dropped. *)
Fixpoint triples {A : Type} (l : list A) : list (A * A * A) :=
  match l with
  | a :: b :: c :: r => (a, b, c) :: triples r
  | _ => []
  end.

Definition flatten {A : Type} (l : list (A * A * A)) : list A :=
  flat_map (fun t => [fst (fst t); snd (fst t); snd t]) l.

(** [sep.join(parts)]. *)
Fixpoint join (sep : ascii) (parts : list string) : string :=
  match parts with
  | [] => EmptyString
  | [p] => p
  | p :: rest => p ++ String sep (join sep rest)
  end.

(** The value paired with the last occurrence of [key] in [kv_pairs]. *)
Fixpoint last_value (key : string) (kv_pairs : list (string * string)) : option string :=
  match kv_pairs with
  | [] => None
  | (k, v) :: rest =>
      match last_value key rest with
      | Some v' => Some v'
      | None => if String.eqb k key then Some v else None
      end
  end.

(** The dictionary of line 82 for a comment line. *)
Definition kv_dict (comment : string) : dict kvalue :=
  build_kv_dict (Re.findall comment).

(** The dictionary [__parse_extended_comment] returns, from the one of
    line 82 and the decoded lattice and schema. *)
Definition finished (kv : dict kvalue) (vectors : list vector) (props : list FrameProperties)
  : dict kvalue :=
  map retype (setitem "Properties" (KProperties props) (setitem "Lattice" (KLattice vectors) kv)).

(** The one-character codes of the column types. *)
Definition type_code (t : ColumnDataType) : string :=
  match t with
  | STRING => "S"
  | REAL => "R"
  | INT => "I"
  | BOOL => "B"
  end.

(** A triple of the colon split and the property decoded from it. *)
Definition decodes (t : string * string * string) (p : FrameProperties) : Prop :=
  label p = fst (fst t)
  /\ from_string (snd (fst t)) = Ok (datatype p)
  /\ int (snd t) = Some (column_count p).

(** The number of entries of the column of [label], none when the label is
    not a key. *)
Definition column_length (label : string) (data : dict (list entry)) : nat :=
  match getitem label data with
  | Some col => List.length col
  | None => 0
  end.

(** The shape of an entry contributed by property [p]: one scalar when the
    property has one column, a list of [column_count] scalars otherwise. *)
Definition entry_shape (p : FrameProperties) (e : entry) : Prop :=
  if (column_count p =? 1)%Z then exists v, e = One v
  else exists vs, e = Many vs /\ len vs = column_count p.

Definition labels (props : list FrameProperties) : list string := map label props.

(** Every entry of every column has the shape of a property of [props]
    declared with the label of the column. *)
Definition shaped (props : list FrameProperties) (data : dict (list entry)) : Prop :=
  forall l col,
    getitem l data = Some col ->
    Forall (fun e => exists q, In q props /\ label q = l /\ entry_shape q e) col.

(** Sample input: the frame of the end-to-end scenario. *)
Definition nl : string := String newline EmptyString.
Definition quoted (s : string) : string :=
  String dquote EmptyString ++ s ++ String dquote EmptyString.

Definition sample_comment : string :=
  "Lattice=" ++ quoted "1 0 0 0 1 0 0 0 1"
  ++ " Properties=species:S:1:pos:R:3 Energy=-1.5" ++ nl.

(** A comment line in which the key [run] occurs twice. *)
Definition repeated_key_comment : string :=
  "Lattice=" ++ quoted "1 0 0 0 1 0 0 0 1"
  ++ " run=1 Properties=species:S:1 run=2" ++ nl.

(** Comment lines whose lattice has six and ten reals. *)
Definition six_reals_comment : string :=
  "Lattice=" ++ quoted "1 0 0 0 1 0" ++ " Properties=species:S:1" ++ nl.

Definition ten_reals_comment : string :=
  "Lattice=" ++ quoted "1 0 0 0 1 0 0 0 1 7" ++ " Properties=species:S:1" ++ nl.

(** Comment lines whose schema declares a count of zero and a negative
    count. *)
Definition zero_count_comment : string :=
  "Lattice=" ++ quoted "1 0 0 0 1 0 0 0 1" ++ " Properties=species:S:0" ++ nl.

Definition negative_count_comment : string :=
  "Lattice=" ++ quoted "1 0 0 0 1 0 0 0 1" ++ " Properties=pad:S:-1:species:S:2" ++ nl.

(** The reals 0 and 1, as [float] reads them from the numerals [0] and [1]. *)
Definition zero : pyfloat := FDec false 0 0.
Definition one : pyfloat := FDec false 1 0.

(** Input for the frame assembler: no atoms, a label declared twice, a
    negative column count. *)
Definition no_atoms_lines : list string :=
  ["0" ++ nl;
   "Lattice=" ++ quoted "1 0 0 0 1 0 0 0 1" ++ " Properties=species:S:1" ++ nl].

Definition repeated_label_lines : list string :=
  ["1" ++ nl;
   "Lattice=" ++ quoted "1 0 0 0 1 0 0 0 1" ++ " Properties=tag:S:1:tag:I:1" ++ nl;
   "a 7" ++ nl].

Definition negative_count_lines : list string :=
  ["1" ++ nl; negative_count_comment; "H" ++ nl].

Definition sample_lines : list string :=
  ["2" ++ nl; sample_comment; "O 0.0 0.0 0.0" ++ nl; "H 0.0 0.0 1.0" ++ nl].

(** The frame the reader returns on [sample_lines]. *)
Definition sample_frame : ExtXYZFrame :=
  mkExtXYZFrame 2
    [(one, zero, zero); (zero, one, zero); (zero, zero, one)]
    [mkFrameProperties "species" STRING 1; mkFrameProperties "pos" REAL 3]
    [("Energy", KScalar (VReal (FDec true 15 (-1))))]
    [("species", [One (VStr "O"); One (VStr "H")]);
     ("pos", [Many [VReal (FDec false 0 (-1)); VReal (FDec false 0 (-1));
                    VReal (FDec false 0 (-1))];
              Many [VReal (FDec false 0 (-1)); VReal (FDec false 0 (-1));
                    VReal (FDec false 10 (-1))]])].

End Spec.

(** ** [classic_reader.py] *)
Module ClassicXYZ.
Import Py.

(** What [parse_numeric] returns: an [int] or a [float]. *)
Inductive numeric : Type :=
| NInt (z : Z)
| NFloat (f : pyfloat).

(** An atom label: the integer the first token reads as, or the token. *)
Inductive atom_label : Type :=
| LInt (z : Z)
| LStr (s : string).

Record XYZFrame : Type := mkXYZFrame {
  num_atoms : Z;
  comment : string;
  atom_labels : list atom_label;
  pos_x : list pyfloat;
  pos_y : list pyfloat;
  pos_z : list pyfloat;
  extra : list (list numeric)
}.

(** [parse_numeric] (lines 16-20): [int], and [float] where [int] raises
    [ValueError]; the [ValueError] of [float] is let through. *)
Definition parse_numeric (value : string) : result numeric :=
  match int value with
  | Some z => Ok (NInt z)
  | None => f <- of_option ValueError (float value) ;; Ok (NFloat f)
  end.

(** Lines 39-44: the label stays a string where [int] raises. *)
Definition label_of (token : string) : atom_label :=
  match int token with
  | Some z => LInt z
  | None => LStr token
  end.

(** [row[i]] for an index that is not negative. *)
Definition item {A : Type} (row : list A) (i : nat) : result A :=
  of_option IndexError (nth_error row i).

(** [l[i] = v] for an index in range. *)
Fixpoint set_nth {A : Type} (i : nat) (v : A) (l : list A) : list A :=
  match l, i with
  | [], _ => []
  | _ :: l', O => v :: l'
  | x :: l', S i' => x :: set_nth i' v l'
  end.

(** Lines 50-55: the loop over [enumerate(row[4:])], [idx] being the index
    of the first datum of [data].  [extra_data[idx]] raises [IndexError]
    when there is no such column yet, and the handler appends a new one. *)
Fixpoint extra_loop (data : list string) (idx : nat) (extra_data : list (list numeric))
  : result (list (list numeric)) :=
  match data with
  | [] => Ok extra_data
  | datum :: rest =>
      num <- parse_numeric datum ;;
      let extra_data :=
        match nth_error extra_data idx with
        | Some col => set_nth idx (col ++ [num])%list extra_data
        | None => (extra_data ++ [[num]])%list
        end in
      extra_loop rest (S idx) extra_data
  end.

(** The five lists a frame is assembled in. *)
Record columns : Type := mkColumns {
  labels : list atom_label;
  xs : list pyfloat;
  ys : list pyfloat;
  zs : list pyfloat;
  extra_data : list (list numeric)
}.

(** Lines 37-55: one round of the loop over the rows, on the split row. *)
Definition row_round (row : list string) (st : columns) : result columns :=
  token <- item row 0 ;;
  let atom_label := label_of token in
  t1 <- item row 1 ;;
  x <- of_option ValueError (float t1) ;;
  t2 <- item row 2 ;;
  y <- of_option ValueError (float t2) ;;
  t3 <- item row 3 ;;
  z <- of_option ValueError (float t3) ;;
  extra <- extra_loop (skipn 4 row) 0 (extra_data st) ;;
  Ok (mkColumns (labels st ++ [atom_label])%list (xs st ++ [x])%list
        (ys st ++ [y])%list (zs st ++ [z])%list extra).

(** Lines 36-55: the loop over [range(num_atoms)], [n] rounds to run. *)
Fixpoint rows_loop (n : nat) (st : columns) : Reader columns :=
  match n with
  | O => rret st
  | S n' =>
      line <~ next_line ;;
      st <~ lift (row_round (split line) st) ;;
      rows_loop n' st
  end.

(** [XYZReader.__read_frame] (lines 27-57). *)
Definition read_frame : Reader XYZFrame :=
  first <~ next_line ;;
  num_atoms <~ lift (of_option ValueError (int first)) ;;
  comment <~ next_line ;;
  st <~ rows_loop (Z.to_nat num_atoms) (mkColumns [] [] [] [] []) ;;
  rret (mkXYZFrame num_atoms comment (labels st) (xs st) (ys st) (zs st) (extra_data st)).

(** [XYZReader.__next__] (lines 62-63). *)
Definition __next__ : Reader XYZFrame := read_frame.

End ClassicXYZ.

(** ** Iterating over a reader *)
Module Iteration.

(** A [for] loop over a reader: [__iter__] (lines 169-170) hands back the
    reader itself, and [__next__] is called until it raises.  The frames
    the body of the loop receives, in order, and the exception that ended
    the loop when it was not [StopIteration].  A frame takes at least two
    lines, so [fuel] above the number of lines is never used up. *)
Fixpoint iterate_fuel (fuel : nat) (ls : list string) : list ExtXYZ.ExtXYZFrame * option exn :=
  match fuel with
  | O => ([], None)
  | S fuel' =>
      match ExtXYZ.__next__ ls with
      | (Ok fr, rest) =>
          let (frs, e) := iterate_fuel fuel' rest in (fr :: frs, e)
      | (Raise StopIteration, _) => ([], None)
      | (Raise e, _) => ([], Some e)
      end
  end.

Definition iterate (ls : list string) : list ExtXYZ.ExtXYZFrame * option exn :=
  iterate_fuel (S (List.length ls)) ls.

End Iteration.

(** ** Vocabulary for the layout of rows and columns *)
Module Layout.
Import Py ExtXYZ.

(** Lines 142-150: the entry a property takes from the tokens of a row,
    its slice starting at [offset]. *)
Definition slot_entry (prop : FrameProperties) (split : list string) (offset : Z) : result entry :=
  let raw_data := slice split offset (offset + column_count prop) in
  let parser := get_parser (datatype prop) in
  if (column_count prop =? 1)%Z then
    tok <- of_option IndexError (nth_error raw_data 0) ;;
    v <- parser tok ;;
    Ok (One v)
  else
    vs <- parse_all parser raw_data ;;
    Ok (Many vs).

(** The entries of one row, one for each property of the schema in order,
    the slices laid side by side from [offset] on. *)
Fixpoint row_entries (props : list FrameProperties) (split : list string) (offset : Z)
  : result (list entry) :=
  match props with
  | [] => Ok []
  | prop :: props' =>
      e <- slot_entry prop split offset ;;
      es <- row_entries props' split (offset + column_count prop)%Z ;;
      Ok (e :: es)
  end.

(** Among labelled entries, those labelled [l], in order. *)
Definition pick {A : Type} (l : string) (les : list (string * A)) : list A :=
  map snd (filter (fun le => String.eqb (fst le) l) les).

(** The labels in the order in which they are first seen. *)
Fixpoint first_seen (ls : list string) : list string :=
  match ls with
  | [] => []
  | l :: ls' => l :: filter (fun l' => negb (String.eqb l' l)) (first_seen ls')
  end.

(** One entry added to the column of a label, the column made first when
    the label is new (lines 144-150, once the entry is there). *)
Definition add_entry (l : string) (e : entry) (data : dict (list entry)) : dict (list entry) :=
  let data := if contains l data then data else setitem l [] data in
  match getitem l data with
  | Some col => setitem l (col ++ [e])%list data
  | None => data
  end.

Fixpoint add_entries (les : list (string * entry)) (data : dict (list entry)) : dict (list entry) :=
  match les with
  | [] => data
  | (l, e) :: les' => add_entries les' (add_entry l e data)
  end.

(** The entries of all the rows added, row after row. *)
Definition add_rows (ls : list string) (ess : list (list entry)) (data : dict (list entry))
  : dict (list entry) :=
  fold_left (fun d es => add_entries (combine ls es) d) ess data.

(** The column of a label, empty when the label is not a key. *)
Definition column_of {A : Type} (l : string) (data : dict (list A)) : list A :=
  match getitem l data with
  | Some col => col
  | None => []
  end.

(** Column [j] of a list of rows: the [j]-th item of every row that has
    one, row after row. *)
Definition column {A : Type} (j : nat) (rows : list (list A)) : list A :=
  flat_map (fun row => match nth_error row j with Some x => [x] | None => [] end) rows.

(** A comment line written out: every item as [key=value], the value
    between double quotes when [quote] is set, the items one space apart. *)
Definition write_item (item : string * bool * string) : string :=
  let '(key, quote, value) := item in
  (key ++ "=" ++ (if quote then Spec.quoted value else value))%string.

Fixpoint write_comment (items : list (string * bool * string)) : string :=
  match items with
  | [] => EmptyString
  | [item] => write_item item
  | item :: rest => (write_item item ++ " " ++ write_comment rest)%string
  end.

(** The text [re.findall] extracts for a written item as its value, and the
    value the dictionary of line 82 keeps for it. *)
Definition raw_pair (item : string * bool * string) : string * string :=
  let '(key, quote, value) := item in
  (key, if quote then Spec.quoted value else value).

Definition kept_pair (item : string * bool * string) : string * string :=
  let '(key, quote, value) := item in (key, value).

(** What may be written without quotes: word characters for a key; for a
    value, at least one character, none of them white space, the first one no
    double quote, the last one no double quote. *)
Definition plain_key (key : string) : bool :=
  nonempty key && forallb_string isword key.

Definition bare_value (value : string) : bool :=
  match value with
  | String c _ => negb (is_char dquote c)
  | EmptyString => false
  end
  && forallb_string (fun c => negb (isspace c)) value
  && String.eqb (strip (is_char dquote) value) value.

(** What may be written between quotes: no double quote and no line feed. *)
Definition quotable_value (value : string) : bool :=
  forallb_string (fun c => negb (is_char dquote c) && negb (is_char newline c)) value.

Definition writable (item : string * bool * string) : bool :=
  let '(key, quote, value) := item in
  plain_key key && (if quote then quotable_value value else bare_value value).

(** Sample input for the classic reader: two atoms, the first row with two
    more columns than the four every row has, the second with one. *)
Definition classic_lines : list string :=
  [("2" ++ Spec.nl)%string; ("water" ++ Spec.nl)%string;
   ("O 0.0 0.0 0.0 8 -0.8" ++ Spec.nl)%string; ("1 0.0 0.0 1.0 1" ++ Spec.nl)%string].

Definition classic_frame : ClassicXYZ.XYZFrame :=
  ClassicXYZ.mkXYZFrame 2 ("water" ++ Spec.nl)%string
    [ClassicXYZ.LStr "O"; ClassicXYZ.LInt 1]
    [FDec false 0 (-1); FDec false 0 (-1)]
    [FDec false 0 (-1); FDec false 0 (-1)]
    [FDec false 0 (-1); FDec false 10 (-1)]
    [[ClassicXYZ.NInt 8; ClassicXYZ.NInt 1]; [ClassicXYZ.NFloat (FDec true 8 (-1))]].

End Layout.


Import Py ExtXYZ Spec.

(** * Properties *)

(** ** The monads *)

Lemma bind_Ok {A B : Type} (c : result A) (k : A -> result B) (b : B) :
  bind c k = Ok b -> exists a, c = Ok a /\ k a = Ok b.
Proof.
  destruct c as [a|e]; simpl; intros H; [exists a; auto | discriminate].
Qed.

Lemma bind_Raise {A B : Type} (c : result A) (k : A -> result B) (e : exn) :
  bind c k = Raise e -> c = Raise e \/ exists a, c = Ok a /\ k a = Raise e.
Proof.
  destruct c as [a|e']; simpl; intros H; [right; exists a; auto | left; congruence].
Qed.

Lemma of_option_Ok {A : Type} (e : exn) (o : option A) (a : A) :
  of_option e o = Ok a -> o = Some a.
Proof. destruct o; simpl; congruence. Qed.

(** ** Dictionaries *)
Section DictFacts.
Context {V : Type}.
Implicit Types (d : dict V) (k : string) (v : V).

Lemma getitem_setitem_same d k v : getitem k (setitem k v d) = Some v.
Proof.
  induction d as [|[k' v'] d IH]; simpl.
  - now rewrite String.eqb_refl.
  - destruct (String.eqb k' k) eqn:E; simpl; rewrite E; auto.
Qed.

Lemma getitem_setitem_other d k k' v :
  k <> k' -> getitem k (setitem k' v d) = getitem k d.
Proof.
  intros Hne. induction d as [|[k0 v0] d IH]; simpl.
  - destruct (String.eqb k' k) eqn:E; auto.
    apply String.eqb_eq in E. congruence.
  - destruct (String.eqb k0 k') eqn:E; simpl.
    + apply String.eqb_eq in E. subst k0.
      destruct (String.eqb k' k) eqn:E'; auto.
      apply String.eqb_eq in E'. congruence.
    + now rewrite IH.
Qed.

Lemma keys_setitem_present d k v :
  getitem k d <> None -> keys (setitem k v d) = keys d.
Proof.
  unfold keys. induction d as [|[k0 v0] d IH]; simpl; intros H.
  - congruence.
  - destruct (String.eqb k0 k) eqn:E; simpl; auto.
    f_equal. auto.
Qed.

Lemma keys_setitem_absent d k v :
  getitem k d = None -> keys (setitem k v d) = (keys d ++ [k])%list.
Proof.
  unfold keys. induction d as [|[k0 v0] d IH]; simpl; intros H; auto.
  destruct (String.eqb k0 k) eqn:E; simpl; [discriminate|].
  f_equal. auto.
Qed.

Lemma getitem_None_keys d k : getitem k d = None <-> ~ In k (keys d).
Proof.
  induction d as [|[k0 v0] d IH]; simpl.
  - tauto.
  - destruct (String.eqb k0 k) eqn:E.
    + apply String.eqb_eq in E. split; [discriminate | tauto].
    + apply String.eqb_neq in E. rewrite IH. tauto.
Qed.

Lemma NoDup_keys_setitem d k v : NoDup (keys d) -> NoDup (keys (setitem k v d)).
Proof.
  intros Hnd. destruct (getitem k d) eqn:E.
  - rewrite keys_setitem_present; [auto | congruence].
  - rewrite keys_setitem_absent by auto.
    apply getitem_None_keys in E.
    apply NoDup_rev in Hnd. rewrite <- (rev_involutive (keys d ++ [k])).
    apply NoDup_rev. rewrite rev_app_distr. simpl.
    constructor; [rewrite <- in_rev; auto | auto].
Qed.

Lemma getitem_map (f : string * V -> string * V) d k :
  (forall item, fst (f item) = fst item) ->
  getitem k (map f d) = option_map (fun v => snd (f (k, v))) (getitem k d).
Proof.
  intros Hf. induction d as [|[k0 v0] d IH]; simpl; auto.
  specialize (Hf (k0, v0)) as Hk. destruct (f (k0, v0)) as [k1 v1] eqn:E.
  simpl in Hk. subst k1.
  destruct (String.eqb k0 k) eqn:E'; auto.
  apply String.eqb_eq in E'. subst k0. simpl. now rewrite E.
Qed.

Lemma keys_map (f : string * V -> string * V) d :
  (forall item, fst (f item) = fst item) -> keys (map f d) = keys d.
Proof.
  intros Hf. unfold keys. rewrite map_map. apply map_ext. auto.
Qed.
End DictFacts.

(** ** Scalar coercion *)

(** The parser of a boolean column is [bool]: it never raises, and its
    result is true on every token that is not empty. *)
Lemma get_parser_BOOL (tok : string) :
  get_parser BOOL tok = Ok (VBool (nonempty tok)).
Proof. reflexivity. Qed.

(** The tokens of a row are never empty, so a boolean column holds [True]
    throughout. *)
Lemma split_tokens_nonempty (s : string) :
  Forall (fun tok => nonempty tok = true) (split s).
Proof.
  induction s as [|c s IH]; simpl; [constructor|].
  destruct (isspace c); auto.
  destruct s as [|c' s']; [repeat constructor|].
  destruct (isspace c'); [constructor; auto|].
  destruct (split (String c' s')) as [|t ts]; [repeat constructor|].
  inversion IH; subst. constructor; auto.
Qed.

(** C1, at the failing input: the parser of a boolean column
    ([ColumnDataType.get_parser], and word for word [DataType.get_parser] of
    [reader.py]) maps the literal [F] to true, and maps every token of every
    row to true without raising; a frame whose boolean column reads [F] and
    [T] holds [True] twice; the typing of free-form comment values maps the
    same [F] to false. *)
Theorem C1_bool_column_reads_F_as_true :
  get_parser BOOL "F" = Ok (VBool true)
  /\ (forall line,
        Forall (fun tok => get_parser BOOL tok = Ok (VBool true)) (split line))
  /\ (exists fr,
        __next__ ["2" ++ nl;
                  "Lattice=" ++ quoted "1 0 0 0 1 0 0 0 1" ++ " Properties=fixed:B:1" ++ nl;
                  "F" ++ nl; "T" ++ nl] = (Ok fr, [])
        /\ data fr = [("fixed", [One (VBool true); One (VBool true)])])
  /\ infer_scalar "F" = VBool false.
Proof.
  split; [reflexivity|]. split; [|split; [|reflexivity]].
  - intros line. eapply Forall_impl; [|apply split_tokens_nonempty].
    intros tok Htok. rewrite get_parser_BOOL, Htok. reflexivity.
  - vm_compute. eexists. split; reflexivity.
Qed.

(** ** The key/value dictionary of a comment line *)

Lemma fold_setitem_getitem (kv_pairs : list (string * string)) (d : dict kvalue) (key : string) :
  getitem key
    (fold_left
       (fun d kv => setitem (fst kv) (KScalar (VStr (strip (is_char dquote) (snd kv)))) d)
       kv_pairs d)
  = match last_value key kv_pairs with
    | Some v => Some (KScalar (VStr (strip (is_char dquote) v)))
    | None => getitem key d
    end.
Proof.
  revert d. induction kv_pairs as [|[k v] rest IH]; intros d; simpl; auto.
  rewrite IH. destruct (last_value key rest); auto.
  destruct (String.eqb k key) eqn:E.
  - apply String.eqb_eq in E. subst k. apply getitem_setitem_same.
  - apply String.eqb_neq in E. apply getitem_setitem_other. congruence.
Qed.

Lemma fold_setitem_NoDup (kv_pairs : list (string * string)) (d : dict kvalue) :
  NoDup (keys d) ->
  NoDup (keys (fold_left
       (fun d kv => setitem (fst kv) (KScalar (VStr (strip (is_char dquote) (snd kv)))) d)
       kv_pairs d)).
Proof.
  revert d. induction kv_pairs as [|[k v] rest IH]; intros d Hd; simpl; auto.
  apply IH. now apply NoDup_keys_setitem.
Qed.

Lemma build_kv_dict_getitem (kv_pairs : list (string * string)) (key : string) :
  getitem key (build_kv_dict kv_pairs)
  = option_map (fun v => KScalar (VStr (strip (is_char dquote) v))) (last_value key kv_pairs).
Proof.
  unfold build_kv_dict. rewrite fold_setitem_getitem.
  destruct (last_value key kv_pairs); reflexivity.
Qed.

Lemma build_kv_dict_NoDup (kv_pairs : list (string * string)) :
  NoDup (keys (build_kv_dict kv_pairs)).
Proof. apply fold_setitem_NoDup. constructor. Qed.

Lemma last_value_In (key : string) (kv_pairs : list (string * string)) :
  In key (map fst kv_pairs) -> exists v, last_value key kv_pairs = Some v.
Proof.
  induction kv_pairs as [|[k v] rest IH]; simpl; [tauto|].
  intros [Hk|Hin].
  - subst k. rewrite String.eqb_refl. destruct (last_value key rest); eauto.
  - destruct (IH Hin) as [v' Hv']. rewrite Hv'. eauto.
Qed.

(** Every value of the dictionary of line 82 is a string. *)
Lemma kv_dict_values_str (comment key : string) (v : kvalue) :
  getitem key (kv_dict comment) = Some v -> exists s, v = KScalar (VStr s).
Proof.
  unfold kv_dict. rewrite build_kv_dict_getitem.
  destruct (last_value key (Re.findall comment)); simpl; [|discriminate].
  intros H. injection H as <-. eauto.
Qed.

Lemma getitem_str_kv_dict (comment key : string) :
  getitem_str key (kv_dict comment)
  = match getitem key (kv_dict comment) with
    | Some (KScalar (VStr s)) => Ok s
    | _ => Raise (KeyError key)
    end.
Proof.
  unfold getitem_str. destruct (getitem key (kv_dict comment)) as [v|] eqn:E; simpl; auto.
  destruct (kv_dict_values_str _ _ _ E) as [s ->]. reflexivity.
Qed.

(** ** The comment parser, step by step *)

Lemma retype_fst (item : string * kvalue) : fst (retype item) = fst item.
Proof.
  destruct item as [k v]. unfold retype.
  destruct (String.eqb k "Lattice"); auto.
  destruct (String.eqb k "Properties"); auto.
  destruct v as [[s|f|z|b]|vs|ps]; auto.
Qed.

Lemma parse_extended_comment_unfold (comment : string) :
  parse_extended_comment comment
  = (lattice <- getitem_str "Lattice" (kv_dict comment) ;;
     vectors <- lattice_vectors (split lattice) ;;
     properties <- getitem_str "Properties" (kv_dict comment) ;;
     props <- properties_list (split_on ":" properties) ;;
     Ok (finished (kv_dict comment) vectors props)).
Proof.
  unfold parse_extended_comment, kv_dict, finished.
  destruct (getitem_str "Lattice" (build_kv_dict (Re.findall comment))) as [lattice|e]; simpl; auto.
  destruct (lattice_vectors (split lattice)) as [vectors|e]; simpl; auto.
  unfold getitem_str. rewrite getitem_setitem_other by discriminate. reflexivity.
Qed.

Lemma get_lattice_finished kv vectors props :
  get_lattice (finished kv vectors props) = Ok vectors.
Proof.
  unfold get_lattice, finished.
  rewrite (getitem_map retype) by apply retype_fst.
  rewrite getitem_setitem_other by discriminate.
  rewrite getitem_setitem_same. reflexivity.
Qed.

Lemma get_properties_finished kv vectors props :
  get_properties (finished kv vectors props) = Ok props.
Proof.
  unfold get_properties, finished.
  rewrite (getitem_map retype) by apply retype_fst.
  rewrite getitem_setitem_same. reflexivity.
Qed.

(** What a successful parse of the comment line went through. *)
Lemma parse_extended_comment_Ok (comment : string) (d : dict kvalue) :
  parse_extended_comment comment = Ok d ->
  exists lattice vectors properties props,
    getitem "Lattice" (kv_dict comment) = Some (KScalar (VStr lattice))
    /\ lattice_vectors (split lattice) = Ok vectors
    /\ getitem "Properties" (kv_dict comment) = Some (KScalar (VStr properties))
    /\ properties_list (split_on ":" properties) = Ok props
    /\ d = finished (kv_dict comment) vectors props.
Proof.
  rewrite parse_extended_comment_unfold. rewrite !getitem_str_kv_dict.
  intros H.
  apply bind_Ok in H as (lattice & Hl & H).
  apply bind_Ok in H as (vectors & Hv & H).
  apply bind_Ok in H as (properties & Hp & H).
  apply bind_Ok in H as (props & Hps & H).
  injection H as <-.
  exists lattice, vectors, properties, props.
  destruct (getitem "Lattice" (kv_dict comment)) as [[[s| | |]| |]|]; try discriminate.
  injection Hl as ->.
  destruct (getitem "Properties" (kv_dict comment)) as [[[s| | |]| |]|]; try discriminate.
  injection Hp as ->. auto.
Qed.

Lemma keys_finished kv vectors props :
  getitem "Lattice" kv <> None -> getitem "Properties" kv <> None ->
  keys (finished kv vectors props) = keys kv.
Proof.
  intros HL HP. unfold finished.
  rewrite keys_map by apply retype_fst.
  rewrite keys_setitem_present.
  - now apply keys_setitem_present.
  - rewrite getitem_setitem_other by discriminate. auto.
Qed.

Lemma getitem_finished_extra kv vectors props key :
  key <> "Lattice" -> key <> "Properties" ->
  getitem key (finished kv vectors props)
  = option_map (fun v => snd (retype (key, v))) (getitem key kv).
Proof.
  intros HL HP. unfold finished.
  rewrite (getitem_map retype) by apply retype_fst.
  rewrite !getitem_setitem_other by auto. reflexivity.
Qed.

(** ** Duplicate keys *)

(** C9: a key that occurs in the key=value tokens [re.findall] extracts from
    a comment line, however many times, is a key of the dictionary of line 82
    exactly once, bound to the (quote-stripped) value of its last
    occurrence; a comment line that parses keeps the key exactly once, and
    binds a key other than [Lattice] and [Properties] to the typed form of
    that same last value. *)
Theorem C9_duplicate_key_last_wins (comment key : string) :
  In key (map fst (Re.findall comment)) ->
  exists v,
    last_value key (Re.findall comment) = Some v
    /\ count_occ string_dec (keys (kv_dict comment)) key = 1
    /\ getitem key (kv_dict comment) = Some (KScalar (VStr (strip (is_char dquote) v)))
    /\ forall d, parse_extended_comment comment = Ok d ->
         count_occ string_dec (keys d) key = 1
         /\ (key <> "Lattice" -> key <> "Properties" ->
             getitem key d = Some (KScalar (infer_scalar (strip (is_char dquote) v)))).
Proof.
  intros Hin. destruct (last_value_In _ _ Hin) as [v Hv]. exists v.
  assert (Hget : getitem key (kv_dict comment)
                 = Some (KScalar (VStr (strip (is_char dquote) v)))).
  { unfold kv_dict. rewrite build_kv_dict_getitem, Hv. reflexivity. }
  assert (Hcount : count_occ string_dec (keys (kv_dict comment)) key = 1).
  { apply NoDup_count_occ'; [apply build_kv_dict_NoDup|].
    destruct (in_dec string_dec key (keys (kv_dict comment))) as [H|H]; auto.
    apply getitem_None_keys in H. congruence. }
  repeat split; auto.
  - apply parse_extended_comment_Ok in H as (lattice & vectors & properties & props & HL & _ & HP & _ & ->).
    rewrite keys_finished; congruence.
  - intros HnL HnP.
    apply parse_extended_comment_Ok in H as (lattice & vectors & properties & props & HL & _ & HP & _ & ->).
    rewrite getitem_finished_extra, Hget by auto. simpl.
    unfold retype.
    destruct (String.eqb key "Lattice") eqn:E1; [apply String.eqb_eq in E1; congruence|].
    destruct (String.eqb key "Properties") eqn:E2; [apply String.eqb_eq in E2; congruence|].
    reflexivity.
Qed.

Lemma C9_duplicate_key_last_wins_witness :
  In "run" (map fst (Re.findall repeated_key_comment))
  /\ exists v,
    last_value "run" (Re.findall repeated_key_comment) = Some v
    /\ count_occ string_dec (keys (kv_dict repeated_key_comment)) "run" = 1
    /\ getitem "run" (kv_dict repeated_key_comment)
       = Some (KScalar (VStr (strip (is_char dquote) v)))
    /\ forall d, parse_extended_comment repeated_key_comment = Ok d ->
         count_occ string_dec (keys d) "run" = 1
         /\ ("run" <> "Lattice" -> "run" <> "Properties" ->
             getitem "run" d = Some (KScalar (infer_scalar (strip (is_char dquote) v)))).
Proof.
  split.
  - vm_compute. auto.
  - apply (C9_duplicate_key_last_wins repeated_key_comment "run"). vm_compute. auto.
Defined.

(** The comment line with the repeated key parses, and binds the key to the
    second value. *)
Example repeated_key_parses :
  exists d, parse_extended_comment repeated_key_comment = Ok d
            /\ getitem "run" d = Some (KScalar (VInt 2))
            /\ keys d = ["Lattice"; "run"; "Properties"].
Proof. vm_compute. eexists. repeat split. Qed.

(** ** The scan of [re.findall] never runs out of fuel *)

Lemma span_length (p : ascii -> bool) (s a b : string) :
  span p s = (a, b) -> length a + length b = length s.
Proof.
  revert a b. induction s as [|c s IH]; simpl; intros a b H.
  - injection H as <- <-. reflexivity.
  - destruct (p c).
    + destruct (span p s) as [a' b'] eqn:E. injection H as <- <-.
      simpl. f_equal. now apply IH.
    + injection H as <- <-. reflexivity.
Qed.

Lemma lazy_dot_quote_length (s t r : string) :
  Re.lazy_dot_quote s = Some (t, r) -> length r < length s.
Proof.
  revert t. induction s as [|c s IH]; simpl; intros t H; [discriminate|].
  destruct (is_char dquote c).
  - injection H as <- <-. lia.
  - destruct (is_char newline c); [discriminate|].
    destruct (Re.lazy_dot_quote s) as [[t' r']|] eqn:E; [|discriminate].
    injection H as <- <-. specialize (IH _ eq_refl). lia.
Qed.

Lemma match_value_length (s v r : string) :
  Re.match_value s = Some (v, r) -> length r < length s.
Proof.
  unfold Re.match_value, Re.match_quoted, Re.match_nonspace.
  destruct s as [|c s]; simpl.
  - discriminate.
  - destruct (is_char dquote c) eqn:Eq.
    + destruct (Re.lazy_dot_quote s) as [[t' r']|] eqn:E.
      * intros H. injection H as <- <-. apply lazy_dot_quote_length in E. lia.
      * destruct (negb (isspace c)); [|discriminate].
        destruct (span (fun c => negb (isspace c)) s) as [a b] eqn:Es.
        simpl. intros H. injection H as <- <-. apply span_length in Es. lia.
    + destruct (negb (isspace c)); [|discriminate].
      destruct (span (fun c => negb (isspace c)) s) as [a b] eqn:Es.
      simpl. intros H. injection H as <- <-. apply span_length in Es. lia.
Qed.

Lemma match_here_length (s k v r : string) :
  Re.match_here s = Some (k, v, r) -> length r < length s.
Proof.
  unfold Re.match_here. destruct (span isword s) as [a b] eqn:Es.
  apply span_length in Es.
  destruct (nonempty a); [|discriminate].
  destruct b as [|c b]; [discriminate|].
  destruct (is_char "=" c); [|discriminate].
  destruct (Re.match_value b) as [[v' r']|] eqn:E; [|discriminate].
  intros H. injection H as <- <- <-. apply match_value_length in E. simpl in Es. lia.
Qed.

(** Any two amounts of fuel above the length of the text give the same
    list of matches. *)
Lemma findall_from_fuel (n m : nat) (s : string) :
  length s < n -> length s < m -> Re.findall_from n s = Re.findall_from m s.
Proof.
  revert m s. induction n as [|n IH]; intros m s Hn Hm; [lia|].
  destruct m as [|m]; [lia|]. simpl.
  destruct (Re.match_here s) as [[[k v] r]|] eqn:E.
  - apply match_here_length in E. f_equal. apply IH; lia.
  - destruct s as [|c s]; auto. simpl in *. apply IH; lia.
Qed.

(** ** Groups of three *)

Lemma triple_ind {A : Type} (P : list A -> Prop) :
  P [] -> (forall a, P [a]) -> (forall a b, P [a; b]) ->
  (forall a b c r, P r -> P (a :: b :: c :: r)) ->
  forall l, P l.
Proof.
  intros H0 H1 H2 H3.
  assert (H : forall n l, List.length l <= n -> P l).
  { induction n as [|n IH]; intros l Hl.
    - destruct l; [auto | simpl in Hl; lia].
    - destruct l as [|a [|b [|c r]]]; auto.
      apply H3. apply IH. simpl in Hl. lia. }
  intros l. apply (H (List.length l)). lia.
Qed.

Lemma triples_length {A : Type} (l : list A) :
  List.length (triples l) = List.length l / 3.
Proof.
  induction l as [| | |a b c r IH] using triple_ind; auto.
  change (List.length (a :: b :: c :: r)) with (1 * 3 + List.length r).
  rewrite Nat.div_add_l by lia. simpl. now rewrite IH.
Qed.

Lemma flatten_triples_firstn {A : Type} (l : list A) :
  flatten (triples l) = firstn (3 * (List.length l / 3)) l.
Proof.
  induction l as [| | |a b c r IH] using triple_ind; auto.
  change (List.length (a :: b :: c :: r)) with (1 * 3 + List.length r).
  rewrite Nat.div_add_l by lia.
  replace (3 * (1 + List.length r / 3)) with (S (S (S (3 * (List.length r / 3))))) by lia.
  simpl triples. unfold flatten in *. simpl. now rewrite IH.
Qed.

Lemma flatten_length {A : Type} (ts : list (A * A * A)) :
  List.length (flatten ts) = 3 * List.length ts.
Proof.
  unfold flatten. induction ts as [|t ts IH]; simpl; auto.
  simpl in IH. lia.
Qed.

Lemma triples_flatten {A : Type} (ts : list (A * A * A)) :
  triples (flatten ts) = ts.
Proof.
  induction ts as [|[[a b] c] ts IH]; simpl; auto. now rewrite IH.
Qed.

(** ** The lattice *)

Lemma lattice_vectors_triples (tokens : list string) :
  forall fs, map float tokens = map Some fs ->
  lattice_vectors tokens = Ok (triples fs).
Proof.
  induction tokens as [| | |a b c r IH] using triple_ind; intros fs H.
  - destruct fs; [reflexivity | discriminate].
  - destruct fs as [|fa [|? ?]]; try discriminate.
    simpl in *. injection H as ->. reflexivity.
  - destruct fs as [|fa [|fb [|? ?]]]; try discriminate.
    simpl in *. injection H as -> ->. reflexivity.
  - destruct fs as [|fa [|fb [|fc fr]]]; try discriminate.
    simpl in H. injection H as Ha Hb Hc Hr.
    simpl. rewrite Ha, Hb, Hc. simpl. rewrite (IH _ Hr). reflexivity.
Qed.

Lemma lattice_vectors_bad_token (tokens : list string) :
  Exists (fun tok => float tok = None) tokens ->
  lattice_vectors tokens = Raise ValueError.
Proof.
  assert (Hraise : forall toks e, lattice_vectors toks = Raise e -> e = ValueError).
  { induction toks as [| | |a b c r IH] using triple_ind; simpl; intros e H.
    - discriminate.
    - destruct (float a); simpl in H; congruence.
    - destruct (float a); simpl in H; [|congruence].
      destruct (float b); simpl in H; congruence.
    - destruct (float a); simpl in H; [|congruence].
      destruct (float b); simpl in H; [|congruence].
      destruct (float c); simpl in H; [|congruence].
      destruct (lattice_vectors r) eqn:E; simpl in H; [discriminate|].
      injection H as <-. eauto. }
  induction tokens as [| | |a b c r IH] using triple_ind; intros H.
  - inversion H.
  - inversion H as [? ? Ha|? ? Ht]; subst; [|inversion Ht].
    simpl. now rewrite Ha.
  - simpl. destruct (float a) eqn:Ea; auto. simpl.
    destruct (float b) eqn:Eb; auto.
    exfalso. inversion H as [? ? Ha|? ? Ht]; subst; [congruence|].
    inversion Ht as [? ? Hb'|? ? Ht']; subst; [congruence | inversion Ht'].
  - simpl. destruct (float a) eqn:Ea; auto. simpl.
    destruct (float b) eqn:Eb; auto. simpl.
    destruct (float c) eqn:Ec; auto. simpl.
    rewrite IH; auto.
    inversion H as [? ? Ha|? ? Ht]; subst; [congruence|].
    inversion Ht as [? ? Hb'|? ? Ht']; subst; [congruence|].
    inversion Ht' as [? ? Hc'|? ? Ht'']; subst; [congruence | auto].
Qed.

Lemma parse_extended_comment_no_lattice (comment : string) :
  getitem "Lattice" (kv_dict comment) = None ->
  parse_extended_comment comment = Raise (KeyError "Lattice").
Proof.
  intros H. rewrite parse_extended_comment_unfold, getitem_str_kv_dict, H. reflexivity.
Qed.

Lemma parse_extended_comment_lattice (comment lattice : string) (d : dict kvalue) :
  getitem "Lattice" (kv_dict comment) = Some (KScalar (VStr lattice)) ->
  parse_extended_comment comment = Ok d ->
  exists vectors, lattice_vectors (split lattice) = Ok vectors /\ get_lattice d = Ok vectors.
Proof.
  intros HL H.
  apply parse_extended_comment_Ok in H as (lattice' & vectors & properties & props & HL' & Hv & _ & _ & ->).
  rewrite HL in HL'. injection HL' as <-.
  exists vectors. split; auto. apply get_lattice_finished.
Qed.

(** C8: a [Lattice] value whose white-space split is nine tokens that all
    read as reals decodes to the three consecutive groups of three of those
    reals, in input order, and that list is what a comment line carrying it
    binds [Lattice] to. *)
Theorem C8_nine_reals_make_three_vectors (lattice : string) (fs : list pyfloat) :
  map float (split lattice) = map Some fs ->
  List.length fs = 9 ->
  lattice_vectors (split lattice) = Ok (triples fs)
  /\ List.length (triples fs) = 3
  /\ flatten (triples fs) = fs
  /\ forall comment d,
       getitem "Lattice" (kv_dict comment) = Some (KScalar (VStr lattice)) ->
       parse_extended_comment comment = Ok d ->
       get_lattice d = Ok (triples fs).
Proof.
  intros Hfs Hlen.
  pose proof (lattice_vectors_triples _ _ Hfs) as Hv.
  split; [auto|]. split; [rewrite triples_length, Hlen; reflexivity|].
  split.
  - rewrite flatten_triples_firstn, Hlen. change (3 * (9 / 3)) with 9.
    rewrite <- Hlen. apply firstn_all.
  - intros comment d HL Hd.
    destruct (parse_extended_comment_lattice _ _ _ HL Hd) as (vectors & Hv' & Hg).
    congruence.
Qed.

Lemma C8_nine_reals_make_three_vectors_witness :
  map float (split "1 0 0 0 1 0 0 0 1")
    = map Some [one; zero; zero; zero; one; zero; zero; zero; one]
  /\ List.length [one; zero; zero; zero; one; zero; zero; zero; one] = 9
  /\ lattice_vectors (split "1 0 0 0 1 0 0 0 1")
     = Ok [(one, zero, zero); (zero, one, zero); (zero, zero, one)].
Proof.
  split; [reflexivity|]. split; [reflexivity|].
  exact (proj1 (C8_nine_reals_make_three_vectors "1 0 0 0 1 0 0 0 1"
                  [one; zero; zero; zero; one; zero; zero; zero; one]
                  eq_refl eq_refl)).
Defined.

(** C3, as the source has it: a comment line without a [Lattice] key raises
    [KeyError]; a [Lattice] value with a token that does not read as a real
    raises [ValueError]; otherwise the reals, however many, are grouped
    consecutively into as many vectors of three as they fill, the one or two
    reals left over being dropped. *)
Theorem C3_lattice_grouped_in_threes (comment : string) :
  (getitem "Lattice" (kv_dict comment) = None ->
   parse_extended_comment comment = Raise (KeyError "Lattice"))
  /\ forall lattice,
       getitem "Lattice" (kv_dict comment) = Some (KScalar (VStr lattice)) ->
       (Exists (fun tok => float tok = None) (split lattice) ->
        parse_extended_comment comment = Raise ValueError)
       /\ forall fs, map float (split lattice) = map Some fs ->
            lattice_vectors (split lattice) = Ok (triples fs)
            /\ List.length (triples fs) = List.length fs / 3
            /\ flatten (triples fs) = firstn (3 * (List.length fs / 3)) fs
            /\ forall d, parse_extended_comment comment = Ok d ->
                         get_lattice d = Ok (triples fs).
Proof.
  split; [apply parse_extended_comment_no_lattice|].
  intros lattice HL. split.
  - intros Hbad. rewrite parse_extended_comment_unfold, getitem_str_kv_dict, HL.
    simpl. now rewrite lattice_vectors_bad_token.
  - intros fs Hfs. pose proof (lattice_vectors_triples _ _ Hfs) as Hv.
    repeat split; auto using triples_length, flatten_triples_firstn.
    intros d Hd.
    destruct (parse_extended_comment_lattice _ _ _ HL Hd) as (vectors & Hv' & Hg).
    congruence.
Qed.

Lemma C3_lattice_grouped_in_threes_witness :
  getitem "Lattice" (kv_dict six_reals_comment) = Some (KScalar (VStr "1 0 0 0 1 0"))
  /\ map float (split "1 0 0 0 1 0") = map Some [one; zero; zero; zero; one; zero]
  /\ lattice_vectors (split "1 0 0 0 1 0") = Ok [(one, zero, zero); (zero, one, zero)].
Proof.
  split; [reflexivity|]. split; [reflexivity|].
  exact (proj1 (proj2 (proj2 (C3_lattice_grouped_in_threes six_reals_comment)
                         "1 0 0 0 1 0" eq_refl)
                  [one; zero; zero; zero; one; zero] eq_refl)).
Defined.

(** C3 fails as stated: a lattice of six reals is accepted and gives two
    vectors, and a lattice of ten reals is accepted and gives three, the
    tenth real being dropped. *)
Lemma C3_counterexample :
  (exists d, parse_extended_comment six_reals_comment = Ok d
             /\ get_lattice d = Ok [(one, zero, zero); (zero, one, zero)])
  /\ (exists d, parse_extended_comment ten_reals_comment = Ok d
                /\ get_lattice d = Ok [(one, zero, zero); (zero, one, zero); (zero, zero, one)]).
Proof.
  split; vm_compute; eexists; split; reflexivity.
Qed.

(** ** The schema *)

Lemma from_string_Ok (code : string) (t : ColumnDataType) :
  from_string code = Ok t <-> code = type_code t.
Proof.
  unfold from_string. split.
  - destruct (String.eqb code "S") eqn:ES; [apply String.eqb_eq in ES; intros H; injection H as <-; auto|].
    destruct (String.eqb code "R") eqn:ER; [apply String.eqb_eq in ER; intros H; injection H as <-; auto|].
    destruct (String.eqb code "I") eqn:EI; [apply String.eqb_eq in EI; intros H; injection H as <-; auto|].
    destruct (String.eqb code "B") eqn:EB; [apply String.eqb_eq in EB; intros H; injection H as <-; auto|].
    discriminate.
  - intros ->. destruct t; reflexivity.
Qed.

(** The four tests of [from_string], one after the other. *)
Ltac from_string_cases E :=
  unfold from_string in E;
  repeat match type of E with
         | (if ?b then _ else _) = _ => destruct b; try discriminate
         end.

Lemma from_string_unknown (code : string) :
  ~ In code ["S"; "R"; "I"; "B"] -> from_string code = Raise ValueError.
Proof.
  intros H. destruct (from_string code) as [t|e] eqn:E.
  - apply from_string_Ok in E. subst code. exfalso. apply H.
    destruct t; simpl; auto.
  - from_string_cases E.
    congruence.
Qed.

Lemma properties_list_Ok (parts : list string) :
  forall props, properties_list parts = Ok props ->
  parts = flatten (triples parts) /\ Forall2 decodes (triples parts) props.
Proof.
  induction parts as [| | |l code count r IH] using triple_ind; simpl; intros props H.
  - injection H as <-. split; auto.
  - discriminate.
  - destruct (from_string b); discriminate.
  - apply bind_Ok in H as (t & Ht & H).
    apply bind_Ok in H as (z & Hz & H). apply of_option_Ok in Hz.
    apply bind_Ok in H as (ps & Hps & H). injection H as <-.
    destruct (IH _ Hps) as [Hflat Hdec]. split.
    + unfold flatten in *. simpl. now rewrite <- Hflat.
    + constructor; [repeat split; auto | auto].
Qed.

Lemma properties_list_flatten (ts : list (string * string * string)) (props : list FrameProperties) :
  Forall2 decodes ts props -> properties_list (flatten ts) = Ok props.
Proof.
  induction 1 as [|[[l code] count] [l' t z] ts props (Hl & Ht & Hz) _ IH]; [reflexivity|].
  change (flatten ((l, code, count) :: ts)) with (l :: code :: count :: flatten ts).
  simpl in Hl, Ht, Hz. subst l'. simpl. rewrite Ht. simpl. rewrite Hz. simpl.
  rewrite IH. reflexivity.
Qed.

Lemma properties_list_raises (parts : list string) (e : exn) :
  properties_list parts = Raise e -> e = ValueError \/ e = IndexError.
Proof.
  induction parts as [| | |l code count r IH] using triple_ind; simpl; intros H.
  - discriminate.
  - injection H as <-. auto.
  - destruct (from_string b) eqn:E; simpl in H; [injection H as <-; auto|].
    from_string_cases E.
    left. congruence.
  - destruct (from_string code) eqn:E; simpl in H.
    + destruct (int count); simpl in H; [|left; congruence].
      destruct (properties_list r); simpl in H; [discriminate|].
      injection H as <-. auto.
    + from_string_cases E.
      left. congruence.
Qed.

Lemma lattice_vectors_raises (tokens : list string) (e : exn) :
  lattice_vectors tokens = Raise e -> e = ValueError.
Proof.
  revert e. induction tokens as [| | |a b c r IH] using triple_ind; simpl; intros e H.
  - discriminate.
  - destruct (float a); simpl in H; congruence.
  - destruct (float a); simpl in H; [|congruence].
    destruct (float b); simpl in H; congruence.
  - destruct (float a); simpl in H; [|congruence].
    destruct (float b); simpl in H; [|congruence].
    destruct (float c); simpl in H; [|congruence].
    destruct (lattice_vectors r) eqn:E; simpl in H; [discriminate|].
    injection H as <-. eauto.
Qed.

(** The comment parser raises nothing but header errors. *)
Lemma parse_extended_comment_raises (comment : string) (e : exn) :
  parse_extended_comment comment = Raise e -> MalformedHeader e.
Proof.
  rewrite parse_extended_comment_unfold, !getitem_str_kv_dict. unfold MalformedHeader.
  destruct (getitem "Lattice" (kv_dict comment)) as [[[lattice| | |]| |]|]; simpl;
    try (intros H; injection H as <-; eauto; fail).
  destruct (lattice_vectors (split lattice)) as [vectors|e'] eqn:Ev; simpl.
  - destruct (getitem "Properties" (kv_dict comment)) as [[[properties| | |]| |]|]; simpl;
      try (intros H; injection H as <-; eauto; fail).
    destruct (properties_list (split_on ":" properties)) as [props|e''] eqn:Ep; simpl.
    + discriminate.
    + intros H. injection H as <-. apply properties_list_raises in Ep. tauto.
  - intros H. injection H as <-. apply lattice_vectors_raises in Ev. auto.
Qed.

Lemma parse_extended_comment_properties (comment properties : string) (d : dict kvalue) :
  getitem "Properties" (kv_dict comment) = Some (KScalar (VStr properties)) ->
  parse_extended_comment comment = Ok d ->
  exists props, properties_list (split_on ":" properties) = Ok props
                /\ get_properties d = Ok props.
Proof.
  intros HP H.
  apply parse_extended_comment_Ok in H as (lattice & vectors & properties' & props & _ & _ & HP' & Hps & ->).
  rewrite HP in HP'. injection HP' as <-.
  exists props. split; auto. apply get_properties_finished.
Qed.

Lemma Forall2_In_left {A B : Type} (R : A -> B -> Prop) (l : list A) (l' : list B) (a : A) :
  Forall2 R l l' -> In a l -> exists b, In b l' /\ R a b.
Proof.
  induction 1 as [|x y l l' Hxy _ IH]; simpl; [tauto|].
  intros [->|Hin]; [eauto|]. destruct (IH Hin) as (b & Hb & HR). eauto.
Qed.

(** C6, as the source has it: a comment line without a [Properties] key, or
    whose [Properties] value splits on colons into a number of parts that is
    not a multiple of three, or holds a triple whose type code is none of
    [S], [R], [I], [B] or whose count does not read as an integer, is
    rejected with a header error.  The sign of the count is not looked at:
    when [Lattice] is bound to a value whose tokens all read as reals and
    every triple of [Properties] has a type code among the four and a count
    that reads as an integer, zero and negative integers included, the line
    parses and the schema holds those counts.  With such a [Lattice] the
    header error is [KeyError] for the missing [Properties] key, and
    [IndexError] or [ValueError] for a [Properties] value that is
    rejected. *)
Theorem C6_malformed_properties_rejected (comment : string) :
  (getitem "Properties" (kv_dict comment) = None ->
   exists e, parse_extended_comment comment = Raise e /\ MalformedHeader e)
  /\ (forall properties,
       getitem "Properties" (kv_dict comment) = Some (KScalar (VStr properties)) ->
       (List.length (split_on ":" properties) mod 3 <> 0
        \/ exists l code count,
             In (l, code, count) (triples (split_on ":" properties))
             /\ (~ In code ["S"; "R"; "I"; "B"] \/ int count = None)) ->
       exists e, parse_extended_comment comment = Raise e /\ MalformedHeader e)
  /\ (forall lattice properties,
        getitem "Lattice" (kv_dict comment) = Some (KScalar (VStr lattice)) ->
        Forall (fun tok => float tok <> None) (split lattice) ->
        getitem "Properties" (kv_dict comment) = Some (KScalar (VStr properties)) ->
        List.length (split_on ":" properties) mod 3 = 0 ->
        Forall (fun t => In (snd (fst t)) ["S"; "R"; "I"; "B"]
                         /\ exists z : Z, int (snd t) = Some z)
          (triples (split_on ":" properties)) ->
        exists d schema,
          parse_extended_comment comment = Ok d
          /\ get_properties d = Ok schema
          /\ Forall2 decodes (triples (split_on ":" properties)) schema)
  /\ (forall lattice,
        getitem "Lattice" (kv_dict comment) = Some (KScalar (VStr lattice)) ->
        Forall (fun tok => float tok <> None) (split lattice) ->
        (getitem "Properties" (kv_dict comment) = None ->
         parse_extended_comment comment = Raise (KeyError "Properties"))
        /\ forall properties,
             getitem "Properties" (kv_dict comment) = Some (KScalar (VStr properties)) ->
             (List.length (split_on ":" properties) mod 3 <> 0
              \/ exists l code count,
                   In (l, code, count) (triples (split_on ":" properties))
                   /\ (~ In code ["S"; "R"; "I"; "B"] \/ int count = None)) ->
             parse_extended_comment comment = Raise IndexError
             \/ parse_extended_comment comment = Raise ValueError).
Proof.
  assert (Hbad_fails : forall properties d,
             getitem "Properties" (kv_dict comment) = Some (KScalar (VStr properties)) ->
             (List.length (split_on ":" properties) mod 3 <> 0
              \/ exists l code count,
                   In (l, code, count) (triples (split_on ":" properties))
                   /\ (~ In code ["S"; "R"; "I"; "B"] \/ int count = None)) ->
             parse_extended_comment comment = Ok d -> False).
  { intros properties d HP Hbad E.
    destruct (parse_extended_comment_properties _ _ _ HP E) as (props & Hps & _).
    apply properties_list_Ok in Hps as [Hflat Hdec].
    destruct Hbad as [Hmod|(l & code & count & Hin & Hbad)].
    - apply Hmod. rewrite Hflat, flatten_length.
      rewrite Nat.mul_comm. apply Nat.Div0.mod_mul.
    - destruct (Forall2_In_left _ _ _ _ Hdec Hin) as (p & _ & _ & Ht & Hz).
      simpl in Ht, Hz. destruct Hbad as [Hcode|Hint]; [|congruence].
      rewrite from_string_unknown in Ht by auto. discriminate. }
  assert (Hfloats : forall tokens,
             Forall (fun tok => float tok <> None) tokens ->
             exists fs, map float tokens = map Some fs).
  { induction 1 as [|t tokens Ht _ (fs & IH)]; [exists []; reflexivity|].
    destruct (float t) as [f|] eqn:E; [|congruence].
    exists (f :: fs). simpl. now rewrite E, IH. }
  split; [|split; [|split]].
  - intros HP. destruct (parse_extended_comment comment) as [d|e] eqn:E.
    + apply parse_extended_comment_Ok in E as (? & ? & ? & ? & _ & _ & HP' & _). congruence.
    + exists e. split; auto. now apply (parse_extended_comment_raises comment).
  - intros properties HP Hbad.
    destruct (parse_extended_comment comment) as [d|e] eqn:E.
    + exfalso. exact (Hbad_fails properties d HP Hbad eq_refl).
    + exists e. split; auto. now apply (parse_extended_comment_raises comment).
  - intros lattice properties HL Hfl HP Hmod Hts.
    destruct (Hfloats _ Hfl) as (fs & Hfs).
    assert (Hschema : exists schema,
               Forall2 decodes (triples (split_on ":" properties)) schema).
    { clear - Hts.
      induction Hts as [|[[l code] count] ts (Hcode & z & Hz) _ (schema & IH)].
      - exists []. constructor.
      - simpl in Hcode, Hz.
        assert (Ht : exists t, from_string code = Ok t).
        { destruct Hcode as [<-|[<-|[<-|[<-|[]]]]]; eexists; reflexivity. }
        destruct Ht as (t & Ht).
        exists (mkFrameProperties l t z :: schema). constructor; auto.
        repeat split; auto. }
    destruct Hschema as (schema & Hschema).
    assert (Hwhole : flatten (triples (split_on ":" properties)) = split_on ":" properties).
    { rewrite flatten_triples_firstn.
      assert (Hlen : 3 * (List.length (split_on ":" properties) / 3)
                     = List.length (split_on ":" properties)).
      { pose proof (Nat.div_mod_eq (List.length (split_on ":" properties)) 3). lia. }
      rewrite Hlen. apply firstn_all. }
    exists (finished (kv_dict comment) (triples fs) schema), schema.
    split; [|split; [apply get_properties_finished | exact Hschema]].
    rewrite parse_extended_comment_unfold, !getitem_str_kv_dict, HL, HP. simpl.
    rewrite (lattice_vectors_triples _ _ Hfs). simpl.
    rewrite <- Hwhole, (properties_list_flatten _ _ Hschema). reflexivity.
  - intros lattice HL Hfl.
    destruct (Hfloats _ Hfl) as (fs & Hfs).
    split.
    + intros HP.
      rewrite parse_extended_comment_unfold, !getitem_str_kv_dict, HL, HP. simpl.
      rewrite (lattice_vectors_triples _ _ Hfs). reflexivity.
    + intros properties HP Hbad.
      pose proof (Hbad_fails properties) as Hfails.
      rewrite parse_extended_comment_unfold, !getitem_str_kv_dict, HL, HP in *.
      simpl in *. rewrite (lattice_vectors_triples _ _ Hfs) in *. simpl in *.
      destruct (properties_list (split_on ":" properties)) as [props|e] eqn:Ep.
      * exfalso. simpl in Hfails. eapply Hfails; eauto.
      * apply properties_list_raises in Ep as [-> | ->]; simpl; auto.
Qed.

Lemma C6_malformed_properties_rejected_witness :
  getitem "Properties" (kv_dict "Lattice=1 Properties=species:X:1")
    = Some (KScalar (VStr "species:X:1"))
  /\ In ("species", "X", "1") (triples (split_on ":" "species:X:1"))
  /\ ~ In "X" ["S"; "R"; "I"; "B"]
  /\ exists e, parse_extended_comment "Lattice=1 Properties=species:X:1" = Raise e
               /\ MalformedHeader e.
Proof.
  assert (Hin : In ("species", "X", "1") (triples (split_on ":" "species:X:1"))).
  { vm_compute. auto. }
  assert (Hno : ~ In "X" ["S"; "R"; "I"; "B"]).
  { simpl. intros [H|[H|[H|[H|[]]]]]; discriminate. }
  split; [reflexivity|]. split; [exact Hin|]. split; [exact Hno|].
  apply (proj1 (proj2 (C6_malformed_properties_rejected "Lattice=1 Properties=species:X:1"))
           "species:X:1" eq_refl).
  right. exists "species", "X", "1". split; [exact Hin | left; exact Hno].
Defined.

(** C6 fails as stated: a count of zero and a negative count are accepted. *)
Lemma C6_counterexample :
  (exists d, parse_extended_comment zero_count_comment = Ok d
             /\ get_properties d = Ok [mkFrameProperties "species" STRING 0])
  /\ (exists d, parse_extended_comment negative_count_comment = Ok d
                /\ get_properties d = Ok [mkFrameProperties "pad" STRING (-1);
                                          mkFrameProperties "species" STRING 2]).
Proof.
  split; vm_compute; eexists; split; reflexivity.
Qed.

Lemma split_on_app (sep : ascii) (p s : string) :
  forallb_string (fun c => negb (Ascii.eqb c sep)) p = true ->
  split_on sep (p ++ String sep s) = p :: split_on sep s.
Proof.
  induction p as [|c p IH]; simpl; intros H.
  - now rewrite Ascii.eqb_refl.
  - apply andb_prop in H as [Hc Hp]. apply negb_true_iff in Hc.
    rewrite Hc, (IH Hp). reflexivity.
Qed.

Lemma split_on_free (sep : ascii) (p : string) :
  forallb_string (fun c => negb (Ascii.eqb c sep)) p = true ->
  split_on sep p = [p].
Proof.
  induction p as [|c p IH]; simpl; intros H; auto.
  apply andb_prop in H as [Hc Hp]. apply negb_true_iff in Hc.
  rewrite Hc, (IH Hp). reflexivity.
Qed.

(** Parts that hold no separator, joined and split again, come back as they
    were: a string written L1:T1:C1:L2:T2:C2:... splits into its
    components. *)
Lemma split_on_join (sep : ascii) (parts : list string) :
  parts <> [] ->
  Forall (fun p => forallb_string (fun c => negb (Ascii.eqb c sep)) p = true) parts ->
  split_on sep (join sep parts) = parts.
Proof.
  intros Hne Hfree. induction Hfree as [|p rest Hp Hrest IH]; [congruence|].
  destruct rest as [|q rest].
  - simpl. now apply split_on_free.
  - change (join sep (p :: q :: rest)) with (p ++ String sep (join sep (q :: rest))).
    rewrite split_on_app by auto. f_equal. apply IH. discriminate.
Qed.



(** The schema of the end-to-end scenario. *)
Example sample_schema :
  properties_list (split_on ":" "species:S:1:pos:R:3")
  = Ok [mkFrameProperties "species" STRING 1; mkFrameProperties "pos" REAL 3].
Proof. reflexivity. Qed.

(** ** The frame reader *)

Lemma rows_loop_eof sc total n idx data :
  rows_loop sc total (S n) idx data [] = (Raise StopIteration, []).
Proof. reflexivity. Qed.

(** One round of the loop over the rows. *)
Lemma rows_loop_step sc total n idx data line ls :
  rows_loop sc total (S n) idx data (line :: ls)
  = if (len (split line) =? total)%Z then
      match get_properties sc with
      | Ok props =>
          match props_loop props (split line) 0 data with
          | Ok data' => rows_loop sc total n (idx + 1)%Z data' ls
          | Raise e => (Raise e, ls)
          end
      | Raise e => (Raise e, ls)
      end
    else (Raise (AssertionError total (len (split line)) (idx + 3)), ls).
Proof.
  simpl. unfold rbind, lift, next_line.
  destruct (len (split line) =? total)%Z; reflexivity.
Qed.

(** In a round that did not raise, the assertion held, the schema was there
    and the loop over the schema gave the next columns. *)
Ltac row_round H :=
  rewrite rows_loop_step in H;
  repeat match type of H with
         | context [if ?c then _ else _] =>
             destruct c eqn:?; [|discriminate]
         | context [match get_properties ?sc with _ => _ end] =>
             destruct (get_properties sc); [|discriminate]
         | context [match props_loop ?p ?s ?o ?d with _ => _ end] =>
             destruct (props_loop p s o d) eqn:?; [|discriminate]
         end.

(** A run of the loop that succeeds has read exactly [n] lines. *)
Lemma rows_loop_Ok_lines sc total n :
  forall idx data ls d rest,
    rows_loop sc total n idx data ls = (Ok d, rest) ->
    exists rows, ls = (rows ++ rest)%list /\ List.length rows = n.
Proof.
  induction n as [|n IH]; intros idx data ls d rest H.
  - injection H as <- <-. exists []. auto.
  - destruct ls as [|line ls]; [discriminate|].
    row_round H.
    destruct (IH _ _ _ _ _ H) as (rows & -> & Hlen).
    exists (line :: rows). simpl. auto.
Qed.

(** Rows read without error, then the rest of the loop. *)
Lemma rows_loop_app sc total a b :
  forall idx data before d rest,
    rows_loop sc total a idx data before = (Ok d, []) ->
    rows_loop sc total (a + b) idx data (before ++ rest)%list
    = rows_loop sc total b (idx + Z.of_nat a)%Z d rest.
Proof.
  induction a as [|a IH]; intros idx data before d rest H.
  - destruct before; injection H as <-; try discriminate.
    simpl. now rewrite Z.add_0_r.
  - destruct before as [|line before]; [discriminate|].
    change (S a + b) with (S (a + b)). change ((line :: before) ++ rest)%list
      with (line :: (before ++ rest))%list.
    rewrite rows_loop_step. row_round H.
    rewrite (IH _ _ _ _ rest H). f_equal. lia.
Qed.

(** A run that succeeds ends with [StopIteration] on every shorter input. *)
Lemma rows_loop_truncated sc total n :
  forall idx data ls d rest k,
    rows_loop sc total n idx data ls = (Ok d, rest) ->
    k < n ->
    rows_loop sc total n idx data (firstn k ls) = (Raise StopIteration, []).
Proof.
  induction n as [|n IH]; intros idx data ls d rest k H Hk; [lia|].
  destruct ls as [|line ls]; [discriminate|].
  destruct k as [|k]; [reflexivity|].
  simpl firstn. rewrite rows_loop_step. row_round H.
  apply (IH _ _ _ _ _ _ H). lia.
Qed.

(** The frame reader after a header that parses. *)
Lemma read_frame_header first comment rest n sc :
  int first = Some n ->
  parse_extended_comment comment = Ok sc ->
  exists vectors props,
    get_lattice sc = Ok vectors
    /\ get_properties sc = Ok props
    /\ read_frame (first :: comment :: rest)
       = match rows_loop sc (sum (map column_count props)) (Z.to_nat n) 0 [] rest with
         | (Ok data, ls) => (Ok (mkExtXYZFrame n vectors props (extra_kv sc) data), ls)
         | (Raise e, ls) => (Raise e, ls)
         end.
Proof.
  intros Hn Hsc.
  pose proof Hsc as Hsc'.
  apply parse_extended_comment_Ok in Hsc' as (lattice & vectors & properties & props & _ & _ & _ & _ & ->).
  exists vectors, props.
  split; [apply get_lattice_finished|]. split; [apply get_properties_finished|].
  unfold read_frame, rbind, lift, next_line. rewrite Hn. simpl. rewrite Hsc.
  rewrite get_properties_finished, get_lattice_finished.
  destruct (rows_loop _ _ _ _ _ rest) as [[data|e] ls]; reflexivity.
Qed.

(** What a frame that was read went through. *)
Lemma read_frame_Ok ls fr rest :
  read_frame ls = (Ok fr, rest) ->
  exists first comment rows sc,
    ls = first :: comment :: rows
    /\ int first = Some (num_atoms fr)
    /\ parse_extended_comment comment = Ok sc
    /\ get_lattice sc = Ok (LatticeVectors fr)
    /\ get_properties sc = Ok (FrameProperties_ fr)
    /\ ExtraKV fr = extra_kv sc
    /\ rows_loop sc (sum (map column_count (FrameProperties_ fr)))
         (Z.to_nat (num_atoms fr)) 0 [] rows = (Ok (data fr), rest).
Proof.
  intros H. destruct ls as [|first [|comment rows]]; try discriminate.
  - unfold read_frame, rbind, lift, next_line in H.
    destruct (int first); discriminate.
  - destruct (int first) as [n|] eqn:En.
    + destruct (parse_extended_comment comment) as [sc|e] eqn:Esc.
      * destruct (read_frame_header first comment rows n sc En Esc)
          as (vectors & props & HL & HP & Heq).
        rewrite Heq in H.
        destruct (rows_loop _ _ _ _ _ rows) as [[d|e] ls'] eqn:Er; [|discriminate].
        injection H as <- <-. simpl.
        exists first, comment, rows, sc. repeat split; auto.
      * unfold read_frame, rbind, lift, next_line in H. rewrite En in H.
        simpl in H. rewrite Esc in H. discriminate.
    + unfold read_frame, rbind, lift, next_line in H. rewrite En in H. discriminate.
Qed.

(** C4: in a frame whose header parses, the first per-atom row whose number
    of white-space tokens is not the sum of the schema's column counts
    makes the reader raise, at that row, the assertion error that reports the
    expected count, the count found and the index of the row counted from 1
    and moved up by the two header lines; no frame is returned. *)
Theorem C4_row_with_wrong_token_count (first comment line : string)
    (before rest : list string) (n : Z) (sc : dict kvalue)
    (props : list FrameProperties) (d : dict (list entry)) :
  int first = Some n ->
  parse_extended_comment comment = Ok sc ->
  get_properties sc = Ok props ->
  rows_loop sc (sum (map column_count props)) (List.length before) 0 [] before = (Ok d, []) ->
  (Z.of_nat (List.length before) < n)%Z ->
  len (split line) <> sum (map column_count props) ->
  __next__ (first :: comment :: before ++ line :: rest)%list
  = (Raise (AssertionError (sum (map column_count props)) (len (split line))
              (Z.of_nat (List.length before) + 1 + 2)),
     rest)
  /\ MalformedRow (AssertionError (sum (map column_count props)) (len (split line))
                     (Z.of_nat (List.length before) + 1 + 2)).
Proof.
  intros Hn Hsc Hprops Hbefore Hlt Hneq.
  split; [|unfold MalformedRow; eauto].
  destruct (read_frame_header first comment (before ++ line :: rest) n sc Hn Hsc)
    as (vectors & props' & _ & Hprops' & Heq).
  rewrite Hprops in Hprops'. injection Hprops' as <-.
  unfold __next__. rewrite Heq.
  replace (Z.to_nat n) with (List.length before + S (Z.to_nat n - List.length before - 1)) by lia.
  rewrite (rows_loop_app _ _ _ _ _ _ _ _ (line :: rest) Hbefore).
  rewrite rows_loop_step.
  apply Z.eqb_neq in Hneq. rewrite Hneq.
  do 3 f_equal. lia.
Qed.

Lemma C4_row_with_wrong_token_count_witness :
  __next__ ["2" ++ nl; sample_comment; "O 0.0 0.0 0.0" ++ nl; "H 0.0 1.0" ++ nl]
  = (Raise (AssertionError 4 3 4), []).
Proof.
  refine (proj1 (C4_row_with_wrong_token_count
            ("2" ++ nl) sample_comment ("H 0.0 1.0" ++ nl)
            ["O 0.0 0.0 0.0" ++ nl] [] 2
            (finished (kv_dict sample_comment)
               [(one, zero, zero); (zero, one, zero); (zero, zero, one)]
               [mkFrameProperties "species" STRING 1; mkFrameProperties "pos" REAL 3])
            [mkFrameProperties "species" STRING 1; mkFrameProperties "pos" REAL 3]
            [("species", [One (VStr "O")]);
             ("pos", [Many [VReal (FDec false 0 (-1)); VReal (FDec false 0 (-1));
                            VReal (FDec false 0 (-1))]])]
            eq_refl eq_refl eq_refl eq_refl _ _)).
  - simpl. lia.
  - vm_compute. discriminate.
Defined.

(** A frame that is read returns no row whose token count differs from the
    sum of the column counts: every row it took passed the assertion. *)
Lemma rows_loop_counts sc total n :
  forall idx data ls d rest,
    rows_loop sc total n idx data ls = (Ok d, rest) ->
    Forall (fun line => len (split line) = total) (firstn n ls).
Proof.
  induction n as [|n IH]; intros idx data ls d rest H; [constructor|].
  destruct ls as [|line ls]; [discriminate|].
  row_round H.
  simpl. constructor; [now apply Z.eqb_eq | eauto].
Qed.

(** X18: a frame that is returned holds no row of another width: every row
    it took has as many white-space tokens as the column counts of its schema
    add up to. *)
Lemma frame_rows_have_schema_width (ls rest : list string) (fr : ExtXYZFrame) :
  __next__ ls = (Ok fr, rest) ->
  Forall (fun line => len (split line) = sum (map column_count (FrameProperties_ fr)))
    (firstn (Z.to_nat (num_atoms fr)) (skipn 2 ls)).
Proof.
  intros H. unfold __next__ in H.
  apply read_frame_Ok in H
    as (first & comment & rows & sc & -> & _ & _ & _ & _ & _ & Hrows).
  simpl skipn. eapply rows_loop_counts; eauto.
Qed.

(** C2, as the source has it: at the end of the input the reader raises
    [StopIteration], the end of the sequence; it raises the same
    [StopIteration] when the input ends anywhere inside a frame, after the
    atom-count line, after the comment line or after any number of rows short
    of the atom count; an atom-count line that does not read as an integer
    raises [ValueError]. *)
Theorem C2_end_of_input_ends_the_sequence :
  __next__ [] = (Raise StopIteration, [])
  /\ (forall ls fr rest k,
        __next__ ls = (Ok fr, rest) ->
        k < List.length ls - List.length rest ->
        __next__ (firstn k ls) = (Raise StopIteration, [])
        /\ end_of_sequence (fst (__next__ (firstn k ls))))
  /\ (forall first rest,
        int first = None -> __next__ (first :: rest) = (Raise ValueError, rest)).
Proof.
  split; [reflexivity|]. split.
  - intros ls fr rest k H Hk.
    assert (Hgoal : __next__ (firstn k ls) = (Raise StopIteration, [])).
    { unfold __next__ in *.
      apply read_frame_Ok in H
        as (first & comment & rows & sc & -> & Hn & Hsc & HL & HP & _ & Hrows).
      destruct k as [|[|k]].
      - reflexivity.
      - simpl. unfold read_frame, rbind, lift, next_line. rewrite Hn. reflexivity.
      - simpl firstn.
        destruct (read_frame_header first comment (firstn k rows) _ sc Hn Hsc)
          as (vectors & props & _ & HP' & Heq).
        rewrite Heq. rewrite HP in HP'. injection HP' as <-.
        destruct (rows_loop_Ok_lines _ _ _ _ _ _ _ _ Hrows) as (taken & Htaken & Hlen).
        rewrite (rows_loop_truncated _ _ _ _ _ _ _ _ k Hrows); [reflexivity|].
        subst rows. cbn [List.length] in Hk. rewrite length_app in Hk. lia. }
    split; [exact Hgoal|]. rewrite Hgoal. reflexivity.
  - intros first rest H. unfold __next__, read_frame, rbind, lift, next_line.
    rewrite H. reflexivity.
Qed.

Lemma C2_end_of_input_ends_the_sequence_witness :
  __next__ sample_lines = (Ok sample_frame, [])
  /\ 3 < List.length sample_lines - List.length (@nil string)
  /\ __next__ (firstn 3 sample_lines) = (Raise StopIteration, []).
Proof.
  split; [reflexivity|]. split; [simpl; lia|].
  refine (proj1 (proj1 (proj2 C2_end_of_input_ends_the_sequence)
                   sample_lines sample_frame [] 3 eq_refl _)).
  simpl. lia.
Defined.

(** C2 fails as stated: with two atoms announced, the input that ends after
    the atom-count line, after the comment line or after the first row makes
    the reader raise [StopIteration], which is what it raises at the end of
    the input between frames; no other error tells the two apart. *)
Lemma C2_counterexample :
  __next__ ["2" ++ nl] = (Raise StopIteration, [])
  /\ __next__ ["2" ++ nl; sample_comment] = (Raise StopIteration, [])
  /\ __next__ ["2" ++ nl; sample_comment; "O 0.0 0.0 0.0" ++ nl] = (Raise StopIteration, [])
  /\ __next__ [] = (Raise StopIteration, []).
Proof. repeat split. Qed.

(** ** The columns of a frame *)

Lemma fold_add_shift (l : list Z) (a : Z) :
  fold_left Z.add l a = (a + fold_left Z.add l 0)%Z.
Proof.
  revert a. induction l as [|x l IH]; intros a; simpl; [lia|].
  rewrite IH, (IH x). lia.
Qed.

Lemma sum_cons (x : Z) (l : list Z) : sum (x :: l) = (x + sum l)%Z.
Proof. unfold sum. simpl. apply fold_add_shift. Qed.

Lemma sum_nonneg (l : list Z) : Forall (fun x => (0 <= x)%Z) l -> (0 <= sum l)%Z.
Proof.
  induction 1 as [|x l Hx _ IH]; [unfold sum; simpl; lia|].
  rewrite sum_cons. lia.
Qed.

Lemma clamp_inside (n i : Z) : (0 <= i <= n)%Z -> clamp n i = i.
Proof.
  intros H. unfold clamp.
  assert (E1 : (i <? 0)%Z = false) by (apply Z.ltb_ge; lia).
  assert (E2 : (n <? i)%Z = false) by (apply Z.ltb_ge; lia).
  rewrite E1. cbv zeta. rewrite E1, E2. reflexivity.
Qed.

Lemma slice_length {A : Type} (l : list A) (lo k : Z) :
  (0 <= lo)%Z -> (0 <= k)%Z -> (lo + k <= len l)%Z ->
  List.length (slice l lo (lo + k)) = Z.to_nat k.
Proof.
  unfold slice, len. intros Hlo Hk Hle.
  rewrite !clamp_inside by lia.
  rewrite length_firstn, length_skipn.
  replace (lo + k - lo)%Z with k by lia. apply Nat.min_l. lia.
Qed.

Lemma parse_all_length parser raw_data vs :
  parse_all parser raw_data = Ok vs -> List.length vs = List.length raw_data.
Proof.
  revert vs. induction raw_data as [|val rest IH]; simpl; intros vs H.
  - injection H as <-. reflexivity.
  - apply bind_Ok in H as (v & _ & H). apply bind_Ok in H as (vs' & Hvs & H).
    injection H as <-. simpl. f_equal. auto.
Qed.

Lemma column_length_setitem l k col (data : dict (list entry)) :
  column_length l (setitem k col data)
  = if string_dec k l then List.length col else column_length l data.
Proof.
  unfold column_length. destruct (string_dec k l) as [->|Hne].
  - now rewrite getitem_setitem_same.
  - rewrite getitem_setitem_other by congruence. reflexivity.
Qed.

Lemma append_entry_Ok lbl e data data' :
  append_entry lbl e data = Ok data' ->
  exists col, getitem lbl data = Some col /\ data' = setitem lbl (col ++ [e])%list data.
Proof.
  unfold append_entry. intros H.
  apply bind_Ok in H as (col & Hcol & H). apply of_option_Ok in Hcol.
  injection H as <-. eauto.
Qed.

Lemma column_length_ensure l lbl (data : dict (list entry)) :
  column_length l (if contains lbl data then data else setitem lbl [] data)
  = column_length l data.
Proof.
  unfold contains. destruct (getitem lbl data) eqn:E; auto.
  rewrite column_length_setitem. destruct (string_dec lbl l) as [<-|Hne]; auto.
  unfold column_length. now rewrite E.
Qed.

Lemma getitem_ensure lbl (data : dict (list entry)) col :
  getitem lbl (if contains lbl data then data else setitem lbl [] data) = Some col ->
  List.length col = column_length lbl data.
Proof.
  unfold contains, column_length. destruct (getitem lbl data) eqn:E.
  - rewrite E. intros H. now injection H as <-.
  - rewrite getitem_setitem_same. intros H. now injection H as <-.
Qed.

(** One round of the loop over the schema adds one entry to the column of
    the property's label and leaves the other columns as they are. *)
Lemma props_loop_column_length props :
  forall split offset data data' l,
    props_loop props split offset data = Ok data' ->
    column_length l data'
    = column_length l data + count_occ string_dec (labels props) l.
Proof.
  induction props as [|prop props IH]; intros split offset data data' l H; simpl in H.
  - injection H as <-. simpl. lia.
  - apply bind_Ok in H as (e & _ & H).
    apply bind_Ok in H as (data2 & Hd2 & H).
    apply append_entry_Ok in Hd2 as (col & Hcol & ->).
    rewrite (IH _ _ _ _ l H), column_length_setitem. simpl.
    apply getitem_ensure in Hcol.
    destruct (string_dec (label prop) l) as [<-|Hne].
    + rewrite length_app, Hcol. simpl. lia.
    + rewrite column_length_ensure. lia.
Qed.

Lemma rows_loop_column_length sc total props n :
  get_properties sc = Ok props ->
  forall idx data ls data' rest l,
    rows_loop sc total n idx data ls = (Ok data', rest) ->
    column_length l data'
    = column_length l data + n * count_occ string_dec (labels props) l.
Proof.
  intros Hprops. induction n as [|n IH]; intros idx data ls data' rest l H.
  - injection H as <- <-. lia.
  - destruct ls as [|line ls]; [discriminate|].
    rewrite rows_loop_step, Hprops in H.
    destruct (len (split line) =? total)%Z; [|discriminate].
    destruct (props_loop props (split line) 0 data) as [data1|e] eqn:E; [|discriminate].
    rewrite (IH _ _ _ _ _ l H), (props_loop_column_length _ _ _ _ _ l E). lia.
Qed.

Lemma shaped_setitem_snoc props data lbl col e q :
  shaped props data ->
  getitem lbl data = Some col ->
  In q props -> label q = lbl -> entry_shape q e ->
  shaped props (setitem lbl (col ++ [e])%list data).
Proof.
  intros Hsh Hcol Hq Hl He l col' Hget.
  destruct (string_dec lbl l) as [<-|Hne].
  - rewrite getitem_setitem_same in Hget. injection Hget as <-.
    apply Forall_app. split; [eauto|]. constructor; eauto.
  - rewrite getitem_setitem_other in Hget by congruence. eauto.
Qed.

Lemma shaped_ensure props data lbl :
  shaped props data ->
  shaped props (if contains lbl data then data else setitem lbl [] data).
Proof.
  intros Hsh. destruct (contains lbl data); auto.
  intros l col Hget. destruct (string_dec lbl l) as [<-|Hne].
  - rewrite getitem_setitem_same in Hget. injection Hget as <-. constructor.
  - rewrite getitem_setitem_other in Hget by congruence. eauto.
Qed.

(** With no negative column count, the slices of a row that passed the
    assertion have the declared widths, so every entry has the shape of the
    property it comes from. *)
Lemma props_loop_shaped all split :
  forall props offset data data',
    (forall q, In q props -> In q all) ->
    Forall (fun q => (0 <= column_count q)%Z) props ->
    (0 <= offset)%Z ->
    (offset + sum (map column_count props) <= len split)%Z ->
    shaped all data ->
    props_loop props split offset data = Ok data' ->
    shaped all data'.
Proof.
  induction props as [|prop props IH]; intros offset data data' Hincl Hpos Hoff Hle Hsh H;
    simpl in H.
  - injection H as <-. auto.
  - inversion Hpos as [|? ? Hk Hpos']; subst.
    simpl map in Hle. rewrite sum_cons in Hle.
    pose proof (sum_nonneg _ (proj2 (Forall_map _ _ _) Hpos')) as Hsum.
    apply bind_Ok in H as (e & He & H).
    apply bind_Ok in H as (data2 & Hd2 & H).
    apply append_entry_Ok in Hd2 as (col & Hcol & ->).
    assert (Hshape : entry_shape prop e).
    { unfold entry_shape.
      destruct (column_count prop =? 1)%Z eqn:E1.
      - apply bind_Ok in He as (tok & _ & He).
        apply bind_Ok in He as (v & _ & He). injection He as <-. eauto.
      - apply bind_Ok in He as (vs & Hvs & He). injection He as <-.
        exists vs. split; auto. apply parse_all_length in Hvs.
        unfold len. rewrite Hvs, slice_length by lia. lia. }
    apply (fun a b c d e => IH _ _ _ a b c d e H).
    + intros q Hq. apply Hincl. now right.
    + exact Hpos'.
    + lia.
    + lia.
    + apply shaped_setitem_snoc with (q := prop); auto.
      * now apply shaped_ensure.
      * apply Hincl. now left.
Qed.

Lemma rows_loop_shaped sc props n :
  get_properties sc = Ok props ->
  Forall (fun q => (0 <= column_count q)%Z) props ->
  forall idx data ls data' rest,
    shaped props data ->
    rows_loop sc (sum (map column_count props)) n idx data ls = (Ok data', rest) ->
    shaped props data'.
Proof.
  intros Hprops Hpos. induction n as [|n IH]; intros idx data ls data' rest Hsh H.
  - injection H as <- <-. auto.
  - destruct ls as [|line ls]; [discriminate|].
    rewrite rows_loop_step, Hprops in H.
    destruct (len (split line) =? sum (map column_count props))%Z eqn:Elen; [|discriminate].
    apply Z.eqb_eq in Elen.
    destruct (props_loop props (split line) 0 data) as [data1|e] eqn:E; [|discriminate].
    assert (Hsh1 : shaped props data1).
    { apply (fun a b c d e => props_loop_shaped props _ _ _ _ _ a b c d e E); auto; lia. }
    apply (IH _ _ _ _ _ Hsh1 H).
Qed.

Lemma shaped_empty props : shaped props [].
Proof. intros l col H. discriminate. Qed.

Lemma count_occ_labels_In props p :
  In p props -> 1 <= count_occ string_dec (labels props) (label p).
Proof.
  intros Hin. apply (count_occ_In string_dec). unfold labels. now apply in_map.
Qed.

(** C5, as the source has it: in a frame that was read with an atom count
    of at least one, every label of the schema is a key of the columns
    mapping, and its column has as many entries as the atom count times the
    number of properties declared with that label (so exactly the atom count
    for a label declared once); when no property has a negative column
    count, every entry of the column has the shape of a property declared
    with that label: one scalar for a column count of one, otherwise a
    sequence of exactly that many scalars.  In a frame that was read with an
    atom count of zero or less, the columns mapping has no key at all. *)
Theorem C5_columns_of_a_frame (ls rest : list string) (fr : ExtXYZFrame) (p : FrameProperties) :
  __next__ ls = (Ok fr, rest) ->
  ((1 <= num_atoms fr)%Z ->
   In p (FrameProperties_ fr) ->
   exists col,
     getitem (label p) (data fr) = Some col
     /\ List.length col
        = Z.to_nat (num_atoms fr)
          * count_occ string_dec (labels (FrameProperties_ fr)) (label p)
     /\ (Forall (fun q => (0 <= column_count q)%Z) (FrameProperties_ fr) ->
         Forall (fun e => exists q, In q (FrameProperties_ fr)
                                    /\ label q = label p /\ entry_shape q e) col))
  /\ ((num_atoms fr <= 0)%Z ->
      data fr = [] /\ forall l, getitem l (data fr) = None).
Proof.
  intros H. unfold __next__ in H.
  apply read_frame_Ok in H
    as (first & comment & rows & sc & -> & _ & _ & _ & HP & _ & Hrows).
  split.
  - intros Hn Hp.
    pose proof (rows_loop_column_length _ _ _ _ HP _ _ _ _ _ (label p) Hrows) as Hlen.
    pose proof (count_occ_labels_In _ _ Hp) as Hocc.
    unfold column_length in Hlen. simpl in Hlen.
    destruct (getitem (label p) (data fr)) as [col|] eqn:Ecol.
    + exists col. repeat split; auto.
      intros Hpos.
      assert (Hsh : shaped (FrameProperties_ fr) (data fr)).
      { apply (rows_loop_shaped _ _ _ HP Hpos _ _ _ _ _ (shaped_empty _) Hrows). }
      apply (Hsh _ _ Ecol).
    + exfalso. assert (1 <= Z.to_nat (num_atoms fr)) by lia. nia.
  - intros Hle.
    replace (Z.to_nat (num_atoms fr)) with 0 in Hrows by lia.
    injection Hrows as Hdata _. rewrite <- Hdata. split; reflexivity.
Qed.

Lemma C5_columns_of_a_frame_witness :
  __next__ sample_lines = (Ok sample_frame, [])
  /\ (1 <= num_atoms sample_frame)%Z
  /\ In (mkFrameProperties "pos" REAL 3) (FrameProperties_ sample_frame)
  /\ exists col,
       getitem "pos" (data sample_frame) = Some col
       /\ List.length col = 2 * 1
       /\ (Forall (fun q => (0 <= column_count q)%Z) (FrameProperties_ sample_frame) ->
           Forall (fun e => exists q, In q (FrameProperties_ sample_frame)
                                      /\ label q = "pos" /\ entry_shape q e) col).
Proof.
  assert (Hin : In (mkFrameProperties "pos" REAL 3) (FrameProperties_ sample_frame)).
  { simpl. auto. }
  split; [reflexivity|]. split; [simpl; lia|]. split; [exact Hin|].
  apply (proj1 (C5_columns_of_a_frame sample_lines [] sample_frame
                  (mkFrameProperties "pos" REAL 3) eq_refl)); [simpl; lia | exact Hin].
Defined.

(** For a schema whose labels are pairwise distinct and whose column counts
    are not negative, the column of each property has exactly as many entries
    as there are atoms, each of the shape of that property. *)
Corollary columns_of_distinct_labels (ls rest : list string) (fr : ExtXYZFrame)
    (p : FrameProperties) :
  __next__ ls = (Ok fr, rest) ->
  (1 <= num_atoms fr)%Z ->
  NoDup (labels (FrameProperties_ fr)) ->
  Forall (fun q => (0 <= column_count q)%Z) (FrameProperties_ fr) ->
  In p (FrameProperties_ fr) ->
  exists col,
    getitem (label p) (data fr) = Some col
    /\ len col = num_atoms fr
    /\ Forall (entry_shape p) col.
Proof.
  intros H Hn Hnd Hpos Hp. unfold __next__ in H.
  apply read_frame_Ok in H
    as (first & comment & rows & sc & -> & _ & _ & _ & HP & _ & Hrows).
  pose proof (rows_loop_column_length _ _ _ _ HP _ _ _ _ _ (label p) Hrows) as Hlen.
  pose proof (rows_loop_shaped _ _ _ HP Hpos _ _ _ _ _ (shaped_empty _) Hrows) as Hsh.
  rewrite (proj1 (NoDup_count_occ' string_dec _) Hnd) in Hlen
    by (unfold labels; now apply in_map).
  unfold column_length in Hlen. simpl in Hlen.
  destruct (getitem (label p) (data fr)) as [col|] eqn:Ecol; [|lia].
  exists col. split; [auto|]. split; [unfold len; lia|].
  eapply Forall_impl; [|exact (Hsh _ _ Ecol)].
  intros e (q & Hq & Hl & He).
  assert (q = p); [|now subst].
  clear - Hnd Hq Hp Hl. unfold labels in Hnd.
  induction (FrameProperties_ fr) as [|x xs IH]; [contradiction|].
  simpl in Hnd. inversion Hnd as [|? ? Hx Hxs]; subst.
  destruct Hq as [->|Hq], Hp as [->|Hp]; auto.
  + exfalso. apply Hx. rewrite Hl. now apply in_map.
  + exfalso. apply Hx. rewrite <- Hl. now apply in_map.
Qed.

(** C5 fails as stated, three ways: with no atoms the label of the schema is
    not a key of the columns mapping; a label declared twice has two entries
    for one atom; and after a negative column count a property declared with
    two columns holds an entry of one scalar. *)
Lemma C5_counterexample :
  (exists fr,
     __next__ no_atoms_lines = (Ok fr, [])
     /\ FrameProperties_ fr = [mkFrameProperties "species" STRING 1]
     /\ num_atoms fr = 0%Z
     /\ getitem "species" (data fr) = None)
  /\ (exists fr,
        __next__ repeated_label_lines = (Ok fr, [])
        /\ FrameProperties_ fr = [mkFrameProperties "tag" STRING 1; mkFrameProperties "tag" INT 1]
        /\ num_atoms fr = 1%Z
        /\ getitem "tag" (data fr) = Some [One (VStr "a"); One (VInt 7)])
  /\ (exists fr,
        __next__ negative_count_lines = (Ok fr, [])
        /\ FrameProperties_ fr
           = [mkFrameProperties "pad" STRING (-1); mkFrameProperties "species" STRING 2]
        /\ num_atoms fr = 1%Z
        /\ getitem "species" (data fr) = Some [Many [VStr "H"]]).
Proof.
  repeat split; vm_compute; eexists; repeat split.
Qed.

(** * Further properties of the extended reader *)

(** ** A frame and the lines it takes *)

Lemma rows_loop_local sc total n :
  forall idx data rows d rest other,
    rows_loop sc total n idx data (rows ++ rest)%list = (Ok d, rest) ->
    List.length rows = n ->
    rows_loop sc total n idx data (rows ++ other)%list = (Ok d, other).
Proof.
  induction n as [|n IH]; intros idx data rows d rest other H Hlen.
  - destruct rows; [|discriminate]. simpl in *. injection H as <-. reflexivity.
  - destruct rows as [|line rows]; [discriminate|].
    change ((line :: rows) ++ rest)%list with (line :: (rows ++ rest))%list in H.
    change ((line :: rows) ++ other)%list with (line :: (rows ++ other))%list.
    rewrite rows_loop_step. row_round H.
    apply (IH _ _ _ _ _ other H). simpl in Hlen. lia.
Qed.

Lemma read_frame_lines ls fr rest :
  read_frame ls = (Ok fr, rest) ->
  exists taken,
    ls = (taken ++ rest)%list
    /\ List.length taken = 2 + Z.to_nat (num_atoms fr)
    /\ forall other, read_frame (taken ++ other)%list = (Ok fr, other).
Proof.
  intros H.
  apply read_frame_Ok in H
    as (first & comment & rows & sc & -> & Hn & Hsc & HL & HP & HE & Hrows).
  destruct (rows_loop_Ok_lines _ _ _ _ _ _ _ _ Hrows) as (taken & -> & Hlen).
  exists (first :: comment :: taken). split; [reflexivity|]. split; [simpl; lia|].
  intros other.
  destruct (read_frame_header first comment (taken ++ other) _ sc Hn Hsc)
    as (vectors & props & HL' & HP' & Heq).
  change ((first :: comment :: taken) ++ other)%list
    with (first :: comment :: (taken ++ other))%list.
  rewrite Heq. rewrite HP in HP'. injection HP' as <-.
  rewrite HL in HL'. injection HL' as <-.
  rewrite (rows_loop_local _ _ _ _ _ _ _ _ other Hrows Hlen).
  destruct fr. simpl in *. now subst.
Qed.

(** X1: a frame that is read takes the two header lines and one line for
    each atom, no more; the lines after them are left for the next call, and
    the frame does not depend on them. *)
Theorem frame_takes_its_own_lines (ls rest : list string) (fr : ExtXYZFrame) :
  __next__ ls = (Ok fr, rest) ->
  exists taken,
    ls = (taken ++ rest)%list
    /\ List.length taken = 2 + Z.to_nat (num_atoms fr)
    /\ forall other, __next__ (taken ++ other)%list = (Ok fr, other).
Proof.
  unfold __next__. intros H.
  apply read_frame_Ok in H
    as (first & comment & rows & sc & -> & Hn & Hsc & HL & HP & HE & Hrows).
  destruct (rows_loop_Ok_lines _ _ _ _ _ _ _ _ Hrows) as (taken & -> & Hlen).
  exists (first :: comment :: taken). split; [reflexivity|]. split; [simpl; lia|].
  intros other.
  destruct (read_frame_header first comment (taken ++ other) _ sc Hn Hsc)
    as (vectors & props & HL' & HP' & Heq).
  change ((first :: comment :: taken) ++ other)%list
    with (first :: comment :: (taken ++ other))%list.
  rewrite Heq. rewrite HP in HP'. injection HP' as <-.
  rewrite HL in HL'. injection HL' as <-.
  rewrite (rows_loop_local _ _ _ _ _ _ _ _ other Hrows Hlen).
  destruct fr. simpl in *. now subst.
Qed.

Lemma frame_takes_its_own_lines_witness :
  __next__ (sample_lines ++ [("7" ++ nl)%string])%list = (Ok sample_frame, [("7" ++ nl)%string])
  /\ exists taken,
       (sample_lines ++ [("7" ++ nl)%string])%list = (taken ++ [("7" ++ nl)%string])%list
       /\ List.length taken = 2 + Z.to_nat (num_atoms sample_frame)
       /\ forall other, __next__ (taken ++ other)%list = (Ok sample_frame, other).
Proof.
  split; [reflexivity|].
  apply (frame_takes_its_own_lines (sample_lines ++ [("7" ++ nl)%string])%list [("7" ++ nl)%string]
           sample_frame eq_refl).
Defined.

(** X2: an atom count that is negative is not rejected: the reader takes the
    two header lines and returns a frame with that count and no column. *)
Theorem negative_atom_count_is_accepted (first comment : string) (rest : list string)
    (n : Z) (sc : dict kvalue) :
  int first = Some n ->
  (n <= 0)%Z ->
  parse_extended_comment comment = Ok sc ->
  exists fr,
    __next__ (first :: comment :: rest) = (Ok fr, rest)
    /\ num_atoms fr = n
    /\ data fr = [].
Proof.
  intros Hn Hle Hsc.
  destruct (read_frame_header first comment rest n sc Hn Hsc)
    as (vectors & props & HL & HP & Heq).
  exists (mkExtXYZFrame n vectors props (extra_kv sc) []).
  unfold __next__. rewrite Heq.
  replace (Z.to_nat n) with 0 by lia. auto.
Qed.

Lemma negative_atom_count_is_accepted_witness :
  int ("-3" ++ nl) = Some (-3)%Z
  /\ (-3 <= 0)%Z
  /\ exists fr,
       __next__ ["-3" ++ nl; sample_comment; "O 0.0 0.0 0.0" ++ nl]
       = (Ok fr, ["O 0.0 0.0 0.0" ++ nl])
       /\ num_atoms fr = (-3)%Z
       /\ data fr = [].
Proof.
  split; [reflexivity|]. split; [lia|].
  apply (negative_atom_count_is_accepted ("-3" ++ nl) sample_comment
           ["O 0.0 0.0 0.0" ++ nl] (-3)
           (finished (kv_dict sample_comment)
              [(one, zero, zero); (zero, one, zero); (zero, zero, one)]
              [mkFrameProperties "species" STRING 1; mkFrameProperties "pos" REAL 3])
           eq_refl); [lia | reflexivity].
Defined.

(** ** The loop over the schema, entry by entry *)

Lemma append_entry_ensure (l : string) (e : entry) (data : dict (list entry)) :
  append_entry l e (if contains l data then data else setitem l [] data)
  = Ok (Layout.add_entry l e data).
Proof.
  unfold append_entry, Layout.add_entry, contains.
  destruct (getitem l data) as [col|] eqn:E.
  - rewrite E. reflexivity.
  - rewrite getitem_setitem_same. reflexivity.
Qed.

Lemma props_loop_cons prop props split offset data :
  props_loop (prop :: props) split offset data
  = (e <- Layout.slot_entry prop split offset ;;
     data <- append_entry (label prop) e
               (if contains (label prop) data then data
                else setitem (label prop) [] data) ;;
     props_loop props split (offset + column_count prop)%Z data).
Proof. reflexivity. Qed.

(** The loop over the schema first works out the entries of the row, which
    is where it may raise, and then adds them to their columns. *)
Lemma props_loop_entries (props : list FrameProperties) :
  forall split offset data,
    props_loop props split offset data
    = (es <- Layout.row_entries props split offset ;;
       Ok (Layout.add_entries (combine (labels props) es) data)).
Proof.
  induction props as [|prop props IH]; intros split offset data; [reflexivity|].
  rewrite props_loop_cons. simpl Layout.row_entries.
  destruct (Layout.slot_entry prop split offset) as [e|err]; [|reflexivity].
  simpl bind. rewrite append_entry_ensure. simpl bind. rewrite IH.
  destruct (Layout.row_entries props split (offset + column_count prop)); reflexivity.
Qed.

Lemma get_parser_raises (t : ColumnDataType) (tok : string) (e : exn) :
  get_parser t tok = Raise e -> e = ValueError /\ (t = REAL \/ t = INT).
Proof.
  destruct t; simpl; try discriminate.
  - destruct (float tok); simpl; [discriminate|]. intros H. injection H as <-. auto.
  - destruct (int tok); simpl; [discriminate|]. intros H. injection H as <-. auto.
Qed.

Lemma parse_all_raises (t : ColumnDataType) (raw_data : list string) (e : exn) :
  parse_all (get_parser t) raw_data = Raise e -> e = ValueError /\ (t = REAL \/ t = INT).
Proof.
  induction raw_data as [|val rest IH]; simpl; [discriminate|].
  destruct (get_parser t val) as [v|e'] eqn:E; simpl.
  - destruct (parse_all (get_parser t) rest); simpl; [discriminate|].
    intros H. injection H as <-. auto.
  - intros H. injection H as <-. eapply get_parser_raises; eauto.
Qed.

Lemma slot_entry_raises (prop : FrameProperties) (split : list string) (offset : Z) (e : exn) :
  Layout.slot_entry prop split offset = Raise e ->
  (e = ValueError /\ (datatype prop = REAL \/ datatype prop = INT))
  \/ (e = IndexError /\ column_count prop = 1%Z
      /\ slice split offset (offset + column_count prop) = []).
Proof.
  unfold Layout.slot_entry.
  destruct (column_count prop =? 1)%Z eqn:E1.
  - apply Z.eqb_eq in E1.
    destruct (slice split offset (offset + column_count prop)) as [|tok raw]; simpl.
    + intros H. injection H as <-. auto.
    + destruct (get_parser (datatype prop) tok) eqn:E; simpl; [discriminate|].
      intros H. injection H as <-. left. eapply get_parser_raises; eauto.
  - destruct (parse_all _ _) eqn:E; simpl; [discriminate|].
    intros H. injection H as <-. left. eapply parse_all_raises; eauto.
Qed.

Lemma row_entries_raises (props : list FrameProperties) :
  forall split offset e,
    Layout.row_entries props split offset = Raise e -> e = ValueError \/ e = IndexError.
Proof.
  induction props as [|prop props IH]; intros split offset e; simpl; [discriminate|].
  destruct (Layout.slot_entry prop split offset) eqn:E; simpl.
  - destruct (Layout.row_entries props split (offset + column_count prop)) eqn:E'; simpl;
      [discriminate|].
    intros H. injection H as <-. eauto.
  - intros H. injection H as <-. apply slot_entry_raises in E. tauto.
Qed.

(** With no negative column count and enough tokens, a row raises nothing
    but the [ValueError] of a token that is not a real or an integer. *)
Lemma row_entries_in_range (props : list FrameProperties) :
  forall split offset,
    Forall (fun q => (0 <= column_count q)%Z) props ->
    (0 <= offset)%Z ->
    (offset + sum (map column_count props) <= len split)%Z ->
    (exists es, Layout.row_entries props split offset = Ok es)
    \/ (Layout.row_entries props split offset = Raise ValueError
        /\ Exists (fun q => datatype q = REAL \/ datatype q = INT) props).
Proof.
  induction props as [|prop props IH]; intros split offset Hpos Hoff Hle; simpl.
  - left. eauto.
  - inversion Hpos as [|? ? Hk Hpos']; subst.
    simpl map in Hle. rewrite sum_cons in Hle.
    pose proof (sum_nonneg _ (proj2 (Forall_map _ _ _) Hpos')) as Hsum.
    destruct (Layout.slot_entry prop split offset) as [e|err] eqn:E; simpl.
    + destruct (IH split (offset + column_count prop)%Z Hpos') as [(es & Hes)|(Hes & Hex)];
        try lia.
      * rewrite Hes. left. simpl. eexists. reflexivity.
      * rewrite Hes. right. split; [reflexivity | auto].
    + right. apply slot_entry_raises in E as [(-> & Ht)|(_ & H1 & Hnil)].
      * split; auto.
      * exfalso. apply (f_equal (@List.length string)) in Hnil.
        rewrite slice_length in Hnil by lia. simpl in Hnil. lia.
Qed.

Lemma rows_loop_in_range sc props :
  get_properties sc = Ok props ->
  Forall (fun q => (0 <= column_count q)%Z) props ->
  forall rows idx data rest,
    Forall (fun line => len (split line) = sum (map column_count props)) rows ->
    (exists d, rows_loop sc (sum (map column_count props)) (List.length rows) idx data
                 (rows ++ rest)%list = (Ok d, rest))
    \/ ((exists rest', rows_loop sc (sum (map column_count props)) (List.length rows) idx data
                         (rows ++ rest)%list = (Raise ValueError, rest'))
        /\ Exists (fun q => datatype q = REAL \/ datatype q = INT) props).
Proof.
  intros HP Hpos. induction rows as [|line rows IH]; intros idx data rest Hw.
  - left. exists data. reflexivity.
  - inversion Hw as [|? ? Hline Hw']; subst.
    change ((line :: rows) ++ rest)%list with (line :: (rows ++ rest))%list.
    simpl List.length. rewrite rows_loop_step, HP.
    rewrite (proj2 (Z.eqb_eq _ _) Hline).
    rewrite props_loop_entries.
    destruct (row_entries_in_range props (split line) 0 Hpos (Z.le_refl 0))
      as [(es & Hes)|(Hes & Hex)]; [lia| |].
    + rewrite Hes. simpl bind. apply IH. auto.
    + rewrite Hes. simpl bind. right. split; eauto.
Qed.

(** X3: when the header parses, no column count is negative and each of the
    rows announced has as many tokens as the schema has columns, the reader
    either returns the frame or raises [ValueError], and it can raise only if
    the schema has a real or an integer column: string and boolean columns
    take every token. *)
Theorem well_formed_rows_raise_only_ValueError (first comment : string)
    (rows rest : list string) (n : Z) (sc : dict kvalue) (props : list FrameProperties) :
  int first = Some n ->
  parse_extended_comment comment = Ok sc ->
  get_properties sc = Ok props ->
  Forall (fun q => (0 <= column_count q)%Z) props ->
  List.length rows = Z.to_nat n ->
  Forall (fun line => len (split line) = sum (map column_count props)) rows ->
  (exists fr, __next__ (first :: comment :: rows ++ rest)%list = (Ok fr, rest))
  \/ ((exists rest', __next__ (first :: comment :: rows ++ rest)%list = (Raise ValueError, rest'))
      /\ Exists (fun q => datatype q = REAL \/ datatype q = INT) props).
Proof.
  intros Hn Hsc HP Hpos Hlen Hw.
  destruct (read_frame_header first comment (rows ++ rest) n sc Hn Hsc)
    as (vectors & props' & HL & HP' & Heq).
  rewrite HP in HP'. injection HP' as <-.
  unfold __next__. rewrite Heq, <- Hlen.
  destruct (rows_loop_in_range sc props HP Hpos rows 0%Z [] rest Hw)
    as [(d & Hd)|((rest' & Hd) & Hex)]; rewrite Hd; eauto.
Qed.

Lemma well_formed_rows_raise_only_ValueError_witness :
  (exists fr, __next__ sample_lines = (Ok fr, []))
  \/ ((exists rest', __next__ sample_lines = (Raise ValueError, rest'))
      /\ Exists (fun q => datatype q = REAL \/ datatype q = INT)
           [mkFrameProperties "species" STRING 1; mkFrameProperties "pos" REAL 3]).
Proof.
  apply (well_formed_rows_raise_only_ValueError ("2" ++ nl) sample_comment
           ["O 0.0 0.0 0.0" ++ nl; "H 0.0 0.0 1.0" ++ nl] [] 2
           (finished (kv_dict sample_comment)
              [(one, zero, zero); (zero, one, zero); (zero, zero, one)]
              [mkFrameProperties "species" STRING 1; mkFrameProperties "pos" REAL 3])
           [mkFrameProperties "species" STRING 1; mkFrameProperties "pos" REAL 3]
           eq_refl eq_refl eq_refl).
  - repeat constructor; simpl; lia.
  - reflexivity.
  - repeat constructor.
Defined.

(** ** The exceptions of the reader *)

Lemma parse_extended_comment_raises_which (comment : string) (e : exn) :
  parse_extended_comment comment = Raise e ->
  e = KeyError "Lattice" \/ e = KeyError "Properties" \/ e = ValueError \/ e = IndexError.
Proof.
  rewrite parse_extended_comment_unfold, !getitem_str_kv_dict.
  destruct (getitem "Lattice" (kv_dict comment)) as [[[lattice| | |]| |]|]; simpl;
    try (intros H; injection H as <-; auto; fail).
  destruct (lattice_vectors (split lattice)) as [vectors|e'] eqn:Ev; simpl.
  - destruct (getitem "Properties" (kv_dict comment)) as [[[properties| | |]| |]|]; simpl;
      try (intros H; injection H as <-; auto; fail).
    destruct (properties_list (split_on ":" properties)) as [props|e''] eqn:Ep; simpl.
    + discriminate.
    + intros H. injection H as <-. apply properties_list_raises in Ep. tauto.
  - intros H. injection H as <-. apply lattice_vectors_raises in Ev. auto.
Qed.

Lemma rows_loop_raises sc total props n :
  get_properties sc = Ok props ->
  forall idx data ls e rest,
    (0 <= idx)%Z ->
    rows_loop sc total n idx data ls = (Raise e, rest) ->
    e = StopIteration \/ e = ValueError \/ e = IndexError
    \/ exists got line, e = AssertionError total got line /\ (3 <= line)%Z.
Proof.
  intros HP. induction n as [|n IH]; intros idx data ls e rest Hidx H; [discriminate|].
  destruct ls as [|line ls].
  - injection H as <- <-. auto.
  - rewrite rows_loop_step, HP, props_loop_entries in H.
    destruct (len (split line) =? total)%Z.
    + destruct (Layout.row_entries props (split line) 0) as [es|e'] eqn:E; simpl in H.
      * eapply IH; [|exact H]. lia.
      * injection H as <- <-. apply row_entries_raises in E. tauto.
    + injection H as <- <-. right. right. right. eexists _, _. split; [reflexivity | lia].
Qed.

(** X4: whatever the lines, the reader raises nothing but [StopIteration],
    [ValueError], [IndexError], [KeyError] for the key [Lattice] or the key
    [Properties], and the assertion error of a row, whose line number is at
    least 3; the look-ups of a label in the columns and of the decoded header
    never fail. *)
Theorem reader_exceptions (ls rest : list string) (e : exn) :
  __next__ ls = (Raise e, rest) ->
  e = StopIteration \/ e = ValueError \/ e = IndexError
  \/ e = KeyError "Lattice" \/ e = KeyError "Properties"
  \/ exists expected got line, e = AssertionError expected got line /\ (3 <= line)%Z.
Proof.
  unfold __next__. intros H.
  destruct ls as [|first [|comment rows]].
  - injection H as <- <-. auto.
  - unfold read_frame, rbind, lift, next_line in H.
    destruct (int first); simpl in H; injection H as <- <-; auto.
  - destruct (int first) as [n|] eqn:En.
    + destruct (parse_extended_comment comment) as [sc|e'] eqn:Esc.
      * destruct (read_frame_header first comment rows n sc En Esc)
          as (vectors & props & HL & HP & Heq).
        rewrite Heq in H.
        destruct (rows_loop _ _ _ _ _ rows) as [[d|e'] ls'] eqn:Er; [discriminate|].
        injection H as <- <-.
        apply (rows_loop_raises _ _ _ _ HP) in Er; [|lia].
        destruct Er as [->|[->|[->|(got & line & -> & Hline)]]]; auto.
        do 5 right. eauto.
      * unfold read_frame, rbind, lift, next_line in H. rewrite En in H.
        simpl in H. rewrite Esc in H. injection H as <- <-.
        apply parse_extended_comment_raises_which in Esc. tauto.
    + unfold read_frame, rbind, lift, next_line in H. rewrite En in H.
      injection H as <- <-. auto.
Qed.

Lemma reader_exceptions_witness :
  __next__ ["1" ++ nl; "Properties=species:S:1" ++ nl] = (Raise (KeyError "Lattice"), [])
  /\ (KeyError "Lattice" = StopIteration \/ KeyError "Lattice" = ValueError
      \/ KeyError "Lattice" = IndexError
      \/ KeyError "Lattice" = KeyError "Lattice" \/ KeyError "Lattice" = KeyError "Properties"
      \/ exists expected got line,
           KeyError "Lattice" = AssertionError expected got line /\ (3 <= line)%Z).
Proof.
  split; [reflexivity|].
  apply (reader_exceptions ["1" ++ nl; "Properties=species:S:1" ++ nl] []
           (KeyError "Lattice") eq_refl).
Defined.

(** ** The columns, label by label *)

Lemma keys_add_entry (l : string) (e : entry) (data : dict (list entry)) :
  keys (Layout.add_entry l e data)
  = if contains l data then keys data else (keys data ++ [l])%list.
Proof.
  unfold Layout.add_entry, contains.
  destruct (getitem l data) as [col|] eqn:E.
  - rewrite E. apply keys_setitem_present. congruence.
  - rewrite getitem_setitem_same.
    rewrite keys_setitem_present by (rewrite getitem_setitem_same; discriminate).
    now apply keys_setitem_absent.
Qed.

Lemma column_of_add_entry (l l' : string) (e : entry) (data : dict (list entry)) :
  Layout.column_of l' (Layout.add_entry l e data)
  = if String.eqb l l' then (Layout.column_of l' data ++ [e])%list
    else Layout.column_of l' data.
Proof.
  unfold Layout.add_entry, Layout.column_of, contains.
  destruct (String.eqb l l') eqn:El.
  - apply String.eqb_eq in El. subst l'.
    destruct (getitem l data) as [col|] eqn:E.
    + rewrite E, getitem_setitem_same. reflexivity.
    + rewrite !getitem_setitem_same. reflexivity.
  - apply String.eqb_neq in El.
    destruct (getitem l data) as [col|] eqn:E.
    + rewrite E. rewrite getitem_setitem_other by congruence. reflexivity.
    + rewrite getitem_setitem_same. rewrite !getitem_setitem_other by congruence.
      reflexivity.
Qed.

Lemma column_of_add_entries (les : list (string * entry)) :
  forall data l,
    Layout.column_of l (Layout.add_entries les data)
    = (Layout.column_of l data ++ Layout.pick l les)%list.
Proof.
  induction les as [|[l0 e0] les IH]; intros data l; simpl.
  - unfold Layout.pick. simpl. now rewrite app_nil_r.
  - rewrite IH, column_of_add_entry. unfold Layout.pick. simpl.
    destruct (String.eqb l0 l); simpl; [now rewrite <- app_assoc | reflexivity].
Qed.

Lemma column_of_add_rows (ls : list string) (ess : list (list entry)) :
  forall data l,
    Layout.column_of l (Layout.add_rows ls ess data)
    = (Layout.column_of l data
       ++ flat_map (fun es => Layout.pick l (combine ls es)) ess)%list.
Proof.
  unfold Layout.add_rows.
  induction ess as [|es ess IH]; intros data l; simpl.
  - now rewrite app_nil_r.
  - rewrite IH, column_of_add_entries. now rewrite <- app_assoc.
Qed.

Lemma row_entries_length (props : list FrameProperties) :
  forall split offset es,
    Layout.row_entries props split offset = Ok es -> List.length es = List.length props.
Proof.
  induction props as [|prop props IH]; intros split offset es H; simpl in H.
  - injection H as <-. reflexivity.
  - apply bind_Ok in H as (e & _ & H). apply bind_Ok in H as (es' & Hes & H).
    injection H as <-. simpl. f_equal. eauto.
Qed.

(** The rows of a frame that is read, as the entries they hold. *)
Lemma rows_loop_entries sc total props n :
  get_properties sc = Ok props ->
  forall idx data ls d rest,
    rows_loop sc total n idx data ls = (Ok d, rest) ->
    exists ess,
      Forall2 (fun line es => Layout.row_entries props (split line) 0 = Ok es)
        (firstn n ls) ess
      /\ d = Layout.add_rows (labels props) ess data.
Proof.
  intros HP. induction n as [|n IH]; intros idx data ls d rest H.
  - injection H as <- <-. exists []. split; [constructor | reflexivity].
  - destruct ls as [|line ls]; [discriminate|].
    rewrite rows_loop_step, HP, props_loop_entries in H.
    destruct (len (split line) =? total)%Z; [|discriminate].
    destruct (Layout.row_entries props (split line) 0) as [es|e] eqn:E; [|discriminate].
    simpl in H. destruct (IH _ _ _ _ _ H) as (ess & Hess & ->).
    exists (es :: ess). split; [constructor; auto | reflexivity].
Qed.

(** *** Keys in the order they are first seen *)

Lemma filter_twice {A : Type} (P Q : A -> bool) (l : list A) :
  filter P (filter Q l) = filter (fun x => Q x && P x) l.
Proof.
  induction l as [|x l IH]; simpl; auto.
  destruct (Q x); simpl; [destruct (P x); simpl; congruence | auto].
Qed.

Lemma existsb_eqb_In (l : string) (ks : list string) :
  existsb (String.eqb l) ks = true <-> In l ks.
Proof.
  rewrite existsb_exists. split.
  - intros (x & Hx & E). apply String.eqb_eq in E. now subst.
  - intros H. exists l. split; [auto | apply String.eqb_refl].
Qed.

(** Adding the labels one by one, each unless it is there already, adds the
    new ones in the order in which they are first seen. *)
Lemma first_seen_fold (ls : list string) :
  forall ks,
    fold_left (fun ks l => if existsb (String.eqb l) ks then ks else (ks ++ [l])%list) ls ks
    = (ks ++ filter (fun l => negb (existsb (String.eqb l) ks)) (Layout.first_seen ls))%list.
Proof.
  induction ls as [|l0 ls IH]; intros ks; simpl.
  - now rewrite app_nil_r.
  - rewrite IH. destruct (existsb (String.eqb l0) ks) eqn:E; simpl.
    + f_equal. rewrite filter_twice. apply filter_ext. intros x.
      destruct (String.eqb x l0) eqn:Ex; simpl; auto.
      apply String.eqb_eq in Ex. subst x. now rewrite E.
    + rewrite <- app_assoc. simpl. do 2 f_equal.
      rewrite filter_twice. apply filter_ext. intros x.
      rewrite existsb_app. simpl. rewrite orb_false_r, negb_orb.
      apply andb_comm.
Qed.

Lemma filter_absent_nil (ks ls : list string) :
  incl ls ks -> filter (fun l => negb (existsb (String.eqb l) ks)) ls = [].
Proof.
  induction ls as [|l ls IH]; intros Hincl; simpl; auto.
  rewrite (proj2 (existsb_eqb_In l ks)) by (apply Hincl; now left).
  simpl. apply IH. intros x Hx. apply Hincl. now right.
Qed.

Lemma contains_existsb {V : Type} (l : string) (d : dict V) :
  contains l d = existsb (String.eqb l) (keys d).
Proof.
  unfold contains. induction d as [|[k v] d IH]; simpl; auto.
  rewrite (String.eqb_sym l k). destruct (String.eqb k l); auto.
Qed.

Lemma keys_add_entries (les : list (string * entry)) :
  forall data,
    keys (Layout.add_entries les data)
    = (keys data
       ++ filter (fun l => negb (existsb (String.eqb l) (keys data)))
            (Layout.first_seen (map fst les)))%list.
Proof.
  intros data. rewrite <- first_seen_fold. revert data.
  induction les as [|[l e] les IH]; intros data; simpl; auto.
  rewrite IH, keys_add_entry, contains_existsb. reflexivity.
Qed.

Lemma map_fst_combine {A B : Type} (l : list A) (l' : list B) :
  List.length l' = List.length l -> map fst (combine l l') = l.
Proof.
  revert l'. induction l as [|a l IH]; intros [|b l'] H; simpl in *; try discriminate; auto.
  f_equal. apply IH. lia.
Qed.

Lemma first_seen_incl (ls : list string) : incl (Layout.first_seen ls) ls.
Proof.
  induction ls as [|l ls IH]; simpl; [apply incl_refl|].
  intros x [<-|Hx]; [now left|]. right. apply filter_In in Hx as [Hx _]. auto.
Qed.

Lemma keys_add_rows (ls : list string) (ess : list (list entry)) :
  Forall (fun es => List.length es = List.length ls) ess ->
  ess <> [] ->
  keys (Layout.add_rows ls ess []) = Layout.first_seen ls.
Proof.
  intros Hlen Hne.
  assert (Hstable : forall ess data,
             Forall (fun es => List.length es = List.length ls) ess ->
             keys data = Layout.first_seen ls ->
             keys (Layout.add_rows ls ess data) = Layout.first_seen ls).
  { clear. unfold Layout.add_rows.
    induction ess as [|es ess IH]; intros data Hlen Hk; simpl; auto.
    inversion Hlen as [|? ? Hes Hlen']; subst.
    apply IH; auto.
    rewrite keys_add_entries, map_fst_combine, Hk by auto.
    rewrite filter_absent_nil by apply incl_refl. apply app_nil_r. }
  destruct ess as [|es ess]; [congruence|].
  inversion Hlen as [|? ? Hes Hlen']; subst.
  unfold Layout.add_rows. simpl. apply Hstable; auto.
  rewrite keys_add_entries, map_fst_combine by auto. simpl.
  clear. induction (Layout.first_seen ls) as [|x l IH]; simpl; congruence.
Qed.

(** X5: in a frame read with at least one atom, the keys of the columns
    mapping are the labels of the schema in the order in which the schema
    first names them, each once. *)
Theorem columns_keys_in_schema_order (ls rest : list string) (fr : ExtXYZFrame) :
  __next__ ls = (Ok fr, rest) ->
  (1 <= num_atoms fr)%Z ->
  keys (data fr) = Layout.first_seen (labels (FrameProperties_ fr)).
Proof.
  intros H Hn. unfold __next__ in H.
  apply read_frame_Ok in H
    as (first & comment & rows & sc & -> & _ & _ & _ & HP & _ & Hrows).
  destruct (rows_loop_Ok_lines _ _ _ _ _ _ _ _ Hrows) as (taken & -> & Hlen).
  destruct (rows_loop_entries _ _ _ _ HP _ _ _ _ _ Hrows) as (ess & Hess & ->).
  apply keys_add_rows.
  - clear - Hess. induction Hess as [|line es lines ess Hes _ IH]; constructor; auto.
    unfold labels. rewrite length_map. eapply row_entries_length; eauto.
  - intros ->. inversion Hess as [Hnil|]. 
    rewrite firstn_app, Hlen, Nat.sub_diag, firstn_all2 in Hnil by lia.
    simpl in Hnil. rewrite app_nil_r in Hnil.
    subst taken. simpl in Hlen. lia.
Qed.

Lemma columns_keys_in_schema_order_witness :
  __next__ repeated_label_lines
  = (Ok (mkExtXYZFrame 1
           [(one, zero, zero); (zero, one, zero); (zero, zero, one)]
           [mkFrameProperties "tag" STRING 1; mkFrameProperties "tag" INT 1]
           [] [("tag", [One (VStr "a"); One (VInt 7)])]),
     [])
  /\ keys [("tag", [One (VStr "a"); One (VInt 7)])]
     = Layout.first_seen ["tag"; "tag"].
Proof.
  split; [reflexivity|].
  apply (columns_keys_in_schema_order repeated_label_lines []
           (mkExtXYZFrame 1
              [(one, zero, zero); (zero, one, zero); (zero, zero, one)]
              [mkFrameProperties "tag" STRING 1; mkFrameProperties "tag" INT 1]
              [] [("tag", [One (VStr "a"); One (VInt 7)])]) eq_refl).
  simpl. lia.
Defined.

(** *** What the columns hold *)

Lemma pick_absent {A : Type} (l : string) (ls : list string) (es : list A) :
  ~ In l ls -> Layout.pick l (combine ls es) = [].
Proof.
  revert es. induction ls as [|l0 ls IH]; intros es Hnot; [reflexivity|].
  destruct es as [|e es]; [reflexivity|].
  unfold Layout.pick in *. simpl.
  destruct (String.eqb l0 l) eqn:E.
  - apply String.eqb_eq in E. subst. exfalso. apply Hnot. now left.
  - apply IH. intros H. apply Hnot. now right.
Qed.

Lemma pick_NoDup {A : Type} (ls : list string) :
  NoDup ls ->
  forall (es : list A) j l,
    nth_error ls j = Some l ->
    Layout.pick l (combine ls es)
    = match nth_error es j with Some e => [e] | None => [] end.
Proof.
  induction 1 as [|l0 ls Hnot Hnd IH]; intros es j l Hj.
  - destruct j; discriminate.
  - destruct es as [|e es]; [destruct j; reflexivity|].
    destruct j as [|j]; simpl in Hj.
    + injection Hj as ->. unfold Layout.pick. simpl. rewrite String.eqb_refl. simpl.
      f_equal. now apply (pick_absent l ls es).
    + unfold Layout.pick. simpl.
      destruct (String.eqb l0 l) eqn:E.
      * apply String.eqb_eq in E. subst. exfalso. apply Hnot.
        eapply nth_error_In; eauto.
      * apply (IH es j l Hj).
Qed.

(** X6: the columns of a frame that is read hold the rows turned round.
    Each row taken gives one entry for each property, from the slice of the
    row that starts where the slices of the properties before it end; the
    column of a label lists, row after row, the entries of the properties
    declared with that label.  When the labels of the schema are pairwise
    distinct, the column of the [j]-th property is the [j]-th entry of every
    row. *)
Theorem columns_hold_the_rows (ls rest : list string) (fr : ExtXYZFrame) :
  __next__ ls = (Ok fr, rest) ->
  exists ess,
    Forall2 (fun line es =>
               Layout.row_entries (FrameProperties_ fr) (split line) 0 = Ok es)
      (firstn (Z.to_nat (num_atoms fr)) (skipn 2 ls)) ess
    /\ (forall l,
          Layout.column_of l (data fr)
          = flat_map (fun es => Layout.pick l (combine (labels (FrameProperties_ fr)) es)) ess)
    /\ (NoDup (labels (FrameProperties_ fr)) ->
        forall j l,
          nth_error (labels (FrameProperties_ fr)) j = Some l ->
          Layout.column_of l (data fr) = Layout.column j ess).
Proof.
  intros H. unfold __next__ in H.
  apply read_frame_Ok in H
    as (first & comment & rows & sc & -> & _ & _ & _ & HP & _ & Hrows).
  destruct (rows_loop_entries _ _ _ _ HP _ _ _ _ _ Hrows) as (ess & Hess & Hd).
  exists ess. simpl skipn. split; [exact Hess|].
  assert (Hcol : forall l,
             Layout.column_of l (data fr)
             = flat_map (fun es => Layout.pick l (combine (labels (FrameProperties_ fr)) es))
                 ess).
  { intros l. rewrite Hd, column_of_add_rows. reflexivity. }
  split; [exact Hcol|].
  intros Hnd j l Hj. rewrite Hcol. unfold Layout.column.
  clear - Hnd Hj. induction ess as [|es ess IH]; simpl; auto.
  rewrite IH, (pick_NoDup _ Hnd es j l Hj). reflexivity.
Qed.

Lemma columns_hold_the_rows_witness :
  __next__ sample_lines = (Ok sample_frame, [])
  /\ exists ess,
       Forall2 (fun line es =>
                  Layout.row_entries (FrameProperties_ sample_frame) (split line) 0 = Ok es)
         (firstn (Z.to_nat (num_atoms sample_frame)) (skipn 2 sample_lines)) ess
       /\ (forall l,
             Layout.column_of l (data sample_frame)
             = flat_map
                 (fun es => Layout.pick l (combine (labels (FrameProperties_ sample_frame)) es))
                 ess)
       /\ (NoDup (labels (FrameProperties_ sample_frame)) ->
           forall j l,
             nth_error (labels (FrameProperties_ sample_frame)) j = Some l ->
             Layout.column_of l (data sample_frame) = Layout.column j ess).
Proof.
  split; [reflexivity|].
  apply (columns_hold_the_rows sample_lines [] sample_frame eq_refl).
Defined.

(** ** The extra metadata *)

Lemma keys_setitem_fold {V : Type} (k : string) (v : V) (d : dict V) :
  keys (setitem k v d)
  = if existsb (String.eqb k) (keys d) then keys d else (keys d ++ [k])%list.
Proof.
  rewrite <- contains_existsb. unfold contains.
  destruct (getitem k d) eqn:E.
  - apply keys_setitem_present. congruence.
  - now apply keys_setitem_absent.
Qed.

Lemma keys_build_kv_dict (kv_pairs : list (string * string)) :
  keys (build_kv_dict kv_pairs) = Layout.first_seen (map fst kv_pairs).
Proof.
  unfold build_kv_dict.
  assert (H : forall d : dict kvalue,
             keys (fold_left
                     (fun d kv => setitem (fst kv)
                                    (KScalar (VStr (strip (is_char dquote) (snd kv)))) d)
                     kv_pairs d)
             = fold_left (fun ks l => if existsb (String.eqb l) ks then ks
                                      else (ks ++ [l])%list)
                 (map fst kv_pairs) (keys d)).
  { induction kv_pairs as [|[k v] rest IH]; intros d; simpl; auto.
    rewrite IH, keys_setitem_fold. reflexivity. }
  rewrite H, first_seen_fold. simpl.
  induction (Layout.first_seen (map fst kv_pairs)) as [|x l IH]; simpl; congruence.
Qed.

Lemma keys_extra_kv (d : dict kvalue) :
  keys (extra_kv d)
  = filter (fun k => negb (String.eqb k "Lattice" || String.eqb k "Properties")) (keys d).
Proof.
  unfold extra_kv, keys. induction d as [|[k v] d IH]; simpl; auto.
  destruct (negb (String.eqb k "Lattice" || String.eqb k "Properties")); simpl; congruence.
Qed.

Lemma getitem_extra_kv (d : dict kvalue) (key : string) :
  getitem key (extra_kv d)
  = if String.eqb key "Lattice" || String.eqb key "Properties" then None
    else getitem key d.
Proof.
  unfold extra_kv. induction d as [|[k v] d IH]; simpl.
  - destruct (String.eqb key "Lattice" || String.eqb key "Properties"); reflexivity.
  - destruct (String.eqb k key) eqn:E.
    + apply String.eqb_eq in E. subst k.
      destruct (String.eqb key "Lattice" || String.eqb key "Properties") eqn:E'; simpl.
      * exact IH.
      * now rewrite String.eqb_refl.
    + destruct (negb (String.eqb k "Lattice" || String.eqb k "Properties")); simpl.
      * rewrite E. exact IH.
      * exact IH.
Qed.

(** X7: the extra metadata of a frame that is read.  Its keys are the keys
    of the key=value tokens of the comment line other than [Lattice] and
    [Properties], each once, in the order in which the line first names them;
    a key is bound to the typed form (integer, else real, else the literals
    [T] and [F], else the string) of the value of its last occurrence, double
    quotes stripped; [Lattice] and [Properties] are never keys of it. *)
Theorem extra_metadata_of_a_frame (ls rest : list string) (fr : ExtXYZFrame)
    (comment : string) :
  __next__ ls = (Ok fr, rest) ->
  nth_error ls 1 = Some comment ->
  keys (ExtraKV fr)
  = filter (fun k => negb (String.eqb k "Lattice" || String.eqb k "Properties"))
      (Layout.first_seen (map fst (Re.findall comment)))
  /\ forall key,
       getitem key (ExtraKV fr)
       = if String.eqb key "Lattice" || String.eqb key "Properties" then None
         else option_map (fun v => KScalar (infer_scalar (strip (is_char dquote) v)))
                (last_value key (Re.findall comment)).
Proof.
  intros H Hc. unfold __next__ in H.
  apply read_frame_Ok in H
    as (first & comment' & rows & sc & -> & _ & Hsc & _ & _ & -> & _).
  simpl in Hc. injection Hc as ->.
  apply parse_extended_comment_Ok in Hsc
    as (lattice & vectors & properties & props & HL & _ & HP & _ & ->).
  split.
  - rewrite keys_extra_kv, keys_finished by congruence.
    unfold kv_dict. now rewrite keys_build_kv_dict.
  - intros key. rewrite getitem_extra_kv.
    destruct (String.eqb key "Lattice") eqn:E1; [reflexivity|].
    destruct (String.eqb key "Properties") eqn:E2; [reflexivity|].
    simpl. apply String.eqb_neq in E1, E2.
    rewrite getitem_finished_extra by auto.
    unfold kv_dict. rewrite build_kv_dict_getitem.
    destruct (last_value key (Re.findall comment)) as [v|]; simpl; [|reflexivity].
    unfold retype.
    rewrite (proj2 (String.eqb_neq _ _) E1), (proj2 (String.eqb_neq _ _) E2).
    reflexivity.
Qed.

Lemma extra_metadata_of_a_frame_witness :
  __next__ sample_lines = (Ok sample_frame, [])
  /\ nth_error sample_lines 1 = Some sample_comment
  /\ keys (ExtraKV sample_frame) = ["Energy"]
  /\ getitem "Energy" (ExtraKV sample_frame) = Some (KScalar (VReal (FDec true 15 (-1)))).
Proof.
  split; [reflexivity|]. split; [reflexivity|].
  destruct (extra_metadata_of_a_frame sample_lines [] sample_frame sample_comment
              eq_refl eq_refl) as [Hkeys Hget].
  split; [reflexivity|]. rewrite (Hget "Energy"). reflexivity.
Defined.

(** ** A comment line written out and read back *)

Lemma string_app_assoc (a b c : string) : ((a ++ b) ++ c = a ++ (b ++ c))%string.
Proof. induction a as [|x a IH]; simpl; congruence. Qed.

Lemma span_app_stop (p : ascii -> bool) (a : string) (c : ascii) (b : string) :
  forallb_string p a = true -> p c = false ->
  span p (a ++ String c b) = (a, String c b).
Proof.
  intros Ha Hc. induction a as [|x a IH]; simpl.
  - now rewrite Hc.
  - simpl in Ha. apply andb_prop in Ha as [Hx Ha]. rewrite Hx, (IH Ha). reflexivity.
Qed.

Lemma span_all (p : ascii -> bool) (a : string) :
  forallb_string p a = true -> span p a = (a, EmptyString).
Proof.
  intros Ha. induction a as [|x a IH]; simpl; auto.
  simpl in Ha. apply andb_prop in Ha as [Hx Ha]. rewrite Hx, (IH Ha). reflexivity.
Qed.

Lemma lazy_dot_quote_body (body tail : string) :
  Layout.quotable_value body = true ->
  Re.lazy_dot_quote (body ++ String dquote tail)
  = Some ((body ++ String dquote EmptyString)%string, tail).
Proof.
  unfold Layout.quotable_value. intros Hb. induction body as [|x body IH]; simpl.
  - reflexivity.
  - simpl in Hb. apply andb_prop in Hb as [Hx Hb]. apply andb_prop in Hx as [Hq Hn].
    apply negb_true_iff in Hq, Hn. rewrite Hq, Hn, (IH Hb). reflexivity.
Qed.

Lemma rstrip_free (p : ascii -> bool) (a : string) :
  forallb_string (fun c => negb (p c)) a = true -> rstrip p a = a.
Proof.
  induction a as [|x a IH]; simpl; auto. intros H.
  apply andb_prop in H as [Hx Ha]. apply negb_true_iff in Hx.
  rewrite (IH Ha), Hx. destruct a; reflexivity.
Qed.

Lemma rstrip_app_one (p : ascii -> bool) (a : string) (q : ascii) :
  p q = true -> rstrip p (a ++ String q EmptyString) = rstrip p a.
Proof.
  intros Hq. induction a as [|x a IH]; simpl.
  - now rewrite Hq.
  - now rewrite IH.
Qed.

Lemma quotable_free (body : string) :
  Layout.quotable_value body = true ->
  forallb_string (fun c => negb (is_char dquote c)) body = true.
Proof.
  unfold Layout.quotable_value. induction body as [|x body IH]; simpl; auto.
  intros H. apply andb_prop in H as [Hx Hb]. apply andb_prop in Hx as [Hq _].
  rewrite Hq. simpl. auto.
Qed.

Lemma lstrip_free (p : ascii -> bool) (a : string) :
  forallb_string (fun c => negb (p c)) a = true -> lstrip p a = a.
Proof.
  destruct a as [|x a]; simpl; auto. intros H.
  apply andb_prop in H as [Hx _]. apply negb_true_iff in Hx. now rewrite Hx.
Qed.

Lemma strip_free (p : ascii -> bool) (a : string) :
  forallb_string (fun c => negb (p c)) a = true -> strip p a = a.
Proof.
  intros H. unfold strip. rewrite lstrip_free by auto. now apply rstrip_free.
Qed.

Lemma strip_quoted (body : string) :
  Layout.quotable_value body = true ->
  strip (is_char dquote) (quoted body) = body.
Proof.
  intros Hb. apply quotable_free in Hb. unfold strip, quoted.
  change (String dquote EmptyString ++ body ++ String dquote EmptyString)%string
    with (String dquote (body ++ String dquote EmptyString)).
  cbn [lstrip]. change (is_char dquote dquote) with true. cbv iota.
  destruct body as [|x body]; [reflexivity|].
  pose proof Hb as Hb'. simpl in Hb'. apply andb_prop in Hb' as [Hx _].
  apply negb_true_iff in Hx.
  change (String x body ++ String dquote EmptyString)%string
    with (String x (body ++ String dquote EmptyString)).
  cbn [lstrip]. rewrite Hx.
  change (String x (body ++ String dquote EmptyString))
    with (String x body ++ String dquote EmptyString)%string.
  rewrite rstrip_app_one by reflexivity.
  now apply rstrip_free.
Qed.

Lemma match_value_quoted (body tail : string) :
  Layout.quotable_value body = true ->
  Re.match_value (quoted body ++ tail) = Some (quoted body, tail).
Proof.
  intros Hb. unfold Re.match_value, quoted.
  change ((String dquote EmptyString ++ body ++ String dquote EmptyString) ++ tail)%string
    with (String dquote ((body ++ String dquote EmptyString) ++ tail)).
  rewrite string_app_assoc.
  change (String dquote EmptyString ++ tail)%string with (String dquote tail).
  unfold Re.match_quoted. change (is_char dquote dquote) with true. cbv iota.
  rewrite lazy_dot_quote_body by auto. reflexivity.
Qed.

Lemma match_value_bare (value tail : string) :
  Layout.bare_value value = true ->
  tail = EmptyString \/ (exists c t, tail = String c t /\ isspace c = true) ->
  Re.match_value (value ++ tail) = Some (value, tail).
Proof.
  unfold Layout.bare_value. intros Hv Htail.
  apply andb_prop in Hv as [Hv _]. apply andb_prop in Hv as [Hhead Hns].
  destruct value as [|v0 value]; [discriminate|].
  apply negb_true_iff in Hhead.
  assert (Hq : Re.match_quoted (String v0 value ++ tail) = None).
  { unfold Re.match_quoted. simpl. now rewrite Hhead. }
  unfold Re.match_value. rewrite Hq. unfold Re.match_nonspace.
  destruct Htail as [->|(c & t & -> & Hc)].
  - replace (String v0 value ++ "")%string with (String v0 value)
      by (clear; induction (String v0 value) as [|x a IH]; simpl; congruence).
    rewrite span_all by auto. reflexivity.
  - rewrite span_app_stop by (auto; now rewrite Hc). reflexivity.
Qed.

(** A written item is matched whole where it starts. *)
Lemma match_here_item (item : string * bool * string) (tail : string) :
  Layout.writable item = true ->
  tail = EmptyString \/ (exists c t, tail = String c t /\ isspace c = true) ->
  Re.match_here (Layout.write_item item ++ tail)
  = Some (fst (Layout.raw_pair item), snd (Layout.raw_pair item), tail).
Proof.
  destruct item as [[key quote] value]. unfold Layout.writable, Layout.plain_key.
  intros Hw Htail. apply andb_prop in Hw as [Hkey Hval].
  apply andb_prop in Hkey as [Hne Hword].
  unfold Layout.write_item, Re.match_here. rewrite !string_app_assoc.
  change ("=" ++ ((if quote then quoted value else value) ++ tail))%string
    with (String "=" ((if quote then quoted value else value) ++ tail)).
  rewrite (span_app_stop isword) by (auto; reflexivity).
  rewrite Hne. change (is_char "=" "=") with true. cbv iota.
  unfold Layout.raw_pair, fst, snd.
  destruct quote.
  - rewrite match_value_quoted by auto. reflexivity.
  - rewrite match_value_bare by auto. reflexivity.
Qed.

Lemma findall_from_S (n : nat) (s : string) :
  Re.findall_from (S n) s
  = match Re.match_here s with
    | Some (k, v, r) => (k, v) :: Re.findall_from n r
    | None =>
        match s with
        | EmptyString => []
        | String _ s' => Re.findall_from n s'
        end
    end.
Proof. reflexivity. Qed.

Lemma findall_match (s k v r : string) :
  Re.match_here s = Some (k, v, r) -> Re.findall s = (k, v) :: Re.findall r.
Proof.
  intros H. pose proof (match_here_length _ _ _ _ H) as Hlen.
  unfold Re.findall. rewrite (findall_from_S (length s) s), H. f_equal.
  apply findall_from_fuel; lia.
Qed.

Lemma findall_skip (c : ascii) (s : string) :
  isword c = false -> Re.findall (String c s) = Re.findall s.
Proof.
  intros Hc.
  assert (Hnone : Re.match_here (String c s) = None).
  { unfold Re.match_here. simpl. rewrite Hc. reflexivity. }
  unfold Re.findall. rewrite (findall_from_S (length (String c s)) (String c s)), Hnone.
  reflexivity.
Qed.

Lemma findall_written (items : list (string * bool * string)) (tail : string) :
  Forall (fun item => Layout.writable item = true) items ->
  tail = EmptyString \/ tail = nl ->
  Re.findall (Layout.write_comment items ++ tail) = map Layout.raw_pair items.
Proof.
  intros Hw Htail.
  assert (Htail' : tail = EmptyString \/ (exists c t, tail = String c t /\ isspace c = true)).
  { destruct Htail as [->| ->]; [now left|]. right. exists newline, EmptyString. auto. }
  assert (Hnone : Re.findall tail = []).
  { destruct Htail as [->| ->]; reflexivity. }
  induction Hw as [|item items Hitem Hitems IH]; [exact Hnone|].
  destruct items as [|item' items].
  - simpl Layout.write_comment.
    rewrite (findall_match _ _ _ _ (match_here_item item tail Hitem Htail')), Hnone.
    simpl map. destruct (Layout.raw_pair item). reflexivity.
  - change (Layout.write_comment (item :: item' :: items))
      with (Layout.write_item item ++ " " ++ Layout.write_comment (item' :: items))%string.
    rewrite !string_app_assoc.
    change (" " ++ (Layout.write_comment (item' :: items) ++ tail))%string
      with (String " " (Layout.write_comment (item' :: items) ++ tail)).
    rewrite (findall_match _ _ _ _
               (match_here_item item _ Hitem
                  (or_intror (ex_intro _ " "%char (ex_intro _ _ (conj eq_refl eq_refl)))))).
    rewrite findall_skip by reflexivity. rewrite IH.
    simpl map. destruct (Layout.raw_pair item). reflexivity.
Qed.

Lemma strip_raw_pair (item : string * bool * string) :
  Layout.writable item = true ->
  strip (is_char dquote) (snd (Layout.raw_pair item)) = snd (Layout.kept_pair item).
Proof.
  destruct item as [[key quote] value]. unfold Layout.writable. simpl.
  intros H. apply andb_prop in H as [_ H]. destruct quote.
  - now apply strip_quoted.
  - unfold Layout.bare_value in H. apply andb_prop in H as [_ H].
    now apply String.eqb_eq in H.
Qed.

Lemma strip_kept_pair (item : string * bool * string) :
  Layout.writable item = true ->
  strip (is_char dquote) (snd (Layout.kept_pair item)) = snd (Layout.kept_pair item).
Proof.
  destruct item as [[key quote] value]. unfold Layout.writable. simpl.
  intros H. apply andb_prop in H as [_ H]. destruct quote.
  - apply strip_free. now apply quotable_free.
  - unfold Layout.bare_value in H. apply andb_prop in H as [_ H].
    now apply String.eqb_eq in H.
Qed.

Lemma build_kv_dict_ext (ps qs : list (string * string)) :
  map fst ps = map fst qs ->
  map (fun p => strip (is_char dquote) (snd p)) ps
  = map (fun q => strip (is_char dquote) (snd q)) qs ->
  build_kv_dict ps = build_kv_dict qs.
Proof.
  unfold build_kv_dict. generalize (@nil (string * kvalue)).
  revert qs. induction ps as [|[k v] ps IH]; intros [|[k' v'] qs] d Hk Hv;
    simpl in *; try discriminate; auto.
  injection Hk as -> Hk. injection Hv as -> Hv. now apply IH.
Qed.

Lemma last_value_fixed (key v : string) (ps : list (string * string)) :
  Forall (fun p => strip (is_char dquote) (snd p) = snd p) ps ->
  last_value key ps = Some v ->
  strip (is_char dquote) v = v.
Proof.
  induction 1 as [|[k v0] ps Hp _ IH]; simpl; [discriminate|].
  destruct (last_value key ps) as [v'|].
  - intros E. injection E as ->. now apply IH.
  - destruct (String.eqb k key); [|discriminate]. intros E. injection E as ->. exact Hp.
Qed.

(** X8: a comment line written as [key=value] items one space apart, the
    value bare or between double quotes, is read back item for item.  When
    every key is a run of word characters, every bare value a run without
    white space that neither starts nor ends with a double quote, and every
    quoted value free of double quotes and line feeds, [re.findall] extracts
    exactly the items, in order, and the dictionary of line 82 has the keys
    in the order in which they are first written and binds every key to the
    value written for its last occurrence, with or without the line feed at
    the end of the line. *)
Theorem written_comment_reads_back (items : list (string * bool * string)) (tail : string) :
  Forall (fun item => Layout.writable item = true) items ->
  tail = EmptyString \/ tail = nl ->
  Re.findall (Layout.write_comment items ++ tail) = map Layout.raw_pair items
  /\ keys (kv_dict (Layout.write_comment items ++ tail))
     = Layout.first_seen (map (fun item => fst (Layout.kept_pair item)) items)
  /\ forall key,
       getitem key (kv_dict (Layout.write_comment items ++ tail))
       = option_map (fun v => KScalar (VStr v))
           (last_value key (map Layout.kept_pair items)).
Proof.
  intros Hw Htail.
  pose proof (findall_written items tail Hw Htail) as Hfind.
  assert (Hdict : kv_dict (Layout.write_comment items ++ tail)
                  = build_kv_dict (map Layout.kept_pair items)).
  { unfold kv_dict. rewrite Hfind. apply build_kv_dict_ext.
    - rewrite !map_map. apply map_ext. intros [[k q] v]. reflexivity.
    - rewrite !map_map. clear - Hw.
      induction Hw as [|item items Hitem _ IH]; simpl; [reflexivity|].
      now rewrite IH, strip_raw_pair, strip_kept_pair. }
  split; [exact Hfind|]. split.
  - rewrite Hdict, keys_build_kv_dict, map_map. reflexivity.
  - intros key. rewrite Hdict, build_kv_dict_getitem.
    destruct (last_value key (map Layout.kept_pair items)) as [v|] eqn:E; [|reflexivity].
    simpl. do 3 f_equal. apply (last_value_fixed key v (map Layout.kept_pair items)); auto.
    apply Forall_map. eapply Forall_impl; [|exact Hw].
    intros item Hitem. now apply strip_kept_pair.
Qed.

Lemma written_comment_reads_back_witness :
  Forall (fun item => Layout.writable item = true)
    [("Lattice", true, "1 0 0 0 1 0 0 0 1"); ("Properties", false, "species:S:1:pos:R:3");
     ("Energy", false, "-1.5")]
  /\ Layout.write_comment
       [("Lattice", true, "1 0 0 0 1 0 0 0 1"); ("Properties", false, "species:S:1:pos:R:3");
        ("Energy", false, "-1.5")] ++ nl = sample_comment
  /\ Re.findall sample_comment
     = [("Lattice", quoted "1 0 0 0 1 0 0 0 1"); ("Properties", "species:S:1:pos:R:3");
        ("Energy", "-1.5")].
Proof.
  assert (Hw : Forall (fun item => Layout.writable item = true)
                 [("Lattice", true, "1 0 0 0 1 0 0 0 1");
                  ("Properties", false, "species:S:1:pos:R:3");
                  ("Energy", false, "-1.5")]).
  { repeat constructor. }
  split; [exact Hw|]. split; [reflexivity|].
  exact (proj1 (written_comment_reads_back _ nl Hw (or_intror eq_refl))).
Defined.

(** ** What [re.findall] can extract *)

Lemma span_forallb (p : ascii -> bool) (s a b : string) :
  span p s = (a, b) -> forallb_string p a = true.
Proof.
  revert a b. induction s as [|c s IH]; simpl; intros a b H.
  - injection H as <- <-. reflexivity.
  - destruct (p c) eqn:Ep.
    + destruct (span p s) as [a' b'] eqn:E. injection H as <- <-.
      simpl. rewrite Ep. simpl. eapply IH; eauto.
    + injection H as <- <-. reflexivity.
Qed.

Lemma lazy_dot_quote_no_newline (s t r : string) :
  Re.lazy_dot_quote s = Some (t, r) ->
  forallb_string (fun c => negb (is_char newline c)) t = true.
Proof.
  revert t. induction s as [|c s IH]; simpl; intros t H; [discriminate|].
  destruct (is_char dquote c) eqn:Eq.
  - injection H as <- <-. simpl. rewrite andb_true_r.
    unfold is_char in *. apply Ascii.eqb_eq in Eq. subst c. reflexivity.
  - destruct (is_char newline c) eqn:En; [discriminate|].
    destruct (Re.lazy_dot_quote s) as [[t' r']|] eqn:E; [|discriminate].
    injection H as <- <-. simpl. rewrite En. simpl. eapply IH; eauto.
Qed.

Lemma nonspace_no_newline (v : string) :
  forallb_string (fun c => negb (isspace c)) v = true ->
  forallb_string (fun c => negb (is_char newline c)) v = true.
Proof.
  induction v as [|c v IH]; simpl; auto. intros H.
  apply andb_prop in H as [Hc Hv]. rewrite (IH Hv), andb_true_r.
  destruct (is_char newline c) eqn:En; auto.
  unfold is_char in En. apply Ascii.eqb_eq in En. subst c. discriminate.
Qed.

Lemma match_here_shape (s k v r : string) :
  Re.match_here s = Some (k, v, r) ->
  Layout.plain_key k = true
  /\ nonempty v = true
  /\ forallb_string (fun c => negb (is_char newline c)) v = true
  /\ (forallb_string (fun c => negb (isspace c)) v = true
      \/ exists body, v = String dquote body).
Proof.
  unfold Re.match_here. destruct (span isword s) as [a b] eqn:Es.
  apply span_forallb in Es.
  destruct (nonempty a) eqn:Ea; [|discriminate].
  destruct b as [|c b]; [discriminate|].
  destruct (is_char "=" c); [|discriminate].
  unfold Re.match_value.
  destruct (Re.match_quoted b) as [[v' r']|] eqn:Eq.
  - intros H. injection H as <- <- <-.
    split; [unfold Layout.plain_key; now rewrite Ea, Es|].
    unfold Re.match_quoted in Eq. destruct b as [|q b]; [discriminate|].
    destruct (is_char dquote q) eqn:Eqq; [|discriminate].
    destruct (Re.lazy_dot_quote b) as [[t r'']|] eqn:El; [|discriminate].
    injection Eq as <- <-.
    unfold is_char in Eqq. apply Ascii.eqb_eq in Eqq. subst q.
    split; [reflexivity|]. split; [|right; eauto].
    simpl. eapply lazy_dot_quote_no_newline; eauto.
  - unfold Re.match_nonspace.
    destruct (span (fun c => negb (isspace c)) b) as [v' r'] eqn:Ev.
    apply span_forallb in Ev.
    destruct (nonempty v') eqn:Env; [|discriminate].
    intros H. injection H as <- <- <-.
    split; [unfold Layout.plain_key; now rewrite Ea, Es|].
    split; [auto|]. split; [now apply nonspace_no_newline | now left].
Qed.

(** X9: whatever the comment line, every key [re.findall] extracts is a
    run of at least one word character, and every value is not empty,
    holds no line feed, and holds no white space at all unless it starts with
    a double quote. *)
Theorem extracted_pairs_are_well_formed (comment : string) :
  Forall (fun kv =>
            Layout.plain_key (fst kv) = true
            /\ nonempty (snd kv) = true
            /\ forallb_string (fun c => negb (is_char newline c)) (snd kv) = true
            /\ (forallb_string (fun c => negb (isspace c)) (snd kv) = true
                \/ exists body, snd kv = String dquote body))
    (Re.findall comment).
Proof.
  unfold Re.findall. generalize (S (length comment)) as fuel.
  intros fuel. revert comment.
  induction fuel as [|fuel IH]; intros comment; [constructor|].
  rewrite findall_from_S.
  destruct (Re.match_here comment) as [[[k v] r]|] eqn:E.
  - constructor; [|apply IH]. simpl. eapply match_here_shape; eauto.
  - destruct comment; [constructor | apply IH].
Qed.

(** ** A loop over the reader *)

Lemma read_frame_truncated (ls rest : list string) (fr : ExtXYZFrame) (k : nat) :
  read_frame ls = (Ok fr, rest) ->
  k < List.length ls - List.length rest ->
  read_frame (firstn k ls) = (Raise StopIteration, []).
Proof.
  intros H Hk.
  apply read_frame_Ok in H
    as (first & comment & rows & sc & -> & Hn & Hsc & HL & HP & _ & Hrows).
  destruct k as [|[|k]].
  - reflexivity.
  - simpl. unfold read_frame, rbind, lift, next_line. rewrite Hn. reflexivity.
  - simpl firstn.
    destruct (read_frame_header first comment (firstn k rows) _ sc Hn Hsc)
      as (vectors & props & _ & HP' & Heq).
    rewrite Heq. rewrite HP in HP'. injection HP' as <-.
    destruct (rows_loop_Ok_lines _ _ _ _ _ _ _ _ Hrows) as (taken & Htaken & Hlen).
    rewrite (rows_loop_truncated _ _ _ _ _ _ _ _ k Hrows); [reflexivity|].
    subst rows. cbn [List.length] in Hk. rewrite length_app in Hk. lia.
Qed.

Lemma iterate_fuel_enough (n : nat) :
  forall m ls,
    List.length ls < n -> List.length ls < m ->
    Iteration.iterate_fuel n ls = Iteration.iterate_fuel m ls.
Proof.
  induction n as [|n IH]; intros m ls Hn Hm; [lia|].
  destruct m as [|m]; [lia|]. simpl.
  destruct (__next__ ls) as [[fr|e] rest] eqn:E; [|reflexivity].
  apply read_frame_lines in E as (taken & -> & Hlen & _).
  rewrite length_app in Hn, Hm.
  rewrite (IH m rest) by lia. reflexivity.
Qed.

Lemma iterate_fuel_S (n : nat) (ls : list string) :
  Iteration.iterate_fuel (S n) ls
  = match __next__ ls with
    | (Ok fr, rest) =>
        let (frs, e) := Iteration.iterate_fuel n rest in (fr :: frs, e)
    | (Raise StopIteration, _) => ([], None)
    | (Raise e, _) => ([], Some e)
    end.
Proof. reflexivity. Qed.

(** A complete frame at the head of the lines is handed to the loop, which
    goes on with the lines after it. *)
Lemma iterate_complete_frame (chunk rest : list string) (fr : ExtXYZFrame) :
  __next__ chunk = (Ok fr, []) ->
  Iteration.iterate (chunk ++ rest)%list
  = (fr :: fst (Iteration.iterate rest), snd (Iteration.iterate rest)).
Proof.
  intros H. apply read_frame_lines in H as (taken & Htaken & Hlen & Hlocal).
  rewrite app_nil_r in Htaken. subst taken.
  unfold Iteration.iterate.
  rewrite (iterate_fuel_S (List.length (chunk ++ rest)) (chunk ++ rest)).
  unfold __next__. rewrite (Hlocal rest).
  rewrite (iterate_fuel_enough _ (S (List.length rest)) rest)
    by (rewrite ?length_app; lia).
  destruct (Iteration.iterate_fuel (S (List.length rest)) rest). reflexivity.
Qed.

(** X10: a loop over the reader receives the frames of the input one after
    the other.  When the lines are complete frames laid end to end, followed
    by any further lines, the loop receives those frames, in order, and goes
    on with the further lines as if they were all the input; with no further
    line it receives exactly those frames and ends without an error. *)
Theorem loop_receives_the_frames (chunks : list (list string)) (frs : list ExtXYZFrame)
    (tail : list string) :
  Forall2 (fun chunk fr => __next__ chunk = (Ok fr, [])) chunks frs ->
  Iteration.iterate (List.concat chunks ++ tail)%list
  = ((frs ++ fst (Iteration.iterate tail))%list, snd (Iteration.iterate tail))
  /\ Iteration.iterate (List.concat chunks) = (frs, None).
Proof.
  intros H.
  assert (Hgen : forall tail,
             Iteration.iterate (List.concat chunks ++ tail)%list
             = ((frs ++ fst (Iteration.iterate tail))%list, snd (Iteration.iterate tail))).
  { clear tail. induction H as [|chunk fr chunks frs Hchunk _ IH]; intros tail.
    - simpl. destruct (Iteration.iterate tail). reflexivity.
    - simpl List.concat. rewrite <- app_assoc.
      rewrite (iterate_complete_frame _ _ _ Hchunk), IH. reflexivity. }
  split; [apply Hgen|].
  rewrite <- (app_nil_r (List.concat chunks)), Hgen. simpl. now rewrite app_nil_r.
Qed.

Lemma loop_receives_the_frames_witness :
  Forall2 (fun chunk fr => __next__ chunk = (Ok fr, []))
    [sample_lines; sample_lines] [sample_frame; sample_frame]
  /\ Iteration.iterate (sample_lines ++ sample_lines)%list
     = ([sample_frame; sample_frame], None).
Proof.
  assert (H : Forall2 (fun chunk fr => __next__ chunk = (Ok fr, []))
                [sample_lines; sample_lines] [sample_frame; sample_frame]).
  { repeat constructor. }
  split; [exact H|].
  exact (proj2 (loop_receives_the_frames [sample_lines; sample_lines]
                  [sample_frame; sample_frame] [] H)).
Defined.

(** X11: a last frame that is cut short is dropped without a word.  When
    complete frames are followed by the first lines of one more frame, at
    least one line of it missing, the loop receives the complete frames and
    ends as it does at the end of a well-formed file: no exception tells the
    caller that lines were left over. *)
Theorem loop_drops_a_truncated_frame (chunks : list (list string)) (frs : list ExtXYZFrame)
    (last : list string) (fr : ExtXYZFrame) (k : nat) :
  Forall2 (fun chunk fr => __next__ chunk = (Ok fr, [])) chunks frs ->
  __next__ last = (Ok fr, []) ->
  k < List.length last ->
  Iteration.iterate (List.concat chunks ++ firstn k last)%list = (frs, None).
Proof.
  intros H Hlast Hk.
  assert (Htail : Iteration.iterate (firstn k last) = ([], None)).
  { unfold Iteration.iterate. rewrite iterate_fuel_S.
    unfold __next__ in *.
    rewrite (read_frame_truncated last [] fr k Hlast) by (simpl; lia). reflexivity. }
  assert (Hgen : forall tail,
             Iteration.iterate (List.concat chunks ++ tail)%list
             = ((frs ++ fst (Iteration.iterate tail))%list, snd (Iteration.iterate tail))).
  { clear - H. induction H as [|chunk fr chunks frs Hchunk _ IH]; intros tail.
    - simpl. destruct (Iteration.iterate tail). reflexivity.
    - simpl List.concat. rewrite <- app_assoc.
      rewrite (iterate_complete_frame _ _ _ Hchunk), IH. reflexivity. }
  rewrite Hgen, Htail. simpl. now rewrite app_nil_r.
Qed.

Lemma loop_drops_a_truncated_frame_witness :
  Forall2 (fun chunk fr => __next__ chunk = (Ok fr, [])) [sample_lines] [sample_frame]
  /\ __next__ sample_lines = (Ok sample_frame, [])
  /\ 3 < List.length sample_lines
  /\ Iteration.iterate (sample_lines ++ firstn 3 sample_lines)%list = ([sample_frame], None).
Proof.
  assert (H : Forall2 (fun chunk fr => __next__ chunk = (Ok fr, []))
                [sample_lines] [sample_frame]).
  { repeat constructor. }
  split; [exact H|]. split; [reflexivity|]. split; [simpl; lia|].
  assert (Hk : 3 < List.length sample_lines) by (simpl; lia).
  exact (loop_drops_a_truncated_frame [sample_lines] [sample_frame]
           sample_lines sample_frame 3 H eq_refl Hk).
Defined.

(** * The classic reader *)

Lemma classic_rows_loop_step n st line ls :
  ClassicXYZ.rows_loop (S n) st (line :: ls)
  = match ClassicXYZ.row_round (split line) st with
    | Ok st' => ClassicXYZ.rows_loop n st' ls
    | Raise e => (Raise e, ls)
    end.
Proof.
  simpl. unfold rbind, lift, next_line.
  destruct (ClassicXYZ.row_round (split line) st); reflexivity.
Qed.

Lemma classic_read_frame_Ok ls fr rest :
  ClassicXYZ.read_frame ls = (Ok fr, rest) ->
  exists first rows st,
    ls = first :: ClassicXYZ.comment fr :: rows
    /\ int first = Some (ClassicXYZ.num_atoms fr)
    /\ ClassicXYZ.rows_loop (Z.to_nat (ClassicXYZ.num_atoms fr))
         (ClassicXYZ.mkColumns [] [] [] [] []) rows = (Ok st, rest)
    /\ ClassicXYZ.atom_labels fr = ClassicXYZ.labels st
    /\ ClassicXYZ.pos_x fr = ClassicXYZ.xs st
    /\ ClassicXYZ.pos_y fr = ClassicXYZ.ys st
    /\ ClassicXYZ.pos_z fr = ClassicXYZ.zs st
    /\ ClassicXYZ.extra fr = ClassicXYZ.extra_data st.
Proof.
  intros H. destruct ls as [|first [|comment rows]].
  - discriminate.
  - unfold ClassicXYZ.read_frame, rbind, lift, next_line in H.
    destruct (int first); discriminate.
  - unfold ClassicXYZ.read_frame, rbind, lift, next_line in H.
    destruct (int first) as [n|] eqn:En; [|discriminate]. simpl in H.
    destruct (ClassicXYZ.rows_loop (Z.to_nat n) _ rows) as [[st|e] ls'] eqn:Er;
      [|discriminate].
    unfold rret in H. injection H as <- <-. simpl.
    exists first, rows, st. repeat split; auto.
Qed.

Lemma set_nth_length {A : Type} (i : nat) (v : A) (l : list A) :
  List.length (ClassicXYZ.set_nth i v l) = List.length l.
Proof.
  revert i. induction l as [|x l IH]; intros [|i]; simpl; auto.
Qed.

Lemma set_nth_nth {A : Type} (i j : nat) (v d : A) (l : list A) :
  i < List.length l ->
  nth j (ClassicXYZ.set_nth i v l) d = if (j =? i)%nat then v else nth j l d.
Proof.
  revert i j. induction l as [|x l IH]; intros i j Hi; simpl in Hi; [lia|].
  destruct i as [|i], j as [|j]; simpl; auto.
  apply IH. lia.
Qed.

(** One datum of a row goes to the end of the column of its index, which is
    made when it is not there yet. *)
Lemma extra_bump (idx : nat) (num : ClassicXYZ.numeric) (extra : list (list ClassicXYZ.numeric)) :
  idx <= List.length extra ->
  let extra' := match nth_error extra idx with
                | Some col => ClassicXYZ.set_nth idx (col ++ [num])%list extra
                | None => (extra ++ [[num]])%list
                end in
  List.length extra' = Nat.max (List.length extra) (S idx)
  /\ forall j, nth j extra' [] = if (j =? idx)%nat then (nth j extra [] ++ [num])%list
                                  else nth j extra [].
Proof.
  intros Hidx. destruct (nth_error extra idx) as [col|] eqn:E; cbv zeta.
  - assert (Hlt : idx < List.length extra) by (apply nth_error_Some; congruence).
    split; [rewrite set_nth_length; lia|].
    intros j. rewrite set_nth_nth by auto.
    destruct (j =? idx)%nat eqn:Ej; auto.
    apply Nat.eqb_eq in Ej. subst j. now rewrite (nth_error_nth _ _ _ E).
  - apply nth_error_None in E. assert (idx = List.length extra) by lia. subst idx.
    split; [rewrite length_app; simpl; lia|].
    intros j. destruct (j =? List.length extra)%nat eqn:Ej.
    + apply Nat.eqb_eq in Ej. subst j.
      rewrite app_nth2, Nat.sub_diag by lia. simpl.
      now rewrite nth_overflow by lia.
    + apply Nat.eqb_neq in Ej.
      destruct (Nat.lt_ge_cases j (List.length extra)).
      * now rewrite app_nth1 by lia.
      * rewrite (nth_overflow extra) by lia.
        apply nth_overflow. rewrite length_app. simpl. lia.
Qed.

Lemma extra_loop_columns (data : list string) :
  forall idx extra extra',
    ClassicXYZ.extra_loop data idx extra = Ok extra' ->
    idx <= List.length extra ->
    exists nums,
      Forall2 (fun token num => ClassicXYZ.parse_numeric token = Ok num) data nums
      /\ List.length extra' = Nat.max (List.length extra) (idx + List.length nums)
      /\ forall j,
           nth j extra' []
           = (nth j extra []
              ++ if (idx <=? j)%nat
                 then match nth_error nums (j - idx) with Some x => [x] | None => [] end
                 else [])%list.
Proof.
  induction data as [|datum data IH]; intros idx extra extra' H Hidx; simpl in H.
  - injection H as <-. exists []. split; [constructor|]. split; [simpl; lia|].
    intros j. destruct (idx <=? j)%nat; [destruct (j - idx)|]; simpl; now rewrite app_nil_r.
  - apply bind_Ok in H as (num & Hnum & H).
    destruct (extra_bump idx num extra Hidx) as [Hlen Hnth].
    cbv zeta in Hlen, Hnth.
    apply IH in H as (nums & Hnums & Hlen' & Hnth'); [|lia].
    exists (num :: nums). split; [constructor; auto|]. split; [simpl; lia|].
    intros j. rewrite Hnth', Hnth.
    destruct (Nat.lt_trichotomy j idx) as [Hlt|[->|Hgt]].
    + replace (S idx <=? j)%nat with false by (symmetry; apply Nat.leb_gt; lia).
      replace (idx <=? j)%nat with false by (symmetry; apply Nat.leb_gt; lia).
      replace (j =? idx)%nat with false by (symmetry; apply Nat.eqb_neq; lia).
      reflexivity.
    + replace (S idx <=? idx)%nat with false by (symmetry; apply Nat.leb_gt; lia).
      rewrite Nat.eqb_refl, Nat.leb_refl, Nat.sub_diag. simpl. now rewrite app_nil_r.
    + replace (S idx <=? j)%nat with true by (symmetry; apply Nat.leb_le; lia).
      replace (idx <=? j)%nat with true by (symmetry; apply Nat.leb_le; lia).
      replace (j =? idx)%nat with false by (symmetry; apply Nat.eqb_neq; lia).
      replace (j - idx) with (S (j - S idx)) by lia. reflexivity.
Qed.

(** A run of the loop over the rows, in terms of the rows it took. *)
Lemma classic_rows_loop_Ok n :
  forall st ls st' rest,
    ClassicXYZ.rows_loop n st ls = (Ok st', rest) ->
    exists rows lbls xs ys zs numss,
      ls = (rows ++ rest)%list
      /\ List.length rows = n
      /\ ClassicXYZ.labels st' = (ClassicXYZ.labels st ++ lbls)%list
      /\ ClassicXYZ.xs st' = (ClassicXYZ.xs st ++ xs)%list
      /\ ClassicXYZ.ys st' = (ClassicXYZ.ys st ++ ys)%list
      /\ ClassicXYZ.zs st' = (ClassicXYZ.zs st ++ zs)%list
      /\ Forall2 (fun line lbl => exists t, nth_error (split line) 0 = Some t
                                            /\ lbl = ClassicXYZ.label_of t) rows lbls
      /\ Forall2 (fun line x => exists t, nth_error (split line) 1 = Some t
                                          /\ float t = Some x) rows xs
      /\ Forall2 (fun line y => exists t, nth_error (split line) 2 = Some t
                                          /\ float t = Some y) rows ys
      /\ Forall2 (fun line z => exists t, nth_error (split line) 3 = Some t
                                          /\ float t = Some z) rows zs
      /\ Forall2 (fun line nums =>
                    Forall2 (fun token num => ClassicXYZ.parse_numeric token = Ok num)
                      (skipn 4 (split line)) nums) rows numss
      /\ List.length (ClassicXYZ.extra_data st')
         = Nat.max (List.length (ClassicXYZ.extra_data st))
             (list_max (map (@List.length ClassicXYZ.numeric) numss))
      /\ forall j, nth j (ClassicXYZ.extra_data st') []
                   = (nth j (ClassicXYZ.extra_data st) [] ++ Layout.column j numss)%list.
Proof.
  induction n as [|n IH]; intros st ls st' rest H.
  - injection H as <- <-.
    exists [], [], [], [], [], []. simpl. rewrite !app_nil_r.
    repeat split; auto; try constructor; try lia.
    intros j. unfold Layout.column. simpl. now rewrite app_nil_r.
  - destruct ls as [|line ls]; [discriminate|].
    rewrite classic_rows_loop_step in H.
    destruct (ClassicXYZ.row_round (split line) st) as [st1|e] eqn:E; [|discriminate].
    unfold ClassicXYZ.row_round, ClassicXYZ.item in E.
    apply bind_Ok in E as (t0 & H0 & E). apply of_option_Ok in H0.
    apply bind_Ok in E as (t1 & H1 & E). apply of_option_Ok in H1.
    apply bind_Ok in E as (x & Hx & E). apply of_option_Ok in Hx.
    apply bind_Ok in E as (t2 & H2 & E). apply of_option_Ok in H2.
    apply bind_Ok in E as (y & Hy & E). apply of_option_Ok in Hy.
    apply bind_Ok in E as (t3 & H3 & E). apply of_option_Ok in H3.
    apply bind_Ok in E as (z & Hz & E). apply of_option_Ok in Hz.
    apply bind_Ok in E as (extra1 & He & E). injection E as <-.
    apply extra_loop_columns in He as (nums & Hnums & Hlen1 & Hnth1); [|lia].
    apply IH in H
      as (rows & lbls & xs & ys & zs & numss & -> & Hn & Hl & Hxs & Hys & Hzs
          & Fl & Fx & Fy & Fz & Fn & Hlen & Hnth).
    simpl in Hl, Hxs, Hys, Hzs, Hlen, Hnth.
    exists (line :: rows), (ClassicXYZ.label_of t0 :: lbls), (x :: xs), (y :: ys), (z :: zs),
      (nums :: numss).
    rewrite Hl, Hxs, Hys, Hzs, <- !app_assoc. simpl.
    repeat split; auto; try (constructor; eauto).
    + rewrite Hlen, Hlen1. simpl. lia.
    + intros j. rewrite Hnth, Hnth1. unfold Layout.column. simpl.
      rewrite Nat.sub_0_r, <- app_assoc. reflexivity.
Qed.

(** X12: a frame the classic reader returns, in terms of its lines.  The
    first line reads as the atom count, the second is kept as the comment as
    it is, and one row is taken for each atom, no more.  Every row has at
    least four tokens; the label of an atom is the first token of its row, as
    an integer when it reads as one and as the string otherwise, and its three
    coordinates are the next three tokens read as reals; the four lists have
    one item for each atom, in the order of the rows. *)
Theorem classic_frame_from_its_rows (ls rest : list string) (fr : ClassicXYZ.XYZFrame) :
  ClassicXYZ.__next__ ls = (Ok fr, rest) ->
  exists first rows,
    ls = (first :: ClassicXYZ.comment fr :: rows ++ rest)%list
    /\ int first = Some (ClassicXYZ.num_atoms fr)
    /\ List.length rows = Z.to_nat (ClassicXYZ.num_atoms fr)
    /\ Forall2 (fun line lbl => exists t, nth_error (split line) 0 = Some t
                                          /\ lbl = ClassicXYZ.label_of t)
         rows (ClassicXYZ.atom_labels fr)
    /\ Forall2 (fun line x => exists t, nth_error (split line) 1 = Some t
                                        /\ float t = Some x) rows (ClassicXYZ.pos_x fr)
    /\ Forall2 (fun line y => exists t, nth_error (split line) 2 = Some t
                                        /\ float t = Some y) rows (ClassicXYZ.pos_y fr)
    /\ Forall2 (fun line z => exists t, nth_error (split line) 3 = Some t
                                        /\ float t = Some z) rows (ClassicXYZ.pos_z fr).
Proof.
  unfold ClassicXYZ.__next__. intros H.
  apply classic_read_frame_Ok in H
    as (first & rows & st & -> & Hn & Hrows & Hl & Hx & Hy & Hz & _).
  apply classic_rows_loop_Ok in Hrows
    as (taken & lbls & xs & ys & zs & numss & -> & Hlen & Hl' & Hx' & Hy' & Hz'
        & Fl & Fx & Fy & Fz & _).
  simpl in Hl', Hx', Hy', Hz'.
  exists first, taken. rewrite Hl, Hx, Hy, Hz, Hl', Hx', Hy', Hz'. repeat split; auto.
Qed.

Lemma classic_frame_from_its_rows_witness :
  ClassicXYZ.__next__ Layout.classic_lines = (Ok Layout.classic_frame, [])
  /\ exists first rows,
       Layout.classic_lines
       = (first :: ClassicXYZ.comment Layout.classic_frame :: rows ++ [])%list
       /\ int first = Some (ClassicXYZ.num_atoms Layout.classic_frame)
       /\ List.length rows = Z.to_nat (ClassicXYZ.num_atoms Layout.classic_frame).
Proof.
  split; [reflexivity|].
  destruct (classic_frame_from_its_rows Layout.classic_lines [] Layout.classic_frame eq_refl)
    as (first & rows & H1 & H2 & H3 & _).
  exists first, rows. auto.
Defined.

Lemma column_length_rectangular {A : Type} (m j : nat) (rows : list (list A)) :
  Forall (fun row => List.length row = m) rows ->
  j < m ->
  List.length (Layout.column j rows) = List.length rows.
Proof.
  intros Hrows Hj. unfold Layout.column.
  induction Hrows as [|row rows Hrow _ IH]; simpl; auto.
  rewrite length_app, IH.
  destruct (nth_error row j) eqn:E; [reflexivity|].
  apply nth_error_None in E. lia.
Qed.

(** X13: the extra columns of a frame the classic reader returns.  The
    tokens of a row after the fourth are read as numbers, an integer where
    the token reads as one and a real otherwise.  There are as many extra
    columns as the longest row has such tokens, and column [j] holds the
    [j]-th number of every row that has one, row after row: a row that is
    shorter than another leaves no gap, so the entries of a column line up
    with the atoms only when all rows have the same number of tokens, in
    which case every column has one entry for each atom. *)
Theorem classic_extra_columns (ls rest : list string) (fr : ClassicXYZ.XYZFrame) :
  ClassicXYZ.__next__ ls = (Ok fr, rest) ->
  exists numss,
    Forall2 (fun line nums =>
               Forall2 (fun token num => ClassicXYZ.parse_numeric token = Ok num)
                 (skipn 4 (split line)) nums)
      (firstn (Z.to_nat (ClassicXYZ.num_atoms fr)) (skipn 2 ls)) numss
    /\ List.length (ClassicXYZ.extra fr)
       = list_max (map (@List.length ClassicXYZ.numeric) numss)
    /\ (forall j, nth j (ClassicXYZ.extra fr) [] = Layout.column j numss)
    /\ (forall m j,
          Forall (fun nums => List.length nums = m) numss ->
          j < m ->
          List.length (nth j (ClassicXYZ.extra fr) [])
          = Z.to_nat (ClassicXYZ.num_atoms fr)).
Proof.
  unfold ClassicXYZ.__next__. intros H.
  apply classic_read_frame_Ok in H
    as (first & rows & st & -> & Hn & Hrows & _ & _ & _ & _ & He).
  apply classic_rows_loop_Ok in Hrows
    as (taken & lbls & xs & ys & zs & numss & -> & Hlen & _ & _ & _ & _
        & _ & _ & _ & _ & Fn & Hlen' & Hnth).
  simpl in Hlen'.
  assert (Hnth' : forall j, nth j (ClassicXYZ.extra_data st) [] = Layout.column j numss).
  { intros j. rewrite Hnth. simpl. now destruct j. }
  clear Hnth. rename Hnth' into Hnth.
  exists numss. simpl skipn.
  rewrite firstn_app, <- Hlen, Nat.sub_diag, firstn_all. simpl. rewrite app_nil_r.
  rewrite He. split; [exact Fn|]. split; [exact Hlen'|]. split; [exact Hnth|].
  intros m j Hm Hj. rewrite Hnth, (column_length_rectangular m j numss Hm Hj).
  symmetry. eapply Forall2_length; eauto.
Qed.

Lemma classic_extra_columns_witness :
  ClassicXYZ.__next__ Layout.classic_lines = (Ok Layout.classic_frame, [])
  /\ ClassicXYZ.extra Layout.classic_frame
     = [[ClassicXYZ.NInt 8; ClassicXYZ.NInt 1]; [ClassicXYZ.NFloat (FDec true 8 (-1))]]
  /\ exists numss,
       List.length (ClassicXYZ.extra Layout.classic_frame)
       = list_max (map (@List.length ClassicXYZ.numeric) numss)
       /\ forall j, nth j (ClassicXYZ.extra Layout.classic_frame) [] = Layout.column j numss.
Proof.
  split; [reflexivity|]. split; [reflexivity|].
  destruct (classic_extra_columns Layout.classic_lines [] Layout.classic_frame eq_refl)
    as (numss & _ & Hlen & Hnth & _).
  exists numss. auto.
Defined.

Lemma classic_rows_loop_truncated n :
  forall st ls st' rest k,
    ClassicXYZ.rows_loop n st ls = (Ok st', rest) ->
    k < n ->
    ClassicXYZ.rows_loop n st (firstn k ls) = (Raise StopIteration, []).
Proof.
  induction n as [|n IH]; intros st ls st' rest k H Hk; [lia|].
  destruct ls as [|line ls]; [discriminate|].
  destruct k as [|k]; [reflexivity|].
  simpl firstn. rewrite classic_rows_loop_step in *.
  destruct (ClassicXYZ.row_round (split line) st) as [st1|e]; [|discriminate].
  apply (IH _ _ _ _ _ H). lia.
Qed.

(** X14: the classic reader at the end of the input.  On no line at all it
    raises [StopIteration]; cut anywhere short of the lines a frame takes,
    the input that gave the frame gives [StopIteration] as well, so a frame
    cut short ends a loop over the reader like the end of a well-formed
    file. *)
Theorem classic_truncated_frame_ends_the_sequence (ls rest : list string)
    (fr : ClassicXYZ.XYZFrame) (k : nat) :
  ClassicXYZ.__next__ ls = (Ok fr, rest) ->
  k < List.length ls - List.length rest ->
  ClassicXYZ.__next__ (firstn k ls) = (Raise StopIteration, []).
Proof.
  unfold ClassicXYZ.__next__. intros H Hk.
  apply classic_read_frame_Ok in H
    as (first & rows & st & -> & Hn & Hrows & _).
  destruct k as [|[|k]].
  - reflexivity.
  - simpl. unfold ClassicXYZ.read_frame, rbind, lift, next_line. rewrite Hn. reflexivity.
  - simpl firstn. unfold ClassicXYZ.read_frame, rbind, lift, next_line.
    rewrite Hn. simpl.
    pose proof Hrows as Hrows'.
    apply classic_rows_loop_Ok in Hrows' as (taken & _ & _ & _ & _ & _ & -> & Hlen & _).
    rewrite (classic_rows_loop_truncated _ _ _ _ _ k Hrows); [reflexivity|].
    cbn [List.length] in Hk. rewrite length_app in Hk. lia.
Qed.

Lemma classic_truncated_frame_ends_the_sequence_witness :
  ClassicXYZ.__next__ Layout.classic_lines = (Ok Layout.classic_frame, [])
  /\ 3 < List.length Layout.classic_lines - List.length (@nil string)
  /\ ClassicXYZ.__next__ (firstn 3 Layout.classic_lines) = (Raise StopIteration, []).
Proof.
  split; [reflexivity|]. split; [simpl; lia|].
  assert (Hk : 3 < List.length Layout.classic_lines - List.length (@nil string))
    by (simpl; lia).
  exact (classic_truncated_frame_ends_the_sequence Layout.classic_lines []
           Layout.classic_frame 3 eq_refl Hk).
Defined.

Lemma parse_numeric_raises token e :
  ClassicXYZ.parse_numeric token = Raise e -> e = ValueError.
Proof.
  unfold ClassicXYZ.parse_numeric. destruct (int token); [discriminate|].
  destruct (float token); simpl; [discriminate|]. congruence.
Qed.

Lemma extra_loop_raises data :
  forall idx extra e, ClassicXYZ.extra_loop data idx extra = Raise e -> e = ValueError.
Proof.
  induction data as [|datum data IH]; intros idx extra e; simpl; [discriminate|].
  destruct (ClassicXYZ.parse_numeric datum) eqn:E; simpl.
  - apply IH.
  - intros H. injection H as <-. eapply parse_numeric_raises; eauto.
Qed.

Lemma row_round_raises row st e :
  ClassicXYZ.row_round row st = Raise e ->
  (e = IndexError /\ List.length row < 4) \/ e = ValueError.
Proof.
  unfold ClassicXYZ.row_round, ClassicXYZ.item.
  destruct row as [|t0 [|t1 [|t2 [|t3 more]]]]; simpl.
  - intros H. injection H as <-. left. split; [auto|lia].
  - intros H. injection H as <-. left. split; [auto|lia].
  - destruct (float t1); simpl; intros H; injection H as <-; [left; split; [auto|lia] | auto].
  - destruct (float t1); simpl; [|intros H; injection H as <-; auto].
    destruct (float t2); simpl; intros H; injection H as <-;
      [left; split; [auto|lia] | auto].
  - destruct (float t1); simpl; [|intros H; injection H as <-; auto].
    destruct (float t2); simpl; [|intros H; injection H as <-; auto].
    destruct (float t3); simpl; [|intros H; injection H as <-; auto].
    destruct (ClassicXYZ.extra_loop more 0 (ClassicXYZ.extra_data st)) eqn:E; simpl;
      [discriminate|].
    intros H. injection H as <-. right. eapply extra_loop_raises; eauto.
Qed.

Lemma classic_rows_loop_raises n :
  forall st ls e rest,
    ClassicXYZ.rows_loop n st ls = (Raise e, rest) ->
    e = StopIteration \/ e = ValueError \/ e = IndexError.
Proof.
  induction n as [|n IH]; intros st ls e rest H; [discriminate|].
  destruct ls as [|line ls]; [injection H as <- <-; auto|].
  rewrite classic_rows_loop_step in H.
  destruct (ClassicXYZ.row_round (split line) st) as [st1|e'] eqn:E.
  - eauto.
  - injection H as <- <-. apply row_round_raises in E. tauto.
Qed.

(** X15: what the classic reader raises: whatever the lines, nothing but
    [StopIteration], [ValueError] and [IndexError]. *)
Theorem classic_reader_exceptions (ls rest : list string) (e : exn) :
  ClassicXYZ.__next__ ls = (Raise e, rest) ->
  e = StopIteration \/ e = ValueError \/ e = IndexError.
Proof.
  unfold ClassicXYZ.__next__. intros H.
  destruct ls as [|first [|comment rows]].
  - injection H as <- <-. auto.
  - unfold ClassicXYZ.read_frame, rbind, lift, next_line in H.
    destruct (int first); simpl in H; injection H as <- <-; auto.
  - unfold ClassicXYZ.read_frame, rbind, lift, next_line in H.
    destruct (int first) as [n|]; simpl in H; [|injection H as <- <-; auto].
    destruct (ClassicXYZ.rows_loop (Z.to_nat n) _ rows) as [[st|e'] ls'] eqn:Er;
      [discriminate|].
    injection H as <- <-. eapply classic_rows_loop_raises; eauto.
Qed.

Lemma classic_reader_exceptions_witness :
  ClassicXYZ.__next__ ["1" ++ nl; "water" ++ nl; "O 0.0 0.0" ++ nl] = (Raise IndexError, [])
  /\ (IndexError = StopIteration \/ IndexError = ValueError \/ IndexError = IndexError).
Proof.
  split; [reflexivity|].
  exact (classic_reader_exceptions ["1" ++ nl; "water" ++ nl; "O 0.0 0.0" ++ nl] []
           IndexError eq_refl).
Defined.

(** X16: the classic reader takes no row of fewer than four tokens.  At
    such a row, a blank line for one, the round of the loop raises
    [IndexError], unless one of the coordinates the row does have is not a
    real, which raises [ValueError] first. *)
Theorem classic_short_row_is_rejected (row : list string) (st : ClassicXYZ.columns) :
  List.length row < 4 ->
  (ClassicXYZ.row_round row st = Raise IndexError
   \/ ClassicXYZ.row_round row st = Raise ValueError)
  /\ (Forall (fun token => float token <> None) (skipn 1 row) ->
      ClassicXYZ.row_round row st = Raise IndexError).
Proof.
  intros Hrow.
  assert (Hraise : exists e, ClassicXYZ.row_round row st = Raise e).
  { destruct (ClassicXYZ.row_round row st) as [st'|e'] eqn:E; [|eauto].
    exfalso. unfold ClassicXYZ.row_round, ClassicXYZ.item in E.
    apply bind_Ok in E as (t0 & _ & E). apply bind_Ok in E as (t1 & _ & E).
    apply bind_Ok in E as (x & _ & E). apply bind_Ok in E as (t2 & _ & E).
    apply bind_Ok in E as (y & _ & E). apply bind_Ok in E as (t3 & H3 & E).
    apply of_option_Ok in H3.
    assert (3 < List.length row) by (apply nth_error_Some; congruence). lia. }
  destruct Hraise as (e & He). split.
  - rewrite He. apply row_round_raises in He as [[-> _]| ->]; auto.
  - intros Hfloat. unfold ClassicXYZ.row_round, ClassicXYZ.item.
    destruct row as [|t0 [|t1 [|t2 [|t3 more]]]]; simpl in *; try reflexivity.
    + inversion Hfloat as [|? ? H1 _]; subst.
      destruct (float t1); [reflexivity | congruence].
    + inversion Hfloat as [|? ? H1 Hrest]; subst.
      inversion Hrest as [|? ? H2 _]; subst.
      destruct (float t1); [|congruence]. simpl.
      destruct (float t2); [reflexivity | congruence].
    + lia.
Qed.

Lemma classic_short_row_is_rejected_witness :
  List.length (split ("O 0.0 0.0" ++ nl)) < 4
  /\ Forall (fun token => float token <> None) (skipn 1 (split ("O 0.0 0.0" ++ nl)))
  /\ ClassicXYZ.row_round (split ("O 0.0 0.0" ++ nl)) (ClassicXYZ.mkColumns [] [] [] [] [])
     = Raise IndexError.
Proof.
  assert (Hlen : List.length (split ("O 0.0 0.0" ++ nl)) < 4) by (vm_compute; lia).
  assert (Hf : Forall (fun token => float token <> None)
                 (skipn 1 (split ("O 0.0 0.0" ++ nl)))).
  { repeat constructor; discriminate. }
  split; [exact Hlen|]. split; [exact Hf|].
  exact (proj2 (classic_short_row_is_rejected _ _ Hlen) Hf).
Defined.

(** * The header and the rows, once more *)

Lemma frame_rows_have_schema_width_witness :
  __next__ sample_lines = (Ok sample_frame, [])
  /\ Forall (fun line => len (split line) = 4%Z)
       ["O 0.0 0.0 0.0" ++ nl; "H 0.0 0.0 1.0" ++ nl].
Proof.
  split; [reflexivity|].
  exact (frame_rows_have_schema_width sample_lines [] sample_frame eq_refl).
Defined.

Lemma tokens_all_or_one_bad (tokens : list string) :
  Forall (fun tok => float tok <> None) tokens
  \/ Exists (fun tok => float tok = None) tokens.
Proof.
  induction tokens as [|t tokens [IH|IH]]; auto.
  destruct (float t) eqn:E; [left; constructor; congruence | right; now left].
Qed.

Lemma tokens_floats (tokens : list string) :
  Forall (fun tok => float tok <> None) tokens ->
  exists fs, map float tokens = map Some fs.
Proof.
  induction 1 as [|t tokens Ht _ (fs & IH)]; [exists []; reflexivity|].
  destruct (float t) as [f|] eqn:E; [|congruence].
  exists (f :: fs). simpl. now rewrite E, IH.
Qed.

Lemma flatten_triples_whole {A : Type} (l : list A) :
  List.length l mod 3 = 0 -> flatten (triples l) = l.
Proof.
  intros Hmod. rewrite flatten_triples_firstn.
  assert (3 * (List.length l / 3) = List.length l).
  { pose proof (Nat.div_mod_eq (List.length l) 3). lia. }
  rewrite H. apply firstn_all.
Qed.

(** X17: which comment lines the reader takes.  A comment line parses if
    and only if its key=value tokens bind [Lattice] to a value all of whose
    white-space tokens read as reals, and [Properties] to a value whose colon
    split has a length that is a multiple of three and whose triples all have
    a type code among [S], [R], [I], [B] and a count that reads as an
    integer.  Nothing else is asked of it: not nine reals, not a positive
    count, no other key. *)
Theorem header_accepted_iff (comment : string) :
  (exists d, parse_extended_comment comment = Ok d)
  <-> exists lattice properties,
        getitem "Lattice" (kv_dict comment) = Some (KScalar (VStr lattice))
        /\ Forall (fun tok => float tok <> None) (split lattice)
        /\ getitem "Properties" (kv_dict comment) = Some (KScalar (VStr properties))
        /\ List.length (split_on ":" properties) mod 3 = 0
        /\ Forall (fun t => In (snd (fst t)) ["S"; "R"; "I"; "B"] /\ int (snd t) <> None)
             (triples (split_on ":" properties)).
Proof.
  split.
  - intros (d & Hd).
    apply parse_extended_comment_Ok in Hd
      as (lattice & vectors & properties & props & HL & Hv & HP & Hps & _).
    exists lattice, properties. split; [exact HL|]. split.
    { destruct (tokens_all_or_one_bad (split lattice)) as [H|H]; auto.
      rewrite (lattice_vectors_bad_token _ H) in Hv. discriminate. }
    split; [exact HP|].
    apply properties_list_Ok in Hps as [Hflat Hdec]. split.
    { rewrite Hflat, flatten_length, Nat.mul_comm. apply Nat.Div0.mod_mul. }
    clear - Hdec. induction Hdec as [|t p ts ps (_ & Ht & Hz) _ IH]; constructor; auto.
    split; [|congruence].
    apply from_string_Ok in Ht. rewrite Ht. destruct (datatype p); simpl; auto.
  - intros (lattice & properties & HL & Hfl & HP & Hmod & Hts).
    rewrite parse_extended_comment_unfold, !getitem_str_kv_dict, HL, HP. simpl.
    destruct (tokens_floats _ Hfl) as (fs & Hfs).
    rewrite (lattice_vectors_triples _ _ Hfs). simpl.
    assert (Hschema : exists schema,
               Forall2 decodes (triples (split_on ":" properties)) schema).
    { clear - Hts. induction Hts as [|[[l code] count] ts (Hcode & Hz) _ (schema & IH)].
      - exists []. constructor.
      - simpl in Hcode, Hz. destruct (int count) as [z|] eqn:Ez; [|congruence].
        assert (Ht : exists t, from_string code = Ok t).
        { destruct Hcode as [<-|[<-|[<-|[<-|[]]]]]; eexists; reflexivity. }
        destruct Ht as (t & Ht).
        exists (mkFrameProperties l t z :: schema). constructor; auto.
        repeat split; auto. }
    destruct Hschema as (schema & Hschema).
    rewrite <- (flatten_triples_whole _ Hmod).
    rewrite (properties_list_flatten _ _ Hschema). simpl. eauto.
Qed.

Lemma header_accepted_iff_witness :
  exists d, parse_extended_comment six_reals_comment = Ok d.
Proof.
  apply (proj2 (header_accepted_iff six_reals_comment)).
  exists "1 0 0 0 1 0", "species:S:1".
  split; [reflexivity|]. split; [repeat constructor; discriminate|].
  split; [reflexivity|]. split; [reflexivity|].
  repeat constructor; simpl; auto. discriminate.
Defined.

(** ** A frame without atoms *)

Lemma map_Some_inj {A : Type} (l l' : list A) : map Some l = map Some l' -> l = l'.
Proof.
  revert l'. induction l as [|x l IH]; intros [|y l'] H; try discriminate; auto.
  simpl in H. injection H as -> H. now rewrite (IH _ H).
Qed.

(** The triples of a [Properties] value decode to one schema only. *)
Lemma decodes_one_schema (ts : list (string * string * string))
    (ps qs : list FrameProperties) :
  Forall2 decodes ts ps -> Forall2 decodes ts qs -> ps = qs.
Proof.
  intros H. revert qs.
  induction H as [|t p ts ps (Hl & Ht & Hz) _ IH]; intros qs Hq.
  - now inversion Hq.
  - inversion Hq as [|? q ? qs' (Hl' & Ht' & Hz') Hrest]; subst.
    rewrite (IH _ Hrest). f_equal.
    destruct p as [pl pt pc], q as [ql qt qc]. simpl in *.
    congruence.
Qed.

(** C10: when the atom-count line reads as 0 and the comment line parses,
    the reader takes these two lines and no other, and returns a frame whose
    columns mapping has no key at all, whatever the schema declares, with
    the atom count 0 and with lattice, schema and extra metadata populated
    from the comment line: the lattice holds the reals of the [Lattice]
    value, grouped in threes; the schema is what the triples of the
    [Properties] value decode to; the keys of the extra metadata are the
    keys of the key=value tokens of the line other than [Lattice] and
    [Properties], in order of first occurrence, each bound to the typed form
    of the quote-stripped value of its last occurrence. *)
Theorem C10_zero_atoms_empty_columns (first comment : string) (rest : list string)
    (sc : dict kvalue) :
  int first = Some 0%Z ->
  parse_extended_comment comment = Ok sc ->
  exists fr,
    __next__ (first :: comment :: rest) = (Ok fr, rest)
    /\ data fr = []
    /\ (forall label, getitem label (data fr) = None)
    /\ num_atoms fr = 0%Z
    /\ get_lattice sc = Ok (LatticeVectors fr)
    /\ get_properties sc = Ok (FrameProperties_ fr)
    /\ ExtraKV fr = extra_kv sc
    /\ (exists lattice fs,
          getitem "Lattice" (kv_dict comment) = Some (KScalar (VStr lattice))
          /\ map float (split lattice) = map Some fs
          /\ LatticeVectors fr = triples fs)
    /\ (exists properties,
          getitem "Properties" (kv_dict comment) = Some (KScalar (VStr properties))
          /\ split_on ":" properties = flatten (triples (split_on ":" properties))
          /\ Forall2 decodes (triples (split_on ":" properties)) (FrameProperties_ fr))
    /\ keys (ExtraKV fr)
       = filter (fun k => negb (String.eqb k "Lattice" || String.eqb k "Properties"))
           (Layout.first_seen (map fst (Re.findall comment)))
    /\ forall key,
         getitem key (ExtraKV fr)
         = if String.eqb key "Lattice" || String.eqb key "Properties" then None
           else option_map (fun v => KScalar (infer_scalar (strip (is_char dquote) v)))
                  (last_value key (Re.findall comment)).
Proof.
  intros Hn Hsc.
  destruct (read_frame_header first comment rest 0 sc Hn Hsc)
    as (vectors & props & HL & HP & Heq).
  exists (mkExtXYZFrame 0 vectors props (extra_kv sc) []).
  split; [exact Heq|]. split; [reflexivity|]. split; [reflexivity|].
  split; [reflexivity|]. split; [exact HL|]. split; [exact HP|].
  split; [reflexivity|]. simpl.
  apply parse_extended_comment_Ok in Hsc
    as (lattice & vectors' & properties & props' & HgL & Hv & HgP & Hps & ->).
  rewrite get_lattice_finished in HL. injection HL as ->.
  rewrite get_properties_finished in HP. injection HP as ->.
  split; [|split; [|split]].
  - destruct (tokens_all_or_one_bad (split lattice)) as [Hfl|Hbad].
    + destruct (tokens_floats _ Hfl) as (fs & Hfs).
      exists lattice, fs. split; [exact HgL|]. split; [exact Hfs|].
      rewrite (lattice_vectors_triples _ _ Hfs) in Hv. congruence.
    + rewrite (lattice_vectors_bad_token _ Hbad) in Hv. discriminate.
  - exists properties. split; [exact HgP|].
    now apply properties_list_Ok.
  - rewrite keys_extra_kv, keys_finished by congruence.
    unfold kv_dict. now rewrite keys_build_kv_dict.
  - intros key. rewrite getitem_extra_kv.
    destruct (String.eqb key "Lattice") eqn:E1; [reflexivity|].
    destruct (String.eqb key "Properties") eqn:E2; [reflexivity|].
    simpl. apply String.eqb_neq in E1, E2.
    rewrite getitem_finished_extra by auto.
    unfold kv_dict. rewrite build_kv_dict_getitem.
    destruct (last_value key (Re.findall comment)) as [v|]; simpl; [|reflexivity].
    unfold retype.
    rewrite (proj2 (String.eqb_neq _ _) E1), (proj2 (String.eqb_neq _ _) E2).
    reflexivity.
Qed.

Lemma C10_zero_atoms_empty_columns_witness :
  int ("0" ++ nl) = Some 0%Z
  /\ parse_extended_comment sample_comment
     = Ok (finished (kv_dict sample_comment)
             [(one, zero, zero); (zero, one, zero); (zero, zero, one)]
             [mkFrameProperties "species" STRING 1; mkFrameProperties "pos" REAL 3])
  /\ exists fr,
       __next__ ["0" ++ nl; sample_comment; "2" ++ nl] = (Ok fr, ["2" ++ nl])
       /\ data fr = []
       /\ num_atoms fr = 0%Z
       /\ LatticeVectors fr = [(one, zero, zero); (zero, one, zero); (zero, zero, one)]
       /\ FrameProperties_ fr
          = [mkFrameProperties "species" STRING 1; mkFrameProperties "pos" REAL 3]
       /\ keys (ExtraKV fr) = ["Energy"]
       /\ ExtraKV fr = [("Energy", KScalar (VReal (FDec true 15 (-1))))]
       /\ getitem "Energy" (ExtraKV fr) = Some (KScalar (VReal (FDec true 15 (-1))))
       /\ getitem "Lattice" (ExtraKV fr) = None
       /\ getitem "Properties" (ExtraKV fr) = None.
Proof.
  split; [reflexivity|]. split; [reflexivity|].
  destruct (C10_zero_atoms_empty_columns ("0" ++ nl) sample_comment ["2" ++ nl]
              (finished (kv_dict sample_comment)
                 [(one, zero, zero); (zero, one, zero); (zero, zero, one)]
                 [mkFrameProperties "species" STRING 1; mkFrameProperties "pos" REAL 3])
              eq_refl eq_refl)
    as (fr & Heq & Hdata & _ & Hn & _ & _ & Hextra
        & (lattice & fs & HgL & Hfs & Hvec)
        & (properties & HgP & _ & Hdec) & Hkeys & Hget).
  exists fr. split; [exact Heq|]. split; [exact Hdata|]. split; [exact Hn|].
  split.
  { assert (Hlat : lattice = "1 0 0 0 1 0 0 0 1").
    { assert (E : getitem "Lattice" (kv_dict sample_comment)
                  = Some (KScalar (VStr "1 0 0 0 1 0 0 0 1"))) by reflexivity.
      rewrite E in HgL. now injection HgL. }
    subst lattice.
    assert (Hfs' : fs = [one; zero; zero; zero; one; zero; zero; zero; one]).
    { apply map_Some_inj. rewrite <- Hfs. reflexivity. }
    rewrite Hvec, Hfs'. reflexivity. }
  split.
  { assert (Hprops : properties = "species:S:1:pos:R:3").
    { assert (E : getitem "Properties" (kv_dict sample_comment)
                  = Some (KScalar (VStr "species:S:1:pos:R:3"))) by reflexivity.
      rewrite E in HgP. now injection HgP. }
    subst properties.
    apply (decodes_one_schema _ _ _ Hdec).
    repeat constructor. }
  split; [rewrite Hkeys; reflexivity|].
  split; [rewrite Hextra; reflexivity|].
  split; [rewrite (Hget "Energy"); reflexivity|].
  split; [rewrite (Hget "Lattice") | rewrite (Hget "Properties")]; reflexivity.
Defined.
